(** * Pump-motor diagnostic engine (app.py): a shallow embedding

    The decision engine of [app.py] is embedded function by function.

    - Python floats are read as exact rationals ([Q]); rounding error of the
      binary floating-point format is not part of that model.  Equality of
      rationals is [Qeq] ([==]).  Where a property depends on rounding, the
      function concerned is read a second time on binary64 floats (module
      [F64]), every operation rounded as CPython rounds it.
    - Python ints (confidences, bearing temperatures entered with integer
      bounds and step) are [Z].
    - A Python [dict] is an insertion-ordered association list; [d.get(k)],
      [d.get(k, default)], [d[k]], [d.items()] and [d.values()] are the
      operations below.  [d[k]] on a missing key raises [KeyError].
    - Exceptions are explicit: every function that contains an operation able
      to raise returns a [result]. *)

From Stdlib Require Import QArith ZArith String Ascii List Lia Lqa Bool.
From Stdlib Require Import Qabs Qround DecimalString.
From Stdlib Require PrimFloat.
Import ListNotations.

Set Implicit Arguments.

(** ** Python run-time: exceptions, numbers, dicts *)

Module Py.

Inductive exn : Type :=
| KeyError (key : string)
| ValueError
| ZeroDivisionError.

Inductive result (A : Type) : Type :=
| Ok (a : A)
| Raise (e : exn).
Arguments Ok {A} a.
Arguments Raise {A} e.

Definition bind {A B} (m : result A) (k : A -> result B) : result B :=
  match m with
  | Ok a => k a
  | Raise e => Raise e
  end.

Definition returns {A} (m : result A) : Prop := exists a, m = Ok a.

(** Comparisons of floats, as booleans. *)
Definition ltb (a b : Q) : bool := negb (Qle_bool b a).
Definition gtb (a b : Q) : bool := ltb b a.
Definition leb (a b : Q) : bool := Qle_bool a b.
Definition geb (a b : Q) : bool := Qle_bool b a.

(** [a / b]: true division, raising on a zero divisor. *)
Definition div (a b : Q) : result Q :=
  if Qeq_bool b 0 then Raise ZeroDivisionError else Ok (a / b)%Q.

(** [int(x)] on a float: truncation toward zero. *)
Definition int (x : Q) : Z := Z.quot (Qnum x) (Zpos (Qden x)).

(** [max(x0, x1, ...)] / [max([x0; x1; ...])]: the first maximal element;
    a later element replaces the running maximum only when strictly
    greater. *)
Fixpoint max_from (best : Q) (rest : list Q) : Q :=
  match rest with
  | [] => best
  | x :: rest' => max_from (if gtb x best then x else best) rest'
  end.

Definition max (xs : list Q) : result Q :=
  match xs with
  | [] => Raise ValueError
  | x :: rest => Ok (max_from x rest)
  end.

Fixpoint sum (xs : list Q) : Q :=
  match xs with
  | [] => 0
  | x :: rest => (x + sum rest)%Q
  end.

(** Insertion-ordered dictionaries with string keys. *)
Definition dict (V : Type) : Type := list (string * V).

Fixpoint get {V} (d : dict V) (k : string) : option V :=
  match d with
  | [] => None
  | (k', v) :: d' => if String.eqb k k' then Some v else get d' k
  end.

Definition get_default {V} (d : dict V) (k : string) (dflt : V) : V :=
  match get d k with
  | Some v => v
  | None => dflt
  end.

Definition index {V} (d : dict V) (k : string) : result V :=
  match get d k with
  | Some v => Ok v
  | None => Raise (KeyError k)
  end.

Definition keys {V} (d : dict V) : list string := map fst d.
Definition values {V} (d : dict V) : list V := map snd d.


(** [str(n)] for an int. *)
Definition str (n : Z) : string := NilZero.string_of_int (Z.to_int n).

End Py.

Import Py.

Declare Scope py_scope.
Delimit Scope py_scope with py.
Notation "x <- m ;; k" := (Py.bind m (fun x => k))
  (at level 61, m at next level, right associativity) : py_scope.
Infix "<?" := Py.ltb (at level 70, no associativity) : py_scope.
Infix ">?" := Py.gtb (at level 70, no associativity) : py_scope.
Infix "<=?" := Py.leb (at level 70, no associativity) : py_scope.
Infix ">=?" := Py.geb (at level 70, no associativity) : py_scope.

Local Open Scope string_scope.
Local Open Scope list_scope.
Local Open Scope Q_scope.
Local Open Scope py_scope.

(** ** Configuration constants *)

Module ISO_LIMITS_VELOCITY.
Definition Zone_A_Good : Q := 2.8.
Definition Zone_B_Acceptable : Q := 4.5.
Definition Zone_C_Unacceptable : Q := 7.1.
Definition Zone_D_Danger : Q := 11.0.
End ISO_LIMITS_VELOCITY.

Module ACCEL_BASELINE.
Definition Band1 : Q := 0.3.
Definition Band2 : Q := 0.2.
Definition Band3 : Q := 0.15.
End ACCEL_BASELINE.

Module BEARING_TEMP_LIMITS.
Definition normal_max : Z := 70.
Definition elevated_min : Z := 70.
Definition elevated_max : Z := 80.
Definition warning_min : Z := 80.
Definition warning_max : Z := 90.
Definition critical_min : Z := 90.
Definition delta_threshold : Z := 15.
Definition ambient_reference : Z := 30.
End BEARING_TEMP_LIMITS.

Module ELECTRICAL_LIMITS.
Definition voltage_unbalance_warning : Q := 1.0.
Definition voltage_unbalance_critical : Q := 2.0.
Definition current_unbalance_warning : Q := 5.0.
Definition current_unbalance_critical : Q := 8.0.
Definition voltage_tolerance_low : Q := 90.
Definition voltage_tolerance_high : Q := 110.
Definition current_load_warning : Q := 90.
Definition current_load_critical : Q := 100.
End ELECTRICAL_LIMITS.

(** ** Parameter calculators *)

Record HydraulicCalc : Type := {
  delta_p_bar : Q;
  head_m : Q;
  hydraulic_power_kw : Q;
  efficiency_percent : Q
}.

Definition calculate_hydraulic_parameters
    (suction_pressure discharge_pressure flow_rate motor_power sg : Q)
    : result HydraulicCalc :=
  let delta_p := discharge_pressure - suction_pressure in
  head <- (if sg >? 0 then Py.div (delta_p * 10.2) sg else Ok 0) ;;
  hydraulic_power <-
    (if (flow_rate >? 0) && (head >? 0)
     then Py.div (flow_rate * head * sg * 9.81) 3600
     else Ok 0) ;;
  efficiency <-
    (if motor_power >? 0
     then (q <- Py.div hydraulic_power motor_power ;; Ok (q * 100))
     else Ok 0) ;;
  Ok {| delta_p_bar := delta_p;
        head_m := head;
        hydraulic_power_kw := hydraulic_power;
        efficiency_percent := efficiency |}.

Record ElectricalCalc : Type := {
  v_avg : Q;
  i_avg : Q;
  voltage_unbalance_percent : Q;
  current_unbalance_percent : Q;
  load_estimate_percent : Q;
  voltage_within_tolerance : bool
}.

Definition calculate_electrical_parameters
    (v_l1l2 v_l2l3 v_l3l1 i_l1 i_l2 i_l3 rated_voltage fla : Q)
    : result ElectricalCalc :=
  v_avg <- Py.div (v_l1l2 + v_l2l3 + v_l3l1) 3 ;;
  i_avg <- Py.div (i_l1 + i_l2 + i_l3) 3 ;;
  let v_deviations := map (fun v => Qabs (v - v_avg)) [v_l1l2; v_l2l3; v_l3l1] in
  voltage_unbalance <-
    (if v_avg >? 0
     then (m <- Py.max v_deviations ;; q <- Py.div m v_avg ;; Ok (q * 100))
     else Ok 0) ;;
  let i_deviations := map (fun i => Qabs (i - i_avg)) [i_l1; i_l2; i_l3] in
  current_unbalance <-
    (if i_avg >? 0
     then (m <- Py.max i_deviations ;; q <- Py.div m i_avg ;; Ok (q * 100))
     else Ok 0) ;;
  load_estimate <-
    (if fla >? 0
     then (q <- Py.div i_avg fla ;; Ok (q * 100))
     else Ok 0) ;;
  ratio <- Py.div v_avg rated_voltage ;;
  let voltage_within_tolerance :=
    (ELECTRICAL_LIMITS.voltage_tolerance_low <=? ratio * 100)
    && (ratio * 100 <=? ELECTRICAL_LIMITS.voltage_tolerance_high) in
  Ok {| v_avg := v_avg;
        i_avg := i_avg;
        voltage_unbalance_percent := voltage_unbalance;
        current_unbalance_percent := current_unbalance;
        load_estimate_percent := load_estimate;
        voltage_within_tolerance := voltage_within_tolerance |}.

(** ** Diagnosis records *)

Inductive Severity : Type := Low | Medium | High.

Definition Severity_eqb (a b : Severity) : bool :=
  match a, b with
  | Low, Low | Medium, Medium | High, High => true
  | _, _ => false
  end.

(** The [details] entry of a result: the nested ["deviations"] dict of the
    hydraulic diagnoser (absent elsewhere) and the numeric entries stored
    directly under [details]. *)
Record Details : Type := {
  deviations : option (dict Q);
  scalars : dict Q
}.

Definition no_details : Details := {| deviations := None; scalars := [] |}.

Record DiagnosisResult : Type := {
  diagnosis : string;
  confidence : Z;
  severity : Severity;
  fault_type : string;
  domain : string;
  details : Details;
  champion_point : option string;
  temperature_notes : list string
}.

Record IntegratedDiagnosisResult : Type := {
  sys_diagnosis : string;
  sys_confidence : Z;
  sys_severity : Severity;
  sys_location : string;
  domain_breakdown : DiagnosisResult * DiagnosisResult * DiagnosisResult;
  correlation_notes : list string;
  sys_temperature_notes : list string
}.

(** ** Temperature analysis *)

(** Truth value of a dict entry read with [.get]: a missing key ([None]) and
    the number 0 are both false. *)
Definition truthy (v : option Z) : bool :=
  match v with
  | Some t => negb (t =? 0)%Z
  | None => false
  end.

Definition get_temperature_status (temp_celsius : Z) : string * string * Z :=
  if (temp_celsius =? 0)%Z then ("N/A", "⚪", 0%Z)
  else if (temp_celsius <? BEARING_TEMP_LIMITS.normal_max)%Z then ("Normal", "🟢", 0%Z)
  else if (temp_celsius <? BEARING_TEMP_LIMITS.elevated_max)%Z then ("Elevated", "🟡", 0%Z)
  else if (temp_celsius <? BEARING_TEMP_LIMITS.warning_max)%Z then ("Warning", "🟠", 1%Z)
  else ("Critical", "🔴", 2%Z).

Definition cat (parts : list string) : string := String.concat EmptyString parts.

(** One iteration of the loop over [temp_dict.items()]; the state is
    [(adjustment, notes)].  The values of the map are ints, so of the test
    [temp is None or temp == 0] only the second part can hold. *)
Definition temperature_step (diagnosis_consistent : bool)
    (st : Z * list string) (item : string * Z) : Z * list string :=
  let '(adjustment, notes) := st in
  let '(location, temp) := item in
  if (temp =? 0)%Z then st
  else
    let '(status, _, _) := get_temperature_status temp in
    if String.eqb status "Critical" then
      if diagnosis_consistent
      then ((adjustment + 20)%Z,
            notes ++ [cat ["⚠️ "; location; ": "; Py.str temp;
                           "°C (Critical) - Strong thermal confirmation"]])
      else ((adjustment - 10)%Z,
            notes ++ [cat ["⚠️ "; location; ": "; Py.str temp;
                           "°C (Critical) - Review required"]])
    else if String.eqb status "Warning" then
      if diagnosis_consistent
      then ((adjustment + 15)%Z,
            notes ++ [cat ["⚠️ "; location; ": "; Py.str temp;
                           "°C (Warning) - Thermal confirmation"]])
      else ((adjustment - 5)%Z,
            notes ++ [cat ["⚠️ "; location; ": "; Py.str temp;
                           "°C (Warning) - Monitor closely"]])
    else if String.eqb status "Elevated" then
      if diagnosis_consistent
      then ((adjustment + 10)%Z,
            notes ++ [cat ["📈 "; location; ": "; Py.str temp;
                           "°C (Elevated) - Early thermal indication"]])
      else (adjustment,
            notes ++ [cat ["📈 "; location; ": "; Py.str temp;
                           "°C (Elevated) - Monitor trend"]])
    else st.

(** The two DE-NDE temperature differences share one shape. *)
Definition delta_step (temp_dict : dict Z) (k_de k_nde label : string)
    (st : Z * list string) : result (Z * list string) :=
  let '(adjustment, notes) := st in
  if truthy (Py.get temp_dict k_de) && truthy (Py.get temp_dict k_nde) then
    t_de <- Py.index temp_dict k_de ;;
    t_nde <- Py.index temp_dict k_nde ;;
    let delta := Z.abs (t_de - t_nde) in
    if (delta >? BEARING_TEMP_LIMITS.delta_threshold)%Z
    then Ok ((adjustment + 5)%Z,
             notes ++ [cat ["🔍 "; label; " DE-NDE ΔT: "; Py.str delta;
                            "°C (>15°C) - Localized fault indicated"]])
    else Ok st
  else Ok st.

Definition calculate_temperature_confidence_adjustment
    (temp_dict : dict Z) (diagnosis_consistent : bool)
    : result (Z * list string) :=
  let st := fold_left (temperature_step diagnosis_consistent) temp_dict (0%Z, []) in
  st <- delta_step temp_dict "Pump_DE" "Pump_NDE" "Pump" st ;;
  st <- delta_step temp_dict "Motor_DE" "Motor_NDE" "Motor" st ;;
  let '(adjustment, notes) := st in
  notes <-
    (if truthy (Py.get temp_dict "Motor_DE") && truthy (Py.get temp_dict "Pump_DE") then
       t_m <- Py.index temp_dict "Motor_DE" ;;
       t_p <- Py.index temp_dict "Pump_DE" ;;
       if (t_m >? t_p + 10)%Z
       then Ok (notes ++ ["⚡ Motor DE > Pump DE - Possible electrical origin"])
       else Ok notes
     else Ok notes) ;;
  Ok (Z.min 20 (Z.max (-10) adjustment), notes).

(** ** Cross-domain aggregation *)

(** The mutable part of [system_result] and the two local accumulators while
    the correlation rules run. *)
Record AggState : Type := {
  agg_diagnosis : string;
  correlation_bonus : Z;
  correlated_faults : list string
}.

Definition agg_init : AggState :=
  {| agg_diagnosis := "Tidak Ada Korelasi Antar Domain Terdeteksi";
     correlation_bonus := 0;
     correlated_faults := [] |}.

Definition fire (bonus : Z) (note label : string) (st : AggState) : AggState :=
  {| agg_diagnosis := label;
     correlation_bonus := (correlation_bonus st + bonus)%Z;
     correlated_faults := correlated_faults st ++ [note] |}.

Definition in_strings (x : string) (xs : list string) : bool :=
  existsb (String.eqb x) xs.

Definition details_deviations (r : DiagnosisResult) : dict Q :=
  match deviations (details r) with
  | Some d => d
  | None => []
  end.

(** Correlation 1: Electrical -> Mechanical -> Hydraulic *)
Definition correlation1_cond (mech hyd elec : DiagnosisResult) : bool :=
  String.eqb (fault_type elec) "voltage"
  && in_strings (diagnosis mech) ["MISALIGNMENT"; "LOOSENESS"]
  && (Py.get_default (details_deviations hyd) "head_dev" 0 <? -5).

(** Correlation 2: Cavitation -> Bearing Wear *)
Definition correlation2_cond (mech hyd elec : DiagnosisResult) : bool :=
  String.eqb (fault_type hyd) "cavitation"
  && String.eqb (fault_type mech) "wear"
  && (Py.get_default (scalars (details elec)) "current_unbalance" 0 >? 5).

(** Correlation 3: Over Load + Efficiency Drop *)
Definition correlation3_cond (mech hyd elec : DiagnosisResult) : bool :=
  String.eqb (diagnosis elec) "OVER_LOAD"
  && String.eqb (fault_type hyd) "efficiency".

Definition correlation1 (mech hyd elec : DiagnosisResult) (st : AggState) : AggState :=
  if correlation1_cond mech hyd elec
  then fire 15 "Voltage unbalance → torque pulsation → hydraulic instability"
            "Electrical-Mechanical-Hydraulic Coupled Fault" st
  else st.

Definition correlation2 (mech hyd elec : DiagnosisResult) (st : AggState) : AggState :=
  if correlation2_cond mech hyd elec
  then fire 20 "Cavitation → impeller erosion → unbalance → current fluctuation"
            "Cascading Failure: Cavitation Origin" st
  else st.

Definition correlation3 (mech hyd elec : DiagnosisResult) (st : AggState) : AggState :=
  if correlation3_cond mech hyd elec
  then fire 10 "High electrical input + low hydraulic output → internal mechanical/hydraulic loss"
            "Internal Loss Investigation Required" st
  else st.

Definition correlation_rules (mech hyd elec : DiagnosisResult) : AggState :=
  correlation3 mech hyd elec
    (correlation2 mech hyd elec
       (correlation1 mech hyd elec agg_init)).

(** [if temp_data:] holds for a dict that is given and not empty. *)
Definition temp_data_given (temp_data : option (dict Z)) : option (dict Z) :=
  match temp_data with
  | Some [] => None
  | other => other
  end.

(** The temperature block: adjustment of the bonus, the temperature notes and
    the two notes appended to [correlated_faults]. *)
Definition temperature_block (mech_fault : string) (temp_data : option (dict Z))
    (st : AggState) : result (AggState * list string) :=
  match temp_data_given temp_data with
  | None => Ok (st, [])
  | Some td =>
      r <- calculate_temperature_confidence_adjustment td
             (negb (String.eqb mech_fault "normal")) ;;
      let '(temp_adjustment, temp_notes) := r in
      let bonus := (correlation_bonus st + temp_adjustment)%Z in
      faults <-
        (if truthy (Py.get td "Pump_DE") && truthy (Py.get td "Pump_NDE") then
           t_de <- Py.index td "Pump_DE" ;;
           t_nde <- Py.index td "Pump_NDE" ;;
           if (Z.abs (t_de - t_nde) >? BEARING_TEMP_LIMITS.delta_threshold)%Z
           then Ok (correlated_faults st
                    ++ ["Pump DE-NDE ΔT >15°C → Localized fault on DE bearing"])
           else Ok (correlated_faults st)
         else Ok (correlated_faults st)) ;;
      faults <-
        (if truthy (Py.get td "Motor_DE") && truthy (Py.get td "Pump_DE") then
           t_m <- Py.index td "Motor_DE" ;;
           t_p <- Py.index td "Pump_DE" ;;
           if (t_m >? t_p + 10)%Z
           then Ok (faults ++ ["Motor DE > Pump DE → Possible electrical origin"])
           else Ok faults
         else Ok faults) ;;
      Ok ({| agg_diagnosis := agg_diagnosis st;
             correlation_bonus := bonus;
             correlated_faults := faults |}, temp_notes)
  end.

(** Overall severity: ["High" in severities], else ["Medium" in severities],
    else Low. *)
Definition overall_severity (severities : list Severity) : Severity :=
  if existsb (Severity_eqb High) severities then High
  else if existsb (Severity_eqb Medium) severities then Medium
  else Low.

(** Critical temperature override: the loop over [temp_data.values()] leaves
    at the first hit. *)
Fixpoint critical_override (temps : list Z) (st : Severity * list string)
    : Severity * list string :=
  match temps with
  | [] => st
  | temp :: rest =>
      if negb (temp =? 0)%Z && (temp >? BEARING_TEMP_LIMITS.critical_min)%Z
      then (High, snd st ++ ["⚠️ Critical bearing temperature detected"])
      else critical_override rest st
  end.

(** [np.mean] of a non-empty list of ints. *)
Definition np_mean (xs : list Z) : Q :=
  inject_Z (fold_right Z.add 0%Z xs) / inject_Z (Z.of_nat (length xs)).

Definition aggregate_cross_domain_diagnosis
    (mech_result hyd_result elec_result : DiagnosisResult)
    (shared_context : dict string) (temp_data : option (dict Z))
    : result IntegratedDiagnosisResult :=
  let mech_fault := fault_type mech_result in
  let mech_sev := severity mech_result in
  let hyd_sev := severity hyd_result in
  let elec_sev := severity elec_result in
  let st := correlation_rules mech_result hyd_result elec_result in
  r <- temperature_block mech_fault temp_data st ;;
  let '(st, temp_notes) := r in
  let severities := [mech_sev; hyd_sev; elec_sev] in
  let sev := overall_severity severities in
  let '(sev, faults) :=
    match temp_data_given temp_data with
    | Some td => critical_override (Py.values td) (sev, correlated_faults st)
    | None => (sev, correlated_faults st)
    end in
  let confidences :=
    filter (fun c => (c >? 0)%Z)
           (map confidence [mech_result; hyd_result; elec_result]) in
  let base_confidence :=
    match confidences with
    | [] => 0
    | _ => np_mean confidences
    end in
  Ok {| sys_diagnosis := agg_diagnosis st;
        sys_confidence :=
          Z.min 95 (Py.int (base_confidence + inject_Z (correlation_bonus st)));
        sys_severity := sev;
        sys_location := "N/A";
        domain_breakdown := (mech_result, hyd_result, elec_result);
        correlation_notes :=
          match faults with
          | [] => ["Tidak ada korelasi kuat antar domain terdeteksi"]
          | _ => faults
          end;
        sys_temperature_notes := temp_notes |}.

(** ** Strings: [str.split()] and [needle in s] *)

(** The blank characters of [str.split()] among the one-byte characters:
    space, tab to carriage return, and the four separators 28 to 31. *)
Definition is_space (c : ascii) : bool :=
  let n := nat_of_ascii c in
  (Nat.eqb n 32 || (Nat.leb 9 n && Nat.leb n 13)
   || (Nat.leb 28 n && Nat.leb n 31))%bool.

(** [s.split()]: the maximal runs of non-blank characters; [cur] is the word
    being read, if any. *)
Fixpoint split_from (s : string) (cur : option string) : list string :=
  match s with
  | EmptyString =>
      match cur with
      | Some w => [w]
      | None => []
      end
  | String c s' =>
      if is_space c then
        match cur with
        | Some w => w :: split_from s' None
        | None => split_from s' None
        end
      else
        match cur with
        | Some w => split_from s' (Some (String.append w (String c EmptyString)))
        | None => split_from s' (Some (String c EmptyString))
        end
  end.

Definition split (s : string) : list string := split_from s None.

Fixpoint contains (needle s : string) : bool :=
  if String.prefix needle s then true
  else match s with
       | EmptyString => false
       | String _ s' => contains needle s'
       end.

(** ** Mechanical diagnoser *)

Definition FFTPeak : Type := (Q * Q)%type.

(** Bearing evaluation, one iteration of the loop over [bands_data.items()];
    the state is [(worst_bearing_severity, bearing_diag)]. *)
Definition bearing_step (st : Severity * string) (item : string * dict Q)
    : Severity * string :=
  let '(worst_bearing_severity, bearing_diag) := st in
  let bands := snd item in
  let base3 := ACCEL_BASELINE.Band3 in
  let base2 := ACCEL_BASELINE.Band2 in
  let base1 := ACCEL_BASELINE.Band1 in
  let b3 := Py.get_default bands "Band3" 0 in
  let b2 := Py.get_default bands "Band2" 0 in
  let b1 := Py.get_default bands "Band1" 0 in
  if (b1 >? 2.5 * base1) && (b2 >? 1.5 * base2) then
    (High, "BEARING_SEVERE")
  else if (b2 >? 2.0 * base2) && (b3 >? 1.5 * base3) then
    (if b2 >? 3 * base2 then High else Medium, "BEARING_DEVELOPED")
  else if b3 >? 2.0 * base3 then
    (if Severity_eqb worst_bearing_severity Low then Medium
     else worst_bearing_severity, "BEARING_EARLY")
  else st.

Definition bearing_path (bands_data : dict (dict Q)) : Severity * string :=
  fold_left bearing_step bands_data (Low, "Normal").

(** [max(vel_data, key=vel_data.get)]: the keys are visited in dict order and
    a key replaces the running champion only when its value is strictly
    greater.  [vel_data.get] is applied to keys of [vel_data] only, so its
    [None] case does not arise. *)
Definition vel_of (vel_data : dict Q) (k : string) : Q :=
  Py.get_default vel_data k 0.

Fixpoint max_key_from (key : string -> Q) (best : string) (rest : list string)
    : string :=
  match rest with
  | [] => best
  | k :: rest' =>
      max_key_from key (if key k >? key best then k else best) rest'
  end.

Definition max_key (vel_data : dict Q) : result string :=
  match Py.keys vel_data with
  | [] => Raise ValueError
  | k :: rest => Ok (max_key_from (vel_of vel_data) k rest)
  end.

(** [next((p[1] for p in fft_champ_data if abs(p[0]-target) < 0.05*rpm_hz), 0)] *)
Definition in_band (target rpm_hz : Q) (p : FFTPeak) : bool :=
  Qabs (fst p - target) <? 0.05 * rpm_hz.

Fixpoint next_amp (target rpm_hz : Q) (fft_champ_data : list FFTPeak) : Q :=
  match fft_champ_data with
  | [] => 0
  | p :: rest =>
      if in_band target rpm_hz p then snd p else next_amp target rpm_hz rest
  end.

Definition amp_1x (fft_champ_data : list FFTPeak) (rpm_hz : Q) : Q :=
  next_amp rpm_hz rpm_hz fft_champ_data.

Definition amp_2x (fft_champ_data : list FFTPeak) (rpm_hz : Q) : Q :=
  next_amp (2 * rpm_hz) rpm_hz fft_champ_data.

Definition count_high_verts (vel_data : dict Q) (limit_warning : Q) : Z :=
  Z.of_nat (length (filter (fun pv => contains "Vertical" (fst pv)
                                      && (snd pv >? limit_warning)) vel_data)).

(** The direction rules A, B, C; the result is [(low_freq_diag, low_freq_conf)]
    with [None] when no rule assigned a diagnosis. *)
Definition direction_rules (vel_data : dict Q) (fft_champ_data : list FFTPeak)
    (rpm_hz max_vel : Q) (machine end_ direction : string)
    : result (option string * Z) :=
  let limit_warning := ISO_LIMITS_VELOCITY.Zone_B_Acceptable in
  let a1 := amp_1x fft_champ_data rpm_hz in
  let a2 := amp_2x fft_champ_data rpm_hz in
  if String.eqb direction "Axial" && String.eqb end_ "DE" then
    let opp_machine := if String.eqb machine "Motor" then "Pump" else "Motor" in
    let opp_point := cat [opp_machine; " DE Axial"] in
    let opp_vel := Py.get_default vel_data opp_point 0 in
    if (a2 >? 0.5 * a1) || (opp_vel >? limit_warning) then
      x <- (if limit_warning >? 0
            then (q <- Py.div opp_vel limit_warning ;; Ok (q * 10))
            else Ok 0) ;;
      Ok (Some "MISALIGNMENT", Z.min 95 (75 + Py.int x))
    else Ok (None, 0%Z)
  else if String.eqb direction "Horizontal" then
    let opp_end := if String.eqb end_ "DE" then "NDE" else "DE" in
    let opp_point := cat [machine; " "; opp_end; " Horizontal"] in
    let opp_vel := Py.get_default vel_data opp_point 0 in
    let total_fft :=
      match fft_champ_data with
      | [] => 1
      | _ => Py.sum (map snd fft_champ_data)
      end in
    if (a1 >? 0.7 * total_fft) || (opp_vel >? limit_warning) then
      x <- (if max_vel >? 0
            then (q <- Py.div a1 max_vel ;; Ok (q * 20))
            else Ok 0) ;;
      Ok (Some "UNBALANCE", Z.min 90 (70 + Py.int x))
    else Ok (None, 0%Z)
  else if String.eqb direction "Vertical" then
    let high_verts := count_high_verts vel_data limit_warning in
    if (high_verts >=? 2)%Z || ((a2 >? 0.1) && (a1 >? 0.1)) then
      Ok (Some "LOOSENESS", Z.min 90 (60 + high_verts * 10))
    else Ok (None, 0%Z)
  else Ok (None, 0%Z).

(** Low-frequency path: [(low_freq_diag, low_freq_severity, low_freq_conf)]. *)
Definition low_freq_path (vel_data : dict Q) (fft_champ_data : list FFTPeak)
    (rpm_hz : Q) (champ_point : string) (max_vel : Q)
    : result (option string * Severity * Z) :=
  let limit_warning := ISO_LIMITS_VELOCITY.Zone_B_Acceptable in
  let limit_danger := ISO_LIMITS_VELOCITY.Zone_C_Unacceptable in
  if max_vel >? limit_warning then
    let low_freq_severity := if max_vel >? limit_danger then High else Medium in
    let '(machine, end_, direction) :=
      match split champ_point with
      | machine :: end_ :: direction :: _ => (machine, end_, direction)
      | _ => ("Pump", "DE", "Horizontal")
      end in
    r <- direction_rules vel_data fft_champ_data rpm_hz max_vel
           machine end_ direction ;;
    match r with
    | (Some d, conf) => Ok (Some d, low_freq_severity, conf)
    | (None, _) => Ok (Some "Tidak Terdiagnosa", low_freq_severity, 40%Z)
    end
  else Ok (None, Low, 0%Z).

Definition mech_base : DiagnosisResult :=
  {| diagnosis := "Normal";
     confidence := 99;
     severity := Low;
     fault_type := "normal";
     domain := "mechanical";
     details := no_details;
     champion_point := None;
     temperature_notes := [] |}.

(** [result["champion_point"] = c] *)
Definition set_champion (r : DiagnosisResult) (c : string) : DiagnosisResult :=
  {| diagnosis := diagnosis r;
     confidence := confidence r;
     severity := severity r;
     fault_type := fault_type r;
     domain := domain r;
     details := details r;
     champion_point := Some c;
     temperature_notes := temperature_notes r |}.

(** [result.update({"diagnosis": .., "confidence": .., "severity": ..,
    "fault_type": ..})] *)
Definition update (r : DiagnosisResult) (diag : string) (conf : Z)
    (sev : Severity) (ft : string) : DiagnosisResult :=
  {| diagnosis := diag;
     confidence := conf;
     severity := sev;
     fault_type := ft;
     domain := domain r;
     details := details r;
     champion_point := champion_point r;
     temperature_notes := temperature_notes r |}.

(** [low_freq_diag] is a string whenever the low-frequency severity is not
    Low, and the final decision reads it only then. *)
Definition diag_str (d : option string) : string :=
  match d with
  | Some s => s
  | None => EmptyString
  end.

Definition diagnose_mechanical_system (vel_data : dict Q)
    (bands_data : dict (dict Q)) (fft_champ_data : list FFTPeak)
    (rpm_hz : Q) (temp_data : dict Z) : result DiagnosisResult :=
  let '(worst_bearing_severity, bearing_diag) := bearing_path bands_data in
  champ_point <- max_key vel_data ;;
  max_vel <- Py.index vel_data champ_point ;;
  let result := set_champion mech_base champ_point in
  r <- low_freq_path vel_data fft_champ_data rpm_hz champ_point max_vel ;;
  let '(low_freq_diag, low_freq_severity, low_freq_conf) := r in
  if Severity_eqb low_freq_severity High then
    Ok (update result (diag_str low_freq_diag) low_freq_conf High "low_freq")
  else if Severity_eqb worst_bearing_severity High then
    Ok (update result bearing_diag 85 High "high_freq")
  else if Severity_eqb low_freq_severity Medium then
    Ok (update result (diag_str low_freq_diag) low_freq_conf Medium "low_freq")
  else if Severity_eqb worst_bearing_severity Medium then
    Ok (update result bearing_diag 75 Medium "high_freq")
  else
    Ok (set_champion result "Tidak Ada (Normal)").

(** ** Hydraulic diagnoser *)

Definition classify_hydraulic_performance
    (head_aktual head_design efficiency_aktual efficiency_bep
     flow_aktual flow_design : Q) : result (string * dict Q) :=
  dev_head <-
    (if head_design >? 0
     then (q <- Py.div (head_aktual - head_design) head_design ;; Ok (q * 100))
     else Ok 0) ;;
  dev_eff <-
    (if efficiency_bep >? 0
     then (q <- Py.div (efficiency_aktual - efficiency_bep) efficiency_bep ;;
           Ok (q * 100))
     else Ok 0) ;;
  dev_flow <-
    (if flow_design >? 0
     then (q <- Py.div (flow_aktual - flow_design) flow_design ;; Ok (q * 100))
     else Ok 0) ;;
  if (dev_head <? -5) && (dev_eff <? -5) then
    Ok ("UNDER_PERFORMANCE", [("head_dev", dev_head); ("eff_dev", dev_eff)])
  else if (dev_head >? 5) && (dev_flow <? -5) then
    Ok ("OVER_RESISTANCE", [("head_dev", dev_head); ("flow_dev", dev_flow)])
  else if (dev_eff <? -10) && (Qabs dev_head <=? 5) then
    Ok ("EFFICIENCY_DROP", [("eff_dev", dev_eff)])
  else if (Qabs dev_head <=? 5) && (Qabs dev_eff <=? 5) && (Qabs dev_flow <=? 5) then
    Ok ("NORMAL", [("head_dev", dev_head); ("eff_dev", dev_eff); ("flow_dev", dev_flow)])
  else
    Ok ("MIXED_DEVIATION",
        [("head_dev", dev_head); ("eff_dev", dev_eff); ("flow_dev", dev_flow)]).

Definition hydraulic_result (diag : string) (conf : Z) (sev : Severity) (ft : string)
    (devs : dict Q) (npsh_margin : Q) : DiagnosisResult :=
  {| diagnosis := diag;
     confidence := conf;
     severity := sev;
     fault_type := ft;
     domain := "hydraulic";
     details := {| deviations := Some devs;
                   scalars := [("npsh_margin_m", npsh_margin)] |};
     champion_point := None;
     temperature_notes := [] |}.

(** The NPSH margin computed from the suction pressure, the fluid and the
    required NPSH. *)
Definition npsh_margin_of (design_params fluid_props context : dict Q)
    : result Q :=
  let suction_pressure_bar := Py.get_default context "suction_pressure_bar" 0 in
  let vapor_pressure_kpa := Py.get_default fluid_props "vapor_pressure_kpa_38C" 0 in
  let sg := Py.get_default fluid_props "sg" 0.84 in
  let p_suction_abs_kpa := (suction_pressure_bar + 1.013) * 100 in
  npsha_estimated <-
    (if sg >? 0
     then Py.div (p_suction_abs_kpa - vapor_pressure_kpa) (sg * 9.81)
     else Ok 0) ;;
  let npshr := Py.get_default design_params "npsh_required_m" 0 in
  Ok (npsha_estimated - npshr).

Definition diagnose_hydraulic_single_point (hydraulic_calc : HydraulicCalc)
    (design_params fluid_props : dict Q) (observations : dict string)
    (context : dict Q) : result DiagnosisResult :=
  let head_aktual := head_m hydraulic_calc in
  let eff_aktual := efficiency_percent hydraulic_calc in
  let head_design := Py.get_default design_params "rated_head_m" 0 in
  let eff_bep := Py.get_default design_params "bep_efficiency" 0 in
  let flow_design := Py.get_default design_params "rated_flow_m3h" 0 in
  let flow_aktual := Py.get_default context "flow_aktual" 0 in
  r <- classify_hydraulic_performance head_aktual head_design eff_aktual
         eff_bep flow_aktual flow_design ;;
  let '(pattern, devs) := r in
  npsh_margin <- npsh_margin_of design_params fluid_props context ;;
  let noise_type := Py.get_default observations "noise_type" "Normal" in
  if String.eqb noise_type "Crackling" && (npsh_margin <? 0.5) then
    Ok (hydraulic_result "CAVITATION"
          (Z.min 90 (if npsh_margin <? 0.5
                     then 70 + Py.int ((0.5 - npsh_margin) * 20)
                     else 70))
          (if npsh_margin <? 0.3 then High else Medium)
          "cavitation" devs npsh_margin)
  else if String.eqb pattern "UNDER_PERFORMANCE" && String.eqb noise_type "Normal" then
    Ok (hydraulic_result "IMPELLER_WEAR"
          (Z.min 85 (60 + Py.int (Qabs (Py.get_default devs "head_dev" 0) * 2)))
          (if Py.get_default devs "head_dev" 0 <? -15 then High else Medium)
          "wear" devs npsh_margin)
  else if String.eqb pattern "OVER_RESISTANCE" then
    Ok (hydraulic_result "SYSTEM_RESISTANCE_HIGH"
          (Z.min 90 (70 + Py.int (Qabs (Py.get_default devs "head_dev" 0))))
          (if Py.get_default devs "flow_dev" 0 <? -30 then High else Medium)
          "system" devs npsh_margin)
  else if String.eqb pattern "EFFICIENCY_DROP" then
    Ok (hydraulic_result "EFFICIENCY_DROP"
          (Z.min 80 (65 + Py.int (Qabs (Py.get_default devs "eff_dev" 0))))
          (if Py.get_default devs "eff_dev" 0 <? -20 then High else Medium)
          "efficiency" devs npsh_margin)
  else if String.eqb pattern "NORMAL" then
    Ok (hydraulic_result "NORMAL_OPERATION" 95 Low "normal" devs npsh_margin)
  else
    Ok (hydraulic_result "Tidak Terdiagnosa" 40 Medium "unknown" devs npsh_margin).

(** ** The measurement schema and sample inputs *)

(** The twelve measurement points, in the order in which the data-entry layer
    inserts them. *)
Definition points : list string :=
  flat_map (fun machine =>
    flat_map (fun end_ =>
      map (fun direction => cat [machine; " "; end_; " "; direction])
          ["Horizontal"; "Vertical"; "Axial"])
      ["DE"; "NDE"])
    ["Pump"; "Motor"].

Definition bands (b1 b2 b3 : Q) : dict Q :=
  [("Band1", b1); ("Band2", b2); ("Band3", b3)].

(** The default band readings of the data-entry layer: below every bearing
    threshold. *)
Definition baseline_bands : dict Q := bands 0.2 0.15 0.1.

(** A complete 12-point band map: severe damage at the first point, a
    developed fault of moderate Band 2 at the second, baseline elsewhere. *)
Definition bands_severe_then_developed : dict (dict Q) :=
  combine points
    ([bands 1.0 0.5 0.1; bands 0.2 0.45 0.3] ++ repeat baseline_bands 10).

(** The same with an early (Band 3 only) fault at the second point. *)
Definition bands_severe_then_early : dict (dict Q) :=
  combine points
    ([bands 1.0 0.5 0.1; bands 0.2 0.15 0.35] ++ repeat baseline_bands 10).

Definition vel_all_one : dict Q := combine points (repeat 1 12).

Definition temps (pump_de pump_nde motor_de motor_nde : Z) : dict Z :=
  [("Pump_DE", pump_de); ("Pump_NDE", pump_nde);
   ("Motor_DE", motor_de); ("Motor_NDE", motor_nde)].

(** Results as the three diagnosers produce them on a healthy unit. *)
Definition mech_normal : DiagnosisResult :=
  set_champion mech_base "Tidak Ada (Normal)".

Definition hyd_normal : DiagnosisResult :=
  hydraulic_result "NORMAL_OPERATION" 95 Low "normal"
    [("head_dev", 0); ("eff_dev", 0); ("flow_dev", 0)] 1.

Definition elec_result (diag : string) (conf : Z) (sev : Severity)
    (ft : string) (vu cu load : Q) : DiagnosisResult :=
  {| diagnosis := diag;
     confidence := conf;
     severity := sev;
     fault_type := ft;
     domain := "electrical";
     details := {| deviations := None;
                   scalars := [("voltage_unbalance", vu);
                               ("current_unbalance", cu);
                               ("load_estimate", load)] |};
     champion_point := None;
     temperature_notes := [] |}.

Definition elec_normal : DiagnosisResult :=
  elec_result "NORMAL_ELECTRICAL" 95 Low "normal" 0.5 1.2 97.

(** A result of given confidence and nothing else of interest. *)
Definition with_confidence (r : DiagnosisResult) (c : Z) : DiagnosisResult :=
  update r (diagnosis r) c (severity r) (fault_type r).

(** ** Notions of the specification *)

(** The order Low < Medium < High. *)
Definition Severity_rank (s : Severity) : nat :=
  match s with
  | Low => 0
  | Medium => 1
  | High => 2
  end.

Definition Severity_max (a b : Severity) : Severity :=
  if Nat.leb (Severity_rank a) (Severity_rank b) then b else a.

(** A temperature is present when it is measured (not the sentinel 0). *)
Definition present (t : Z) : bool := negb (t =? 0)%Z.

(** The specification's [round]: rounding to the nearest integer, ties to the
    even one (Python's built-in [round]).  The source never calls it; it
    serves to state what the specification says. *)
Definition spec_round (x : Q) : Z :=
  let f := Qfloor x in
  let r := x - inject_Z f in
  if r <? 1 # 2 then f
  else if r >? 1 # 2 then (f + 1)%Z
  else if Z.even f then f else (f + 1)%Z.

(** The specification's mean of the confidences that are positive (0 when
    there is none). *)
Definition mean_of_positive (cs : list Z) : Q :=
  let pos := filter (fun c => (0 <? c)%Z) cs in
  match pos with
  | [] => 0
  | _ => inject_Z (fold_right Z.add 0%Z pos) / inject_Z (Z.of_nat (length pos))
  end.

(** The specification's band around a target frequency. *)
Definition within (target rpm_hz : Q) (p : FFTPeak) : Prop :=
  Qabs (fst p - target) < 0.05 * rpm_hz.

(** The temperature adjustment that enters the bonus: that of the adjuster
    when temperature data is given, 0 otherwise. *)
Definition temp_adjustment_is (mech_fault : string) (temp_data : option (dict Z))
    (adj : Z) : Prop :=
  match temp_data_given temp_data with
  | Some td =>
      exists notes,
        calculate_temperature_confidence_adjustment td
          (negb (String.eqb mech_fault "normal")) = Ok (adj, notes)
  | None => adj = 0%Z
  end.

(** Some present temperature of the given map satisfies [crit]. *)
Definition some_present_temperature (crit : Z -> bool)
    (temp_data : option (dict Z)) : bool :=
  match temp_data_given temp_data with
  | Some td => existsb (fun t => present t && crit t) (Py.values td)
  | None => false
  end.

(** The bonus contributed by the correlation rules that match. *)
Definition rules_bonus (mech hyd elec : DiagnosisResult) : Z :=
  ((if correlation1_cond mech hyd elec then 15 else 0)
   + (if correlation2_cond mech hyd elec then 20 else 0)
   + (if correlation3_cond mech hyd elec then 10 else 0))%Z.

(** A hydraulic measurement on diesel: suction 0.44 bar, discharge 3.73 bar,
    100 m3/h, 15 kW, with crackling noise and a required NPSH of 17.1 m. *)
Definition calc_diesel : HydraulicCalc :=
  {| delta_p_bar := 3.29;
     head_m := 39.95;
     hydraulic_power_kw := 9.15;
     efficiency_percent := 61 |}.

Definition design_diesel : dict Q :=
  [("rated_flow_m3h", 100); ("rated_head_m", 59.73);
   ("bep_efficiency", 75); ("npsh_required_m", 17.1)].

Definition fluid_diesel : dict Q :=
  [("sg", 0.84); ("vapor_pressure_kpa_38C", 0.5);
   ("viscosity_cst_40C", 3.0); ("flash_point_C", 52)].


Definition context_diesel : dict Q :=
  [("flow_aktual", 100); ("suction_pressure_bar", 0.44)].

Definition bands_all_baseline : dict (dict Q) :=
  combine points (repeat baseline_bands 12).


(** ** Electrical diagnoser *)

(** [electrical_calc] is the record of the electrical parameter calculator,
    which holds every key the diagnoser reads; [motor_specs] is a dict. *)
Definition diagnose_electrical_condition (electrical_calc : ElectricalCalc)
    (motor_specs : dict Q) : DiagnosisResult :=
  let voltage_unbalance := voltage_unbalance_percent electrical_calc in
  let current_unbalance := current_unbalance_percent electrical_calc in
  let load_estimate := load_estimate_percent electrical_calc in
  let within := voltage_within_tolerance electrical_calc in
  let v_avg := v_avg electrical_calc in
  let rated_voltage := Py.get_default motor_specs "rated_voltage" 400 in
  let finish diag conf sev ft :=
    elec_result diag conf sev ft voltage_unbalance current_unbalance
      load_estimate in
  if negb within then
    if v_avg <? rated_voltage * 0.9 then
      finish "UNDER_VOLTAGE" 70%Z
        (if load_estimate >? 80 then High else Medium) "voltage"
    else if v_avg >? rated_voltage * 1.1 then
      finish "OVER_VOLTAGE" 70%Z Medium "voltage"
    else
      finish "NORMAL_ELECTRICAL" 95%Z Low "normal"
  else if voltage_unbalance >? ELECTRICAL_LIMITS.voltage_unbalance_warning then
    finish "VOLTAGE_UNBALANCE"
      (Z.min 95 (60 + Py.int ((voltage_unbalance
                               - ELECTRICAL_LIMITS.voltage_unbalance_warning) * 15)))
      (if voltage_unbalance >? ELECTRICAL_LIMITS.voltage_unbalance_critical
       then High else Medium)
      "voltage"
  else if current_unbalance >? ELECTRICAL_LIMITS.current_unbalance_warning then
    finish "CURRENT_UNBALANCE"
      (Z.min 95 (60 + Py.int ((current_unbalance
                               - ELECTRICAL_LIMITS.current_unbalance_warning) * 5)))
      (if current_unbalance >? ELECTRICAL_LIMITS.current_unbalance_critical
       then High else Medium)
      "current"
  else if load_estimate >? ELECTRICAL_LIMITS.current_load_critical then
    finish "OVER_LOAD" (Z.min 95 (55 + Py.int (load_estimate - 100))) Medium "load"
  else if load_estimate <? 50 then
    finish "UNDER_LOAD" 50%Z Low "load"
  else
    finish "NORMAL_ELECTRICAL" 95%Z Low "normal".

(** ** Design-data estimators of the hydraulic tab *)

(** [min(a, b)] and [max(a, b)] on two numbers: the first argument unless the
    second is strictly smaller (greater). *)
Definition min2 (a b : Q) : Q := if b <? a then b else a.
Definition max2 (a b : Q) : Q := if b >? a then b else a.

Definition estimate_bep_efficiency (Q_ H P_motor SG motor_eff : Q) : result Q :=
  P_hyd_design <- Py.div (Q_ * H * SG * 9.81) 3600 ;;
  let P_shaft_est := P_motor * motor_eff in
  if (P_shaft_est >? 0) && (P_hyd_design >? 0) then
    q <- Py.div P_hyd_design P_shaft_est ;;
    let eff := q * 100 in
    Ok (min2 90 (max2 50 eff))
  else Ok 75.

Definition estimate_npshr_conservative (Q_m3h : Q) : Q :=
  if Q_m3h <? 50 then 3.0
  else if Q_m3h <? 200 then 4.0
  else 5.5.

(** The order on severities, as a relation. *)
Definition Severity_le (a b : Severity) : Prop :=
  (Severity_rank a <= Severity_rank b)%nat.

(** The severity the overall velocity of the champion calls for. *)
Definition velocity_severity (max_vel : Q) : Severity :=
  if max_vel >? ISO_LIMITS_VELOCITY.Zone_C_Unacceptable then High
  else if max_vel >? ISO_LIMITS_VELOCITY.Zone_B_Acceptable then Medium
  else Low.

(** One point's bands match some bearing rule. *)
Definition bearing_match (bands : dict Q) : bool :=
  let b3 := Py.get_default bands "Band3" 0 in
  let b2 := Py.get_default bands "Band2" 0 in
  let b1 := Py.get_default bands "Band1" 0 in
  ((b1 >? 2.5 * ACCEL_BASELINE.Band1) && (b2 >? 1.5 * ACCEL_BASELINE.Band2))
  || ((b2 >? 2.0 * ACCEL_BASELINE.Band2) && (b3 >? 1.5 * ACCEL_BASELINE.Band3))
  || (b3 >? 2.0 * ACCEL_BASELINE.Band3).

(** The unbalance percentage of three phase values, in closed form. *)
Definition unbalance_of (x1 x2 x3 : Q) : Q :=
  let avg := (x1 + x2 + x3) / 3 in
  if avg >? 0
  then Py.max_from (Qabs (x1 - avg)) [Qabs (x2 - avg); Qabs (x3 - avg)]
       / avg * 100
  else 0.


Definition observations_whining : dict string :=
  [("noise_type", "Whining"); ("fluid_condition", "Jernih")].

(** ** Recommendations *)

(** The line feed of the recommendation texts. *)
Definition nl : string := String (ascii_of_nat 10) EmptyString.

(** A severity as the string the results carry. *)
Definition Severity_str (s : Severity) : string :=
  match s with
  | Low => "Low"
  | Medium => "Medium"
  | High => "High"
  end.

(** The table [rec_map] of [get_mechanical_recommendation]. *)
Definition mechanical_rec_map (location : string) (severity : Severity) : dict string :=
  [
   ("UNBALANCE",
    cat [ "🔧 **";
          location;
          " - Unbalance**";
          nl;
          nl;
          "• Lakukan single/dual plane balancing pada rotor";
          nl;
          "• Periksa: material buildup pada impeller, korosi blade, keyway wear";
          nl;
          "• Target residual unbalance: < 4W/N (g·mm) per ISO 1940-1";
          nl;
          "• Severity: ";
          Severity_str severity;
          " → ";
          (if negb (Severity_eqb severity Low) then "Segera jadwalkan balancing" else "Monitor trend") ]);
   ("MISALIGNMENT",
    cat [ "🔧 **";
          location;
          " - Misalignment**";
          nl;
          nl;
          "• Lakukan laser alignment pump-motor coupling";
          nl;
          "• Toleransi target: < 0.05 mm offset, < 0.05 mm/m angular";
          nl;
          "• Periksa: pipe strain, soft foot, coupling wear";
          nl;
          "• Severity: ";
          Severity_str severity;
          " → ";
          (if Severity_eqb severity High then "Stop & align segera" else "Jadwalkan alignment") ]);
   ("LOOSENESS",
    cat [ "🔧 **";
          location;
          " - Mechanical Looseness**";
          nl;
          nl;
          "• Torque check semua baut: foundation, bearing housing, baseplate";
          nl;
          "• Periksa: crack pada struktur, worn dowel pins, grout deterioration";
          nl;
          "• Gunakan torque wrench sesuai spec manufacturer";
          nl;
          "• Severity: ";
          Severity_str severity;
          " → ";
          (if Severity_eqb severity High then "Amankan sebelum operasi" else "Jadwalkan tightening") ]);
   ("BEARING_EARLY",
    cat [ "🔧 **";
          location;
          " - Early Bearing Fault / Lubrication**";
          nl;
          nl;
          "• Cek lubrication: jenis grease, interval, quantity";
          nl;
          "• Ambil oil sample jika applicable (particle count, viscosity)";
          nl;
          "• Monitor trend Band 3 mingguan";
          nl;
          "• Severity: ";
          Severity_str severity;
          " → ";
          (if negb (Severity_eqb severity Low) then "Ganti grease & monitor ketat" else "Lanjutkan monitoring") ]);
   ("BEARING_DEVELOPED",
    cat [ "🔧 **";
          location;
          " - Developed Bearing Fault**";
          nl;
          nl;
          "• Jadwalkan bearing replacement dalam 1-3 bulan";
          nl;
          "• Siapkan spare bearing (pastikan clearance & fit sesuai spec)";
          nl;
          "• Monitor weekly: jika Band 1 naik drastis → percepat jadwal";
          nl;
          "• Severity: ";
          Severity_str severity;
          " → ";
          (if Severity_eqb severity High then "Plan shutdown segera" else "Siapkan work order") ]);
   ("BEARING_SEVERE",
    cat [ "🔴 **";
          location;
          " - Severe Bearing Damage**";
          nl;
          nl;
          "• RISK OF CATASTROPHIC FAILURE - Pertimbangkan immediate shutdown";
          nl;
          "• Jika continue operasi: monitor hourly, siapkan emergency replacement";
          nl;
          "• Investigasi root cause: lubrication, installation, loading?";
          nl;
          "• Severity: HIGH → Action required dalam 24 jam" ]);
   ("Tidak Terdiagnosa",
    cat [ "⚠️ **Pola Tidak Konsisten**";
          nl;
          nl;
          "• Data tidak match dengan rule mekanikal standar";
          nl;
          "• Kemungkinan: multi-fault interaction, measurement error, atau fault non-rutin";
          nl;
          "• Rekomendasi: Analisis manual oleh Vibration Analyst Level II+ dengan full spectrum review" ])
  ].

Definition get_mechanical_recommendation (diagnosis location : string)
    (severity : Severity) : result string :=
  let rec_map := mechanical_rec_map location severity in
  fallback <- Py.index rec_map "Tidak Terdiagnosa" ;;
  Ok (Py.get_default rec_map diagnosis fallback).

(** The table [rec_map] of [get_hydraulic_recommendation]. *)
Definition hydraulic_rec_map (fluid_type : string) (severity : Severity) : dict string :=
  [
   ("CAVITATION",
    cat [ "💧 **";
          fluid_type;
          " - Cavitation Risk**";
          nl;
          nl;
          "• Tingkatkan suction pressure atau turunkan fluid temperature";
          nl;
          "• Cek: strainer clogged, valve posisi, NPSH margin";
          nl;
          "• Target NPSH margin: > 0.5 m untuk ";
          fluid_type;
          nl;
          "• Severity: ";
          Severity_str severity;
          " → ";
          (if Severity_eqb severity High then "Evaluasi immediate shutdown jika NPSH margin <0.3m" else "Monitor intensif") ]);
   ("IMPELLER_WEAR",
    cat [ "💧 **";
          fluid_type;
          " - Impeller Wear / Internal Clearance**";
          nl;
          nl;
          "• Jadwalkan inspection impeller & wear ring";
          nl;
          "• Ukur internal clearance vs spec OEM";
          nl;
          "• Pertimbangkan: fluid viscosity effect pada slip loss";
          nl;
          "• Severity: ";
          Severity_str severity;
          " → ";
          (if negb (Severity_eqb severity Low) then "Siapkan spare impeller" else "Monitor trend efisiensi") ]);
   ("SYSTEM_RESISTANCE_HIGH",
    cat [ "💧 **";
          fluid_type;
          " - System Resistance Higher Than Design**";
          nl;
          nl;
          "• Cek valve discharge position, clogged line, atau filter pressure drop";
          nl;
          "• Verifikasi P&ID vs as-built condition";
          nl;
          "• Evaluasi: apakah operating point masih dalam acceptable range?";
          nl;
          "• Severity: ";
          Severity_str severity;
          " → ";
          (if Severity_eqb severity High then "Adjust valve / clean line segera" else "Jadwalkan system review") ]);
   ("EFFICIENCY_DROP",
    cat [ "💧 **";
          fluid_type;
          " - Efficiency Degradation**";
          nl;
          nl;
          "• Investigasi: mechanical loss vs hydraulic loss vs fluid property mismatch";
          nl;
          "• Severity: ";
          Severity_str severity;
          " → ";
          (if negb (Severity_eqb severity Low) then "Plan overhaul dalam 1-3 bulan" else "Monitor monthly") ]);
   ("NORMAL_OPERATION",
    cat [ "✅ **";
          fluid_type;
          " - Normal Operation**";
          nl;
          nl;
          "• Semua parameter dalam batas acceptable (±5% dari design)";
          nl;
          "• Rekam data ini sebagai baseline untuk trend monitoring";
          nl;
          "• Severity: Low → Continue routine monitoring" ]);
   ("Tidak Terdiagnosa",
    cat [ "⚠️ **Pola Tidak Konsisten**";
          nl;
          nl;
          "• Data hydraulic tidak match dengan rule standar";
          nl;
          "• Rekomendasi: Verifikasi data lapangan + cross-check dengan electrical/mechanical data" ])
  ].

Definition get_hydraulic_recommendation (diagnosis fluid_type : string)
    (severity : Severity) : result string :=
  let rec_map := hydraulic_rec_map fluid_type severity in
  fallback <- Py.index rec_map "Tidak Terdiagnosa" ;;
  Ok (Py.get_default rec_map diagnosis fallback).

(** The table [rec_map] of [get_electrical_recommendation]. *)
Definition electrical_rec_map (severity : Severity) : dict string :=
  [
   ("UNDER_VOLTAGE",
    cat [ "⚡ **Under Voltage Condition**";
          nl;
          nl;
          "• Cek supply voltage di MCC: possible transformer tap / cable voltage drop";
          nl;
          "• Verify: motor rated voltage vs actual operating voltage";
          nl;
          "• Severity: ";
          Severity_str severity;
          " → ";
          (if Severity_eqb severity High then "Coordinate dengan electrical team segera" else "Monitor voltage trend") ]);
   ("OVER_VOLTAGE",
    cat [ "⚡ **Over Voltage Condition**";
          nl;
          nl;
          "• Cek supply voltage di MCC: possible transformer tap issue";
          nl;
          "• Verify: motor rated voltage vs actual operating voltage";
          nl;
          "• Severity: ";
          Severity_str severity;
          " → ";
          (if Severity_eqb severity High then "Coordinate dengan electrical team segera" else "Monitor voltage trend") ]);
   ("VOLTAGE_UNBALANCE",
    cat [ "⚡ **Voltage Unbalance Detected**";
          nl;
          nl;
          "• Cek 3-phase supply balance di source: possible single-phase loading";
          nl;
          "• Inspect: loose connection, corroded terminal, faulty breaker";
          nl;
          "• Severity: ";
          Severity_str severity;
          " → ";
          (if negb (Severity_eqb severity Low) then "Balance supply sebelum mechanical damage" else "Monitor monthly") ]);
   ("CURRENT_UNBALANCE",
    cat [ "⚡ **Current Unbalance Detected**";
          nl;
          nl;
          "• Investigasi: winding fault, rotor bar issue, atau supply problem";
          nl;
          "• Cek insulation resistance & winding resistance balance";
          nl;
          "• Severity: ";
          Severity_str severity;
          " → ";
          (if negb (Severity_eqb severity Low) then "Schedule electrical inspection" else "Continue monitoring") ]);
   ("OVER_LOAD",
    cat [ "⚡ **Over Load Condition**";
          nl;
          nl;
          "• Motor operating above FLA rating";
          nl;
          "• Verify: process load, mechanical binding, or electrical issue";
          nl;
          "• Severity: ";
          Severity_str severity;
          " → ";
          (if Severity_eqb severity High then "Reduce load immediately" else "Monitor trend closely") ]);
   ("UNDER_LOAD",
    cat [ "⚡ **Under Load Condition**";
          nl;
          nl;
          "• Motor operating below 50% FLA";
          nl;
          "• Verify: process demand, pump sizing, or system resistance";
          nl;
          "• Severity: Low → Review operating point vs BEP" ]);
   ("NORMAL_ELECTRICAL",
    cat [ "✅ **Normal Electrical Condition**";
          nl;
          nl;
          "• Voltage balance <2%, current balance <5%, within rated limits";
          nl;
          "• Severity: Low → Continue routine electrical monitoring" ]);
   ("Tidak Terdiagnosa",
    cat [ "⚠️ **Pola Tidak Konsisten**";
          nl;
          nl;
          "• Data electrical tidak match dengan rule standar";
          nl;
          "• Rekomendasi: Verifikasi dengan power quality analyzer + cross-check domain lain" ])
  ].

Definition get_electrical_recommendation (diagnosis : string)
    (severity : Severity) : result string :=
  let rec_map := electrical_rec_map severity in
  fallback <- Py.index rec_map "Tidak Terdiagnosa" ;;
  Ok (Py.get_default rec_map diagnosis fallback).

(** ** The electrical parameter calculator on binary64 floats *)

(** [calculate_electrical_parameters] once more, on the doubles CPython
    computes with: [+], [-], [*], [/] and [abs] are the IEEE 754 binary64
    operations, rounded to nearest even; [/] raises on a zero divisor of
    either sign; comparisons are the IEEE ones.  The int literals of the
    source ([3], [100], [0], [90], [110]) are the doubles of the same value,
    as Python converts them in mixed arithmetic. *)
Module F64.
Import PrimFloat.
Local Open Scope float_scope.

Definition div (a b : float) : result float :=
  if PrimFloat.eqb b 0 then Raise ZeroDivisionError else Ok (a / b).

(** [max] of a list: a later element replaces the running maximum only when
    strictly greater. *)
Fixpoint max_from (best : float) (rest : list float) : float :=
  match rest with
  | [] => best
  | x :: rest' => max_from (if PrimFloat.ltb best x then x else best) rest'
  end.

Definition max (xs : list float) : result float :=
  match xs with
  | [] => Raise ValueError
  | x :: rest => Ok (max_from x rest)
  end.

Record ElectricalCalc : Type := {
  v_avg : float;
  i_avg : float;
  voltage_unbalance_percent : float;
  current_unbalance_percent : float;
  load_estimate_percent : float;
  voltage_within_tolerance : bool
}.

Definition calculate_electrical_parameters
    (v_l1l2 v_l2l3 v_l3l1 i_l1 i_l2 i_l3 rated_voltage fla : float)
    : result ElectricalCalc :=
  v_avg <- div (v_l1l2 + v_l2l3 + v_l3l1) 3 ;;
  i_avg <- div (i_l1 + i_l2 + i_l3) 3 ;;
  let v_deviations := map (fun v => abs (v - v_avg)) [v_l1l2; v_l2l3; v_l3l1] in
  voltage_unbalance <-
    (if PrimFloat.ltb 0 v_avg
     then (m <- max v_deviations ;; q <- div m v_avg ;; Ok (q * 100))
     else Ok 0) ;;
  let i_deviations := map (fun i => abs (i - i_avg)) [i_l1; i_l2; i_l3] in
  current_unbalance <-
    (if PrimFloat.ltb 0 i_avg
     then (m <- max i_deviations ;; q <- div m i_avg ;; Ok (q * 100))
     else Ok 0) ;;
  load_estimate <-
    (if PrimFloat.ltb 0 fla
     then (q <- div i_avg fla ;; Ok (q * 100))
     else Ok 0) ;;
  ratio <- div v_avg rated_voltage ;;
  let voltage_within_tolerance :=
    PrimFloat.leb 90 (ratio * 100) && PrimFloat.leb (ratio * 100) 110 in
  Ok {| v_avg := v_avg;
        i_avg := i_avg;
        voltage_unbalance_percent := voltage_unbalance;
        current_unbalance_percent := current_unbalance;
        load_estimate_percent := load_estimate;
        voltage_within_tolerance := voltage_within_tolerance |}.

(** [ELECTRICAL_LIMITS["current_unbalance_warning"]], the threshold the
    diagnoser compares the current unbalance with. *)
Definition current_unbalance_warning : float := 5.

End F64.

(** * Properties *)


(** ** Run-time lemmas *)

Lemma ltb_lt (a b : Q) : (a <? b) = true <-> a < b.
Proof.
  unfold Py.ltb. rewrite negb_true_iff, <- not_true_iff_false, Qle_bool_iff.
  split; [apply Qnot_le_lt | apply Qlt_not_le].
Qed.

Lemma ltb_ge (a b : Q) : (a <? b) = false <-> b <= a.
Proof.
  unfold Py.ltb. rewrite negb_false_iff. apply Qle_bool_iff.
Qed.

Lemma gtb_gt (a b : Q) : (a >? b) = true <-> b < a.
Proof. apply ltb_lt. Qed.

Lemma gtb_le (a b : Q) : (a >? b) = false <-> a <= b.
Proof. apply ltb_ge. Qed.

Lemma leb_le (a b : Q) : (a <=? b) = true <-> a <= b.
Proof. apply Qle_bool_iff. Qed.

Lemma div_nonzero (a b : Q) : ~ b == 0 -> Py.div a b = Ok (a / b).
Proof.
  intros Hb. unfold Py.div.
  destruct (Qeq_bool b 0) eqn:E; [|reflexivity].
  apply Qeq_bool_eq in E. contradiction.
Qed.

Lemma div_zero (a b : Q) : b == 0 -> Py.div a b = Raise ZeroDivisionError.
Proof.
  intros Hb. unfold Py.div. now rewrite (Qeq_eq_bool _ _ Hb).
Qed.

Lemma div_pos (a b : Q) : (b >? 0) = true -> Py.div a b = Ok (a / b).
Proof.
  intros Hb. apply div_nonzero. apply gtb_gt in Hb. lra.
Qed.

(** ** Hydraulic parameter calculator *)

(** C8: the hydraulic parameter calculator returns on every input, and its
    four outputs are the guarded formulas: head is [delta_p * 10.2 / sg] for
    [sg > 0] and 0 otherwise; hydraulic power is
    [flow * head * sg * 9.81 / 3600] when flow and head are positive and 0
    otherwise; efficiency is [hydraulic_power / motor_power * 100] for
    [motor_power > 0] and 0 otherwise, whatever the hydraulic power. *)
Theorem calculate_hydraulic_parameters_total :
  forall suction discharge flow motor_power sg : Q,
  exists r,
    calculate_hydraulic_parameters suction discharge flow motor_power sg = Ok r
    /\ delta_p_bar r = discharge - suction
    /\ (0 < sg -> head_m r = (discharge - suction) * 10.2 / sg)
    /\ (sg <= 0 -> head_m r = 0)
    /\ (0 < flow -> 0 < head_m r ->
        hydraulic_power_kw r = flow * head_m r * sg * 9.81 / 3600)
    /\ (~ (0 < flow /\ 0 < head_m r) -> hydraulic_power_kw r = 0)
    /\ (0 < motor_power ->
        efficiency_percent r = hydraulic_power_kw r / motor_power * 100)
    /\ (motor_power <= 0 -> efficiency_percent r = 0).
Proof.
  intros suction discharge flow motor_power sg.
  unfold calculate_hydraulic_parameters.
  set (dp := discharge - suction).
  assert (Hhead : exists head,
             (if sg >? 0 then Py.div (dp * 10.2) sg else Ok 0) = Ok head
             /\ (0 < sg -> head = dp * 10.2 / sg) /\ (sg <= 0 -> head = 0)).
  { destruct (sg >? 0) eqn:E.
    - rewrite (div_pos _ _ E). eexists; split; [reflexivity|].
      apply gtb_gt in E. split; [reflexivity | lra].
    - eexists; split; [reflexivity|].
      apply gtb_le in E. split; [lra | reflexivity]. }
  destruct Hhead as (head & -> & Hh1 & Hh2). cbn [Py.bind].
  assert (Hpow : exists hp,
             (if (flow >? 0) && (head >? 0)
              then Py.div (flow * head * sg * 9.81) 3600 else Ok 0) = Ok hp
             /\ (0 < flow -> 0 < head -> hp = flow * head * sg * 9.81 / 3600)
             /\ (~ (0 < flow /\ 0 < head) -> hp = 0)).
  { destruct ((flow >? 0) && (head >? 0)) eqn:E.
    - rewrite div_nonzero by (intro H; discriminate H).
      eexists; split; [reflexivity|].
      apply andb_true_iff in E. destruct E as [E1 E2].
      apply gtb_gt in E1, E2. split; [reflexivity | tauto].
    - eexists; split; [reflexivity|].
      apply andb_false_iff in E. split; [|reflexivity].
      intros Hf Hd. destruct E as [E|E]; apply gtb_le in E; lra. }
  destruct Hpow as (hp & -> & Hp1 & Hp2). cbn [Py.bind].
  destruct (motor_power >? 0) eqn:E.
  - rewrite (div_pos _ _ E). cbn [Py.bind].
    eexists; split; [reflexivity|]. cbn.
    apply gtb_gt in E. repeat split; auto; lra.
  - cbn [Py.bind]. eexists; split; [reflexivity|]. cbn.
    apply gtb_le in E. repeat split; auto; lra.
Qed.

(** ** Electrical parameter calculator *)


(** Scaling by a positive factor. *)
Section Scaling.

Variable k : Q.
Hypothesis Hk : 0 < k.





End Scaling.




Section Doubles.
Import PrimFloat.
Local Open Scope float_scope.


End Doubles.

(** ** Dictionaries *)

Lemma get_in_keys {V} (d : dict V) (k : string) :
  In k (Py.keys d) -> exists v, Py.get d k = Some v.
Proof.
  induction d as [|[k' v'] d IH]; cbn; [tauto|].
  intros [->|Hin].
  - rewrite String.eqb_refl. eauto.
  - destruct (String.eqb k k'); eauto.
Qed.



(** ** Champion point *)

(** The champion splits the visited keys in two: every key before it has a
    strictly smaller value, every key after it a value not greater. *)
Lemma max_key_from_split (key : string -> Q) :
  forall rest best,
    exists pre post,
      best :: rest = pre ++ max_key_from key best rest :: post
      /\ Forall (fun k => key k < key (max_key_from key best rest)) pre
      /\ Forall (fun k => key k <= key (max_key_from key best rest)) post.
Proof.
  induction rest as [|k rest IH]; intros best; cbn [max_key_from].
  - exists [], []. repeat split; constructor.
  - destruct (key k >? key best) eqn:E.
    + apply gtb_gt in E.
      destruct (IH k) as (pre & post & Heq & Hpre & Hpost).
      remember (max_key_from key k rest) as c eqn:Hc. clear Hc.
      exists (best :: pre), post. split; [cbn; now rewrite Heq|].
      split; [|assumption].
      constructor; [|assumption].
      destruct pre as [|p pre]; cbn in Heq; injection Heq as Hk Hr.
      * subst c. exact E.
      * subst p. apply Forall_inv in Hpre. lra.
    + apply gtb_le in E.
      destruct (IH best) as (pre & post & Heq & Hpre & Hpost).
      remember (max_key_from key best rest) as c eqn:Hc. clear Hc.
      destruct pre as [|p pre]; cbn in Heq; injection Heq as Hb Hr.
      * subst c. exists [], (k :: post). split; [cbn; now rewrite Hr|].
        split; constructor; assumption.
      * subst p. exists (best :: k :: pre), post.
        split; [cbn; now rewrite Hr|]. split; [|assumption].
        pose proof (Forall_inv Hpre) as Hbest.
        apply Forall_inv_tail in Hpre.
        cbn beta in Hbest.
        constructor; [assumption|]. constructor; [lra | assumption].
Qed.

Lemma max_key_in (vel_data : dict Q) (c : string) :
  max_key vel_data = Ok c -> In c (Py.keys vel_data).
Proof.
  unfold max_key. destruct (Py.keys vel_data) as [|k rest]; [discriminate|].
  intros [= <-].
  destruct (max_key_from_split (vel_of vel_data) rest k)
    as (pre & post & Heq & _).
  rewrite Heq. apply in_elt.
Qed.

Lemma max_key_nonempty (vel_data : dict Q) :
  vel_data <> [] -> Py.returns (max_key vel_data).
Proof.
  unfold max_key, Py.returns. destruct vel_data as [|[k v] d]; [congruence|].
  cbn. eauto.
Qed.


(** ** Totality of the mechanical diagnoser *)

Lemma limit_warning_pos : (ISO_LIMITS_VELOCITY.Zone_B_Acceptable >? 0) = true.
Proof. reflexivity. Qed.








(** ** Bearing path *)

(** What one point does to the running verdict, by the rule it matches. *)
Lemma bearing_step_cases (st : Severity * string) (item : string * dict Q) :
  bearing_step st item = (High, "BEARING_SEVERE")
  \/ bearing_step st item = (High, "BEARING_DEVELOPED")
  \/ bearing_step st item = (Medium, "BEARING_DEVELOPED")
  \/ bearing_step st item = (Severity_max (fst st) Medium, "BEARING_EARLY")
  \/ bearing_step st item = st.
Proof.
  unfold bearing_step. destruct st as [sev diag]. cbv zeta.
  repeat match goal with
         | |- context [if ?b then _ else _] =>
             lazymatch b with
             | Severity_eqb _ _ => fail
             | _ => destruct b
             end
         end; auto.
  right. right. right. left. destruct sev; reflexivity.
Qed.

(** C3: on a complete 12-point band map whose first point is severely damaged
    (BEARING_SEVERE, High) and whose second point shows a developed fault with
    Band 2 at most three times its baseline, the fold ends at
    (BEARING_DEVELOPED, Medium): the second point lowers the severity reached
    at the first and replaces its diagnosis.  With an early fault at the
    second point the severity stays High but the diagnosis becomes
    BEARING_EARLY.  The diagnoser reports the lowered verdict. *)
Theorem bearing_path_downgrades :
  bearing_path (firstn 1 bands_severe_then_developed) = (High, "BEARING_SEVERE")
  /\ bearing_path (firstn 2 bands_severe_then_developed)
     = (Medium, "BEARING_DEVELOPED")
  /\ bearing_path bands_severe_then_developed = (Medium, "BEARING_DEVELOPED")
  /\ bearing_path bands_severe_then_early = (High, "BEARING_EARLY")
  /\ exists r,
       diagnose_mechanical_system vel_all_one bands_severe_then_developed
         [(25, 0.1); (50, 0.05)] 25 (temps 65 63 68 66) = Ok r
       /\ diagnosis r = "BEARING_DEVELOPED"
       /\ severity r = Medium
       /\ confidence r = 75%Z.
Proof.
  repeat split; try reflexivity.
  eexists. split; [vm_compute; reflexivity|]. repeat split.
Qed.

(** ** Temperature adjuster *)

Lemma index_truthy (d : dict Z) (k : string) :
  truthy (Py.get d k) = true -> exists v, Py.index d k = Ok v.
Proof.
  unfold truthy, Py.index. destruct (Py.get d k); [eauto | discriminate].
Qed.

Lemma delta_step_returns (td : dict Z) (k_de k_nde label : string)
    (st : Z * list string) :
  Py.returns (delta_step td k_de k_nde label st).
Proof.
  unfold delta_step, Py.returns. destruct st as [adj notes].
  destruct (truthy (Py.get td k_de)) eqn:E1; [|cbn; eauto].
  destruct (truthy (Py.get td k_nde)) eqn:E2; [|cbn; eauto].
  destruct (index_truthy _ _ E1) as [v1 ->].
  destruct (index_truthy _ _ E2) as [v2 ->].
  cbn. destruct (Z.abs (v1 - v2) >? BEARING_TEMP_LIMITS.delta_threshold)%Z; eauto.
Qed.

(** The adjuster returns on every temperature map, whatever keys it has, and
    its adjustment is clamped to [-10, 20]. *)
Lemma calculate_temperature_confidence_adjustment_returns
    (td : dict Z) (consistent : bool) :
  exists adjustment notes,
    calculate_temperature_confidence_adjustment td consistent
    = Ok (adjustment, notes)
    /\ (-10 <= adjustment <= 20)%Z.
Proof.
  unfold calculate_temperature_confidence_adjustment.
  destruct (delta_step_returns td "Pump_DE" "Pump_NDE" "Pump"
              (fold_left (temperature_step consistent) td (0%Z, [])))
    as [st1 ->].
  cbn [Py.bind].
  destruct (delta_step_returns td "Motor_DE" "Motor_NDE" "Motor" st1)
    as [[adj notes] ->].
  cbn [Py.bind].
  assert (Hn : exists notes',
             (if truthy (Py.get td "Motor_DE") && truthy (Py.get td "Pump_DE")
              then t_m <- Py.index td "Motor_DE" ;;
                   t_p <- Py.index td "Pump_DE" ;;
                   if (t_m >? t_p + 10)%Z
                   then Ok (notes ++ ["⚡ Motor DE > Pump DE - Possible electrical origin"])
                   else Ok notes
              else Ok notes) = Ok notes').
  { destruct (truthy (Py.get td "Motor_DE")) eqn:E1; [|cbn; eauto].
    destruct (truthy (Py.get td "Pump_DE")) eqn:E2; [|cbn; eauto].
    destruct (index_truthy _ _ E1) as [v1 ->].
    destruct (index_truthy _ _ E2) as [v2 ->].
    cbn. destruct (v1 >? v2 + 10)%Z; eauto. }
  destruct Hn as [notes' ->]. cbn [Py.bind].
  do 2 eexists. split; [reflexivity | lia].
Qed.

(** ** Cross-domain aggregator *)

Lemma critical_override_spec (ts : list Z) (sev : Severity) (faults : list string) :
  critical_override ts (sev, faults)
  = if existsb (fun t => present t && (t >? BEARING_TEMP_LIMITS.critical_min)%Z) ts
    then (High, faults ++ ["⚠️ Critical bearing temperature detected"])
    else (sev, faults).
Proof.
  induction ts as [|t ts IH]; cbn [critical_override existsb]; [reflexivity|].
  unfold present at 1.
  destruct (negb (t =? 0)%Z && (t >? BEARING_TEMP_LIMITS.critical_min)%Z);
    [reflexivity | exact IH].
Qed.

Lemma overall_severity_max (a b c : Severity) :
  overall_severity [a; b; c] = Severity_max a (Severity_max b c).
Proof. destruct a, b, c; reflexivity. Qed.

Lemma temperature_block_returns (mech_fault : string)
    (temp_data : option (dict Z)) (st : AggState) :
  exists st' temp_notes adj extra,
    temperature_block mech_fault temp_data st = Ok (st', temp_notes)
    /\ temp_adjustment_is mech_fault temp_data adj
    /\ (-10 <= adj <= 20)%Z
    /\ agg_diagnosis st' = agg_diagnosis st
    /\ correlation_bonus st' = (correlation_bonus st + adj)%Z
    /\ correlated_faults st' = correlated_faults st ++ extra.
Proof.
  unfold temperature_block, temp_adjustment_is.
  destruct (temp_data_given temp_data) as [td|].
  2:{ exists st, [], 0%Z, []. rewrite app_nil_r.
      repeat split; try reflexivity; lia. }
  destruct (calculate_temperature_confidence_adjustment_returns td
              (negb (String.eqb mech_fault "normal")))
    as (adj & notes & Hcalc & Hrange).
  rewrite Hcalc. cbn [Py.bind].
  assert (H1 : exists e1,
             (if truthy (Py.get td "Pump_DE") && truthy (Py.get td "Pump_NDE")
              then t_de <- Py.index td "Pump_DE" ;;
                   t_nde <- Py.index td "Pump_NDE" ;;
                   if (Z.abs (t_de - t_nde) >? BEARING_TEMP_LIMITS.delta_threshold)%Z
                   then Ok (correlated_faults st
                            ++ ["Pump DE-NDE ΔT >15°C → Localized fault on DE bearing"])
                   else Ok (correlated_faults st)
              else Ok (correlated_faults st)) = Ok (correlated_faults st ++ e1)).
  { destruct (truthy (Py.get td "Pump_DE")) eqn:E1;
      [|exists []; cbn; now rewrite app_nil_r].
    destruct (truthy (Py.get td "Pump_NDE")) eqn:E2;
      [|exists []; cbn; now rewrite app_nil_r].
    destruct (index_truthy _ _ E1) as [v1 ->].
    destruct (index_truthy _ _ E2) as [v2 ->].
    cbn. destruct (Z.abs (v1 - v2) >? BEARING_TEMP_LIMITS.delta_threshold)%Z;
      [eauto | exists []; now rewrite app_nil_r]. }
  destruct H1 as [e1 ->]. cbn [Py.bind].
  assert (H2 : forall faults, exists e2,
             (if truthy (Py.get td "Motor_DE") && truthy (Py.get td "Pump_DE")
              then t_m <- Py.index td "Motor_DE" ;;
                   t_p <- Py.index td "Pump_DE" ;;
                   if (t_m >? t_p + 10)%Z
                   then Ok (faults ++ ["Motor DE > Pump DE → Possible electrical origin"])
                   else Ok faults
              else Ok faults) = Ok (faults ++ e2)).
  { intros faults.
    destruct (truthy (Py.get td "Motor_DE")) eqn:E1;
      [|exists []; cbn; now rewrite app_nil_r].
    destruct (truthy (Py.get td "Pump_DE")) eqn:E2;
      [|exists []; cbn; now rewrite app_nil_r].
    destruct (index_truthy _ _ E1) as [v1 ->].
    destruct (index_truthy _ _ E2) as [v2 ->].
    cbn. destruct (v1 >? v2 + 10)%Z;
      [eauto | exists []; now rewrite app_nil_r]. }
  destruct (H2 (correlated_faults st ++ e1)) as [e2 ->]. cbn [Py.bind].
  do 2 eexists. exists adj, (e1 ++ e2).
  split; [reflexivity|]. cbn.
  repeat split; try lia; eauto. now rewrite app_assoc.
Qed.

Lemma base_confidence_mean (cs : list Z) :
  match filter (fun c => (c >? 0)%Z) cs with
  | [] => 0
  | _ => np_mean (filter (fun c => (c >? 0)%Z) cs)
  end = mean_of_positive cs.
Proof.
  unfold mean_of_positive, np_mean.
  rewrite (filter_ext (fun c => (c >? 0)%Z) (fun c => (0 <? c)%Z))
    by (intros c; apply Z.gtb_ltb).
  reflexivity.
Qed.

(** The aggregator returns on every input; each field of its result in
    closed form. *)
Lemma aggregate_spec (mech hyd elec : DiagnosisResult)
    (shared_context : dict string) (temp_data : option (dict Z)) :
  let st := correlation_rules mech hyd elec in
  let critical :=
    some_present_temperature
      (fun t => (t >? BEARING_TEMP_LIMITS.critical_min)%Z) temp_data in
  exists r adj extra,
    aggregate_cross_domain_diagnosis mech hyd elec shared_context temp_data = Ok r
    /\ temp_adjustment_is (fault_type mech) temp_data adj
    /\ (-10 <= adj <= 20)%Z
    /\ sys_diagnosis r = agg_diagnosis st
    /\ sys_confidence r
       = Z.min 95 (Py.int (mean_of_positive
                             [confidence mech; confidence hyd; confidence elec]
                           + inject_Z (correlation_bonus st + adj)))
    /\ sys_severity r
       = (if critical then High
          else overall_severity [severity mech; severity hyd; severity elec])
    /\ correlation_notes r
       = match correlated_faults st ++ extra
               ++ (if critical
                   then ["⚠️ Critical bearing temperature detected"] else [])
         with
         | [] => ["Tidak ada korelasi kuat antar domain terdeteksi"]
         | faults => faults
         end
    /\ domain_breakdown r = (mech, hyd, elec).
Proof.
  intros st critical.
  unfold aggregate_cross_domain_diagnosis. cbv zeta. fold st.
  destruct (temperature_block_returns (fault_type mech) temp_data st)
    as (st' & temp_notes & adj & extra & -> & Hadj & Hrange & Hd & Hb & Hf).
  cbn [Py.bind].
  assert (Hov :
    match temp_data_given temp_data with
    | Some td =>
        critical_override (Py.values td)
          (overall_severity [severity mech; severity hyd; severity elec],
           correlated_faults st')
    | None =>
        (overall_severity [severity mech; severity hyd; severity elec],
         correlated_faults st')
    end
    = (if critical then High
       else overall_severity [severity mech; severity hyd; severity elec],
       correlated_faults st ++ extra
       ++ (if critical
           then ["⚠️ Critical bearing temperature detected"] else []))).
  { unfold critical, some_present_temperature.
    destruct (temp_data_given temp_data) as [td|].
    - rewrite critical_override_spec, Hf.
      destruct (existsb _ (Py.values td));
        [now rewrite <- app_assoc | now rewrite app_nil_r].
    - now rewrite Hf, app_nil_r. }
  rewrite Hov. clear Hov.
  eexists. exists adj, extra. split; [reflexivity|]. cbn.
  repeat split; try assumption; try lia.
  - rewrite Hb,
      <- (base_confidence_mean [confidence mech; confidence hyd; confidence elec]).
    reflexivity.
  - now destruct (correlated_faults st ++ extra ++ _).
Qed.

Lemma some_present_temperature_exists (crit : Z -> bool) (td : dict Z) :
  td <> [] ->
  (some_present_temperature crit (Some td) = true
   <-> exists k t, In (k, t) td /\ t <> 0%Z /\ crit t = true).
Proof.
  intros Hne. unfold some_present_temperature, temp_data_given.
  destruct td as [|kt td]; [congruence|].
  rewrite existsb_exists. unfold Py.values, present. split.
  - intros (t & Hin & Ht). apply in_map_iff in Hin.
    destruct Hin as ([k t'] & <- & Hin). cbn in Ht.
    apply andb_true_iff in Ht. destruct Ht as [Hp Hc].
    exists k, t'. repeat split; try assumption.
    apply negb_true_iff, Z.eqb_neq in Hp. exact Hp.
  - intros (k & t & Hin & Hnz & Hc). exists t. split.
    + apply in_map_iff. exists (k, t). split; [reflexivity | assumption].
    + apply Z.eqb_neq in Hnz. now rewrite Hnz, Hc.
Qed.

(** The integrated severity is the maximum of the three domain severities,
    raised to High exactly when some present temperature is strictly above
    90 degrees. *)
Lemma integrated_severity_spec (mech hyd elec : DiagnosisResult)
    (shared_context : dict string) (temp_data : option (dict Z)) :
  exists r,
    aggregate_cross_domain_diagnosis mech hyd elec shared_context temp_data = Ok r
    /\ sys_severity r
       = if some_present_temperature (fun t => (t >? 90)%Z) temp_data
         then High
         else Severity_max (severity mech)
                (Severity_max (severity hyd) (severity elec)).
Proof.
  destruct (aggregate_spec mech hyd elec shared_context temp_data)
    as (r & adj & extra & Hr & _ & _ & _ & _ & Hs & _).
  exists r. split; [exact Hr|].
  rewrite Hs, overall_severity_max. reflexivity.
Qed.

(** C1: with all three domain severities Low and the bearing temperatures
    90, 63, 68 and 66 degrees, the aggregator returns severity Low, although
    the temperature classifier calls 90 degrees Critical and the adjuster
    books it as such: the override compares with [>] where the threshold
    [critical_min] is the least critical temperature.  At 91 degrees the
    override applies. *)
Theorem aggregate_severity_at_critical_min :
  (exists r,
     aggregate_cross_domain_diagnosis mech_normal hyd_normal elec_normal []
       (Some (temps 90 63 68 66)) = Ok r
     /\ sys_severity r = Low
     /\ sys_temperature_notes r
        = ["⚠️ Pump_DE: 90°C (Critical) - Review required";
           "🔍 Pump DE-NDE ΔT: 27°C (>15°C) - Localized fault indicated"])
  /\ fst (fst (get_temperature_status 90)) = "Critical"
  /\ some_present_temperature
       (fun t => (t >=? BEARING_TEMP_LIMITS.critical_min)%Z)
       (Some (temps 90 63 68 66)) = true
  /\ exists r,
       aggregate_cross_domain_diagnosis mech_normal hyd_normal elec_normal []
         (Some (temps 91 63 68 66)) = Ok r
       /\ sys_severity r = High.
Proof.
  split; [|split; [|split]].
  - eexists. split; [vm_compute; reflexivity|]. split; reflexivity.
  - reflexivity.
  - reflexivity.
  - eexists. split; [vm_compute; reflexivity|]. reflexivity.
Qed.

(** ** Correlation rules *)

Lemma correlation_rules_bonus (mech hyd elec : DiagnosisResult) :
  correlation_bonus (correlation_rules mech hyd elec) = rules_bonus mech hyd elec.
Proof.
  unfold correlation_rules, correlation3, correlation2, correlation1, rules_bonus.
  destruct (correlation1_cond mech hyd elec), (correlation2_cond mech hyd elec),
    (correlation3_cond mech hyd elec); reflexivity.
Qed.

(** C7: the three correlation rules are evaluated independently.  Each rule
    whose condition holds adds its bonus (15, 20, 10) to the correlation bonus
    and appends its note, in rule order; the label is that of the last rule
    that matched, and the sentinel when none did.  The aggregator returns with
    this label, with the rule notes at the head of its correlation notes, and
    with the summed bonus (plus the temperature adjustment) in its
    confidence. *)
Theorem correlation_rules_independent :
  forall (mech hyd elec : DiagnosisResult) (shared_context : dict string)
         (temp_data : option (dict Z)),
    let c1 := correlation1_cond mech hyd elec in
    let c2 := correlation2_cond mech hyd elec in
    let c3 := correlation3_cond mech hyd elec in
    let st := correlation_rules mech hyd elec in
    correlation_bonus st
    = ((if c1 then 15 else 0) + (if c2 then 20 else 0) + (if c3 then 10 else 0))%Z
    /\ correlated_faults st
       = (if c1
          then ["Voltage unbalance → torque pulsation → hydraulic instability"]
          else [])
         ++ (if c2
             then ["Cavitation → impeller erosion → unbalance → current fluctuation"]
             else [])
         ++ (if c3
             then ["High electrical input + low hydraulic output → internal mechanical/hydraulic loss"]
             else [])
    /\ agg_diagnosis st
       = (if c3 then "Internal Loss Investigation Required"
          else if c2 then "Cascading Failure: Cavitation Origin"
          else if c1 then "Electrical-Mechanical-Hydraulic Coupled Fault"
          else "Tidak Ada Korelasi Antar Domain Terdeteksi")
    /\ exists r adj tail,
         aggregate_cross_domain_diagnosis mech hyd elec shared_context temp_data
         = Ok r
         /\ sys_diagnosis r = agg_diagnosis st
         /\ correlation_notes r = correlated_faults st ++ tail
         /\ temp_adjustment_is (fault_type mech) temp_data adj
         /\ sys_confidence r
            = Z.min 95
                (Py.int (mean_of_positive
                           [confidence mech; confidence hyd; confidence elec]
                         + inject_Z (correlation_bonus st + adj))).
Proof.
  intros mech hyd elec shared_context temp_data c1 c2 c3 st.
  split; [apply correlation_rules_bonus|].
  split; [|split].
  - unfold st, correlation_rules, correlation3, correlation2, correlation1.
    fold c1 c2 c3. destruct c1, c2, c3; reflexivity.
  - unfold st, correlation_rules, correlation3, correlation2, correlation1.
    fold c1 c2 c3. destruct c1, c2, c3; reflexivity.
  - destruct (aggregate_spec mech hyd elec shared_context temp_data)
      as (r & adj & extra & Hr & Hadj & _ & Hd & Hc & _ & Hn & _).
    fold st in Hd, Hc, Hn.
    exists r, adj.
    destruct (correlated_faults st ++ extra ++ _) as [|f fs] eqn:E in Hn.
    + exists ["Tidak ada korelasi kuat antar domain terdeteksi"].
      apply app_eq_nil in E. destruct E as [-> _].
      repeat split; assumption.
    + eexists. rewrite <- E in Hn. repeat split; eassumption.
Qed.

(** ** Integrated confidence *)

Lemma int_lower_bound (x : Q) (n : Z) :
  inject_Z n <= x -> (n <= Py.int x)%Z.
Proof.
  destruct x as [p q]. unfold Qle, Py.int. cbn. rewrite Z.mul_1_r.
  intros H.
  rewrite <- (Z.quot_mul n (Z.pos q)) at 1 by discriminate.
  apply Z.quot_le_mono; lia.
Qed.

Lemma mean_of_positive_nonneg (cs : list Z) : 0 <= mean_of_positive cs.
Proof.
  unfold mean_of_positive.
  assert (Hpos : Forall (fun c => (0 < c)%Z) (filter (fun c => (0 <? c)%Z) cs)).
  { apply Forall_forall. intros c Hc. apply filter_In in Hc.
    now apply Z.ltb_lt. }
  destruct (filter (fun c => (0 <? c)%Z) cs) as [|c pos] eqn:E;
    [apply Qle_refl|].
  assert (Hsum : (0 <= fold_right Z.add 0 (c :: pos))%Z).
  { clear E. induction Hpos; cbn; lia. }
  apply Qle_shift_div_l.
  - change 0 with (inject_Z 0). rewrite <- Zlt_Qlt. cbn [length]. lia.
  - rewrite Qmult_0_l. change 0 with (inject_Z 0). now rewrite <- Zle_Qle.
Qed.

Lemma mean_of_positive_ge_10 (a b c : Z) :
  (10 <= a)%Z -> (10 <= b)%Z -> (10 <= c)%Z ->
  10 <= mean_of_positive [a; b; c].
Proof.
  intros Ha Hb Hc. unfold mean_of_positive. cbn [filter].
  replace (0 <? a)%Z with true by (symmetry; apply Z.ltb_lt; lia).
  replace (0 <? b)%Z with true by (symmetry; apply Z.ltb_lt; lia).
  replace (0 <? c)%Z with true by (symmetry; apply Z.ltb_lt; lia).
  apply Qle_shift_div_l; [reflexivity|].
  cbn [length fold_right].
  change (10 * inject_Z (Z.of_nat 3)) with (inject_Z 30).
  rewrite <- Zle_Qle. lia.
Qed.

Lemma rules_bonus_nonneg (mech hyd elec : DiagnosisResult) :
  (0 <= rules_bonus mech hyd elec)%Z.
Proof.
  unfold rules_bonus.
  destruct (correlation1_cond mech hyd elec), (correlation2_cond mech hyd elec),
    (correlation3_cond mech hyd elec); lia.
Qed.

(** C2, as the code has it: the aggregator returns on every input, and the
    integrated confidence is the minimum of 95 and the truncation toward zero
    ([int], not rounding to nearest) of the mean of the positive domain
    confidences plus the total bonus (the bonuses of the matching correlation
    rules plus the temperature adjustment).  It is at most 95 and at least
    -10, and it is non-negative whenever each domain confidence is at least
    10. *)
Theorem aggregate_confidence_truncates :
  forall (mech hyd elec : DiagnosisResult) (shared_context : dict string)
         (temp_data : option (dict Z)),
  exists r adj,
    aggregate_cross_domain_diagnosis mech hyd elec shared_context temp_data = Ok r
    /\ temp_adjustment_is (fault_type mech) temp_data adj
    /\ sys_confidence r
       = Z.min 95
           (Py.int (mean_of_positive
                      [confidence mech; confidence hyd; confidence elec]
                    + inject_Z (rules_bonus mech hyd elec + adj)))
    /\ (-10 <= sys_confidence r <= 95)%Z
    /\ ((10 <= confidence mech)%Z -> (10 <= confidence hyd)%Z ->
        (10 <= confidence elec)%Z -> (0 <= sys_confidence r)%Z).
Proof.
  intros mech hyd elec shared_context temp_data.
  destruct (aggregate_spec mech hyd elec shared_context temp_data)
    as (r & adj & extra & Hr & Hadj & Hrange & _ & Hc & _).
  rewrite correlation_rules_bonus in Hc.
  exists r, adj. split; [exact Hr|]. split; [exact Hadj|]. split; [exact Hc|].
  pose proof (rules_bonus_nonneg mech hyd elec) as Hb.
  pose proof (mean_of_positive_nonneg
                [confidence mech; confidence hyd; confidence elec]) as Hm.
  set (m := mean_of_positive _) in *.
  set (b := rules_bonus mech hyd elec) in *.
  assert (Hlow : inject_Z (-10) <= m + inject_Z (b + adj)).
  { assert (inject_Z (-10) <= inject_Z (b + adj)) by (rewrite <- Zle_Qle; lia).
    lra. }
  apply int_lower_bound in Hlow.
  split; [rewrite Hc; lia|].
  intros H1 H2 H3.
  assert (H10 : 10 <= m) by (apply mean_of_positive_ge_10; assumption).
  assert (Hnn : inject_Z 0 <= m + inject_Z (b + adj)).
  { assert (inject_Z (-10) <= inject_Z (b + adj)) by (rewrite <- Zle_Qle; lia).
    change (inject_Z (-10)) with (-10 # 1) in H.
    change (inject_Z 0) with 0. lra. }
  apply int_lower_bound in Hnn. rewrite Hc. lia.
Qed.

(** C2 fails as stated, on both counts.  With domain confidences 5, 5, 5, a
    mechanical verdict Normal and a single measured bearing at 95 degrees,
    the integrated confidence is -5, outside [0, 95].  With confidences 50,
    51, 51 and no bonus, it is 50, where rounding the mean 50.67 gives 51. *)
Lemma aggregate_confidence_counterexample :
  (exists r,
     aggregate_cross_domain_diagnosis
       (with_confidence mech_normal 5) (with_confidence hyd_normal 5)
       (with_confidence elec_normal 5) [] (Some (temps 95 0 0 0)) = Ok r
     /\ sys_confidence r = (-5)%Z
     /\ ~ (0 <= sys_confidence r <= 95)%Z)
  /\ (exists r,
        aggregate_cross_domain_diagnosis
          (with_confidence mech_normal 50) (with_confidence hyd_normal 51)
          (with_confidence elec_normal 51) [] None = Ok r
        /\ sys_confidence r = 50%Z
        /\ rules_bonus (with_confidence mech_normal 50)
             (with_confidence hyd_normal 51) (with_confidence elec_normal 51)
           = 0%Z
        /\ Z.min 95 (spec_round (mean_of_positive [50%Z; 51%Z; 51%Z] + inject_Z 0))
           = 51%Z
        /\ sys_confidence r
           <> Z.min 95 (spec_round (mean_of_positive [50%Z; 51%Z; 51%Z] + inject_Z 0))).
Proof.
  split.
  - eexists. split; [vm_compute; reflexivity|]. cbn. split; [reflexivity | lia].
  - eexists. split; [vm_compute; reflexivity|]. cbn.
    repeat split; try reflexivity. vm_compute. discriminate.
Qed.

(** ** Spectral peaks *)

Lemma in_band_within (target rpm_hz : Q) (p : FFTPeak) :
  in_band target rpm_hz p = true <-> within target rpm_hz p.
Proof. apply ltb_lt. Qed.

Lemma next_amp_first (target rpm_hz : Q) (pre : list FFTPeak) (p : FFTPeak)
    (post : list FFTPeak) :
  Forall (fun q => ~ within target rpm_hz q) pre ->
  within target rpm_hz p ->
  next_amp target rpm_hz (pre ++ p :: post) = snd p.
Proof.
  intros Hpre Hp. induction Hpre as [|q pre Hq _ IH]; cbn.
  - apply in_band_within in Hp. now rewrite Hp.
  - destruct (in_band target rpm_hz q) eqn:E; [|exact IH].
    apply in_band_within in E. contradiction.
Qed.

Lemma next_amp_none (target rpm_hz : Q) (fft : list FFTPeak) :
  Forall (fun q => ~ within target rpm_hz q) fft ->
  next_amp target rpm_hz fft = 0.
Proof.
  intros H. induction H as [|q fft Hq _ IH]; cbn; [reflexivity|].
  destruct (in_band target rpm_hz q) eqn:E; [|exact IH].
  apply in_band_within in E. contradiction.
Qed.

(** C5, as the code has it: the 1xRPM (2xRPM) amplitude read by the direction
    rules is the amplitude of the first peak, in the order of the supplied
    list, whose frequency is strictly less than 5% of the running-speed
    frequency away from the running-speed frequency (from twice it); it is 0
    when the list has no such peak. *)
Theorem amplitude_is_first_peak_in_band :
  forall (fft : list FFTPeak) (rpm_hz : Q),
    (forall pre p post,
        fft = pre ++ p :: post ->
        Forall (fun q => ~ within rpm_hz rpm_hz q) pre ->
        within rpm_hz rpm_hz p ->
        amp_1x fft rpm_hz = snd p)
    /\ (Forall (fun q => ~ within rpm_hz rpm_hz q) fft -> amp_1x fft rpm_hz = 0)
    /\ (forall pre p post,
           fft = pre ++ p :: post ->
           Forall (fun q => ~ within (2 * rpm_hz) rpm_hz q) pre ->
           within (2 * rpm_hz) rpm_hz p ->
           amp_2x fft rpm_hz = snd p)
    /\ (Forall (fun q => ~ within (2 * rpm_hz) rpm_hz q) fft ->
        amp_2x fft rpm_hz = 0).
Proof.
  intros fft rpm_hz. unfold amp_1x, amp_2x. repeat split.
  - intros pre p post -> Hpre Hp. now apply next_amp_first.
  - apply next_amp_none.
  - intros pre p post -> Hpre Hp. now apply next_amp_first.
  - apply next_amp_none.
Qed.

(** C5 fails as stated.  At a running speed of 50 Hz the list holds a peak at
    52 Hz (amplitude 1) and then one at 50 Hz (amplitude 2); both lie within
    5% of the target and the second is the nearer, yet the 1xRPM amplitude is
    that of the first.  And a peak at 104 Hz lies within 5% of the 2xRPM
    target 100 Hz, yet the 2xRPM amplitude is 0: the band around either
    target is 5% of the running-speed frequency. *)
Lemma nearest_peak_counterexample :
  Qabs (52 - 50) < 0.05 * 50
  /\ Qabs (50 - 50) < 0.05 * 50
  /\ Qabs (50 - 50) < Qabs (52 - 50)
  /\ amp_1x [(52, 1); (50, 2)] 50 = 1
  /\ ~ amp_1x [(52, 1); (50, 2)] 50 == 2
  /\ Qabs (104 - 2 * 50) < 0.05 * (2 * 50)
  /\ amp_2x [(104, 3)] 50 = 0.
Proof.
  repeat split; try reflexivity.
  intros H; discriminate H.
Qed.

(** ** Hydraulic diagnoser *)


Lemma npsh_margin_of_returns (design_params fluid_props context : dict Q) :
  Py.returns (npsh_margin_of design_params fluid_props context).
Proof.
  unfold npsh_margin_of, Py.returns. cbv zeta.
  destruct (Py.get_default fluid_props "sg" 0.84 >? 0) eqn:E; cbn; eauto.
  rewrite div_nonzero; cbn; eauto.
  apply gtb_gt in E. lra.
Qed.




(** ** Missing keys *)



Lemma get_not_in_keys {V} (d : dict V) (k : string) :
  ~ In k (Py.keys d) -> Py.get d k = None.
Proof.
  induction d as [|[k' v] d IH]; cbn; [reflexivity|].
  intros H. destruct (String.eqb k k') eqn:E.
  - apply String.eqb_eq in E. subst. tauto.
  - apply IH. tauto.
Qed.









(** * Further properties *)

(** ** Hydraulic parameter calculator: signs *)

(** The calculator's result, with every guard resolved. *)
Lemma calculate_hydraulic_parameters_eq (suction discharge flow motor_power sg : Q) :
  let head := if sg >? 0 then (discharge - suction) * 10.2 / sg else 0 in
  let power :=
    if (flow >? 0) && (head >? 0) then flow * head * sg * 9.81 / 3600 else 0 in
  calculate_hydraulic_parameters suction discharge flow motor_power sg
  = Ok {| delta_p_bar := discharge - suction;
          head_m := head;
          hydraulic_power_kw := power;
          efficiency_percent :=
            if motor_power >? 0 then power / motor_power * 100 else 0 |}.
Proof.
  cbv zeta. unfold calculate_hydraulic_parameters.
  destruct (sg >? 0) eqn:Es; [rewrite (div_pos _ _ Es)|]; cbn [Py.bind].
  - destruct ((flow >? 0) && _) eqn:Ef;
      [rewrite div_nonzero by (intro H; discriminate H)|]; cbn [Py.bind];
      (destruct (motor_power >? 0) eqn:Em; [rewrite (div_pos _ _ Em)|]);
      reflexivity.
  - destruct ((flow >? 0) && _) eqn:Ef;
      [rewrite div_nonzero by (intro H; discriminate H)|]; cbn [Py.bind];
      (destruct (motor_power >? 0) eqn:Em; [rewrite (div_pos _ _ Em)|]);
      reflexivity.
Qed.

Lemma Qdiv_pos (a b : Q) : 0 < a -> 0 < b -> 0 < a / b.
Proof.
  intros Ha Hb. apply Qlt_shift_div_l; [exact Hb | lra].
Qed.

Lemma Qdiv_nonneg (a b : Q) : 0 <= a -> 0 < b -> 0 <= a / b.
Proof.
  intros Ha Hb. apply Qle_shift_div_l; [exact Hb | lra].
Qed.

(** X1: hydraulic power and efficiency are never negative, whatever the
    inputs (negative pressures, flows or powers included); and a positive
    hydraulic power is reported only for a positive flow, a positive specific
    gravity and a discharge pressure above the suction pressure. *)
Theorem hydraulic_power_and_efficiency_nonnegative :
  forall suction discharge flow motor_power sg : Q,
  exists r,
    calculate_hydraulic_parameters suction discharge flow motor_power sg = Ok r
    /\ 0 <= hydraulic_power_kw r
    /\ 0 <= efficiency_percent r
    /\ (0 < hydraulic_power_kw r ->
        0 < flow /\ 0 < sg /\ suction < discharge).
Proof.
  intros suction discharge flow motor_power sg.
  eexists. split; [apply calculate_hydraulic_parameters_eq|]. cbn.
  set (head := if sg >? 0 then (discharge - suction) * 10.2 / sg else 0).
  assert (Hhead : 0 < head -> 0 < sg /\ suction < discharge).
  { unfold head. destruct (sg >? 0) eqn:Es; [|lra].
    apply gtb_gt in Es. intros H. split; [exact Es|].
    destruct (Qlt_le_dec suction discharge) as [Hlt|Hge]; [exact Hlt|].
    exfalso.
    assert (Hn : (discharge - suction) * 10.2 / sg <= 0).
    { apply Qle_shift_div_r; [exact Es | lra]. }
    lra. }
  assert (Hpow : 0 <= (if (flow >? 0) && (head >? 0)
                       then flow * head * sg * 9.81 / 3600 else 0)
                 /\ (0 < (if (flow >? 0) && (head >? 0)
                          then flow * head * sg * 9.81 / 3600 else 0) ->
                     0 < flow /\ 0 < sg /\ suction < discharge)).
  { destruct ((flow >? 0) && (head >? 0)) eqn:E; [|split; lra].
    apply andb_true_iff in E. destruct E as [Ef Eh].
    apply gtb_gt in Ef, Eh. destruct (Hhead Eh) as [Hsg Hdp].
    split; [|tauto].
    apply Qdiv_nonneg; [|reflexivity].
    assert (0 < flow * head) by (apply Qmult_lt_0_compat; assumption).
    assert (0 < flow * head * sg) by (apply Qmult_lt_0_compat; assumption).
    lra. }
  destruct Hpow as [Hp1 Hp2].
  split; [exact Hp1|]. split; [|exact Hp2].
  destruct (motor_power >? 0) eqn:Em; [|lra].
  apply gtb_gt in Em.
  assert (0 <= (if (flow >? 0) && (head >? 0)
                then flow * head * sg * 9.81 / 3600 else 0) / motor_power)
    by (apply Qdiv_nonneg; assumption).
  lra.
Qed.

(** X2: without lift (discharge pressure not above suction pressure) the head
    is not positive and both the hydraulic power and the efficiency are 0,
    whatever the flow and the motor power. *)
Theorem no_lift_no_power :
  forall suction discharge flow motor_power sg : Q,
    discharge <= suction ->
    exists r,
      calculate_hydraulic_parameters suction discharge flow motor_power sg = Ok r
      /\ head_m r <= 0
      /\ hydraulic_power_kw r = 0
      /\ efficiency_percent r == 0.
Proof.
  intros suction discharge flow motor_power sg Hle.
  eexists. split; [apply calculate_hydraulic_parameters_eq|]. cbn.
  set (head := if sg >? 0 then (discharge - suction) * 10.2 / sg else 0).
  assert (Hhead : head <= 0).
  { unfold head. destruct (sg >? 0) eqn:Es; [|lra].
    apply gtb_gt in Es. apply Qle_shift_div_r; [exact Es | lra]. }
  assert (Hgt : (head >? 0) = false) by (apply gtb_le; exact Hhead).
  rewrite Hgt, andb_false_r.
  split; [exact Hhead|]. split; [reflexivity|].
  destruct (motor_power >? 0) eqn:Em; [|reflexivity].
  apply gtb_gt in Em. field. lra.
Qed.

Lemma no_lift_no_power_witness :
  exists r,
    calculate_hydraulic_parameters 3 2 100 15 0.84 = Ok r
    /\ head_m r <= 0
    /\ hydraulic_power_kw r = 0
    /\ efficiency_percent r == 0.
Proof.
  apply (@no_lift_no_power 3 2 100 15 0.84). discriminate.
Defined.

(** ** Electrical parameter calculator: failure and bounds *)

Lemma max_from_upper :
  forall l best,
    best <= Py.max_from best l /\ Forall (fun y => y <= Py.max_from best l) l.
Proof.
  induction l as [|y l IH]; intros best; cbn [Py.max_from].
  - split; [apply Qle_refl | constructor].
  - destruct (y >? best) eqn:E.
    + apply gtb_gt in E. destruct (IH y) as [H1 H2].
      split; [lra|]. constructor; assumption.
    + apply gtb_le in E. destruct (IH best) as [H1 H2].
      split; [exact H1|]. constructor; [lra | assumption].
Qed.

(** The calculator's result when the rated voltage is not zero. *)
Lemma calculate_electrical_parameters_eq
    (v1 v2 v3 i1 i2 i3 rated_voltage fla : Q) :
  ~ rated_voltage == 0 ->
  exists r,
    calculate_electrical_parameters v1 v2 v3 i1 i2 i3 rated_voltage fla = Ok r
    /\ v_avg r = (v1 + v2 + v3) / 3
    /\ i_avg r = (i1 + i2 + i3) / 3
    /\ voltage_unbalance_percent r = unbalance_of v1 v2 v3
    /\ current_unbalance_percent r = unbalance_of i1 i2 i3
    /\ load_estimate_percent r
       = (if fla >? 0 then (i1 + i2 + i3) / 3 / fla * 100 else 0)
    /\ voltage_within_tolerance r
       = ((90 <=? (v1 + v2 + v3) / 3 / rated_voltage * 100)
          && ((v1 + v2 + v3) / 3 / rated_voltage * 100 <=? 110)).
Proof.
  intros Hrv. unfold calculate_electrical_parameters, unbalance_of.
  rewrite !(@div_nonzero _ 3) by (intro H; discriminate H). cbn [Py.bind map Py.max].
  rewrite (@div_nonzero _ rated_voltage) by exact Hrv.
  destruct ((v1 + v2 + v3) / 3 >? 0) eqn:Ev;
    [rewrite (div_pos _ _ Ev)|]; cbn [Py.bind];
    (destruct ((i1 + i2 + i3) / 3 >? 0) eqn:Ei;
     [rewrite (div_pos _ _ Ei)|]); cbn [Py.bind];
    (destruct (fla >? 0) eqn:Ef; [rewrite (div_pos _ _ Ef)|]); cbn [Py.bind];
    eexists; (split; [reflexivity|]); cbn; repeat split.
Qed.

(** X3: the electrical calculator fails exactly when the rated voltage is
    zero, and then with ZeroDivisionError; a full-load current of zero (or
    below) does not fail, it gives a load estimate of 0. *)
Theorem electrical_calculator_fails_iff_rated_voltage_zero :
  forall v1 v2 v3 i1 i2 i3 rated_voltage fla : Q,
    (calculate_electrical_parameters v1 v2 v3 i1 i2 i3 rated_voltage fla
     = Raise ZeroDivisionError <-> rated_voltage == 0)
    /\ (Py.returns
          (calculate_electrical_parameters v1 v2 v3 i1 i2 i3 rated_voltage fla)
        <-> ~ rated_voltage == 0)
    /\ (forall r,
           calculate_electrical_parameters v1 v2 v3 i1 i2 i3 rated_voltage fla
           = Ok r ->
           fla <= 0 -> load_estimate_percent r = 0).
Proof.
  intros v1 v2 v3 i1 i2 i3 rv fla.
  destruct (Qeq_dec rv 0) as [Hz|Hnz].
  - assert (Hraise : calculate_electrical_parameters v1 v2 v3 i1 i2 i3 rv fla
                     = Raise ZeroDivisionError).
    { unfold calculate_electrical_parameters.
      rewrite !(@div_nonzero _ 3) by (intro H; discriminate H).
      cbn [Py.bind map Py.max].
      rewrite (div_zero _ Hz).
      destruct ((v1 + v2 + v3) / 3 >? 0) eqn:Ev;
        [rewrite (div_pos _ _ Ev)|]; cbn [Py.bind];
        (destruct ((i1 + i2 + i3) / 3 >? 0) eqn:Ei;
         [rewrite (div_pos _ _ Ei)|]); cbn [Py.bind];
        (destruct (fla >? 0) eqn:Ef; [rewrite (div_pos _ _ Ef)|]);
        reflexivity. }
    rewrite Hraise. split; [tauto|]. split.
    + split; [intros [r Hr]; discriminate Hr | intros H; contradiction].
    + intros r Hr. discriminate Hr.
  - destruct (calculate_electrical_parameters_eq v1 v2 v3 i1 i2 i3 fla Hnz)
      as (r & Hr & _ & _ & _ & _ & Hload & _).
    rewrite Hr. split; [|split].
    + split; [intros H; discriminate H | intros H; contradiction].
    + split; [intros _; exact Hnz | intros _; now exists r].
    + intros r' [= <-] Hfla. rewrite Hload.
      apply gtb_le in Hfla. now rewrite Hfla.
Qed.

Lemma unbalance_of_nonneg (a b c : Q) : 0 <= unbalance_of a b c.
Proof.
  unfold unbalance_of. cbv zeta.
  destruct ((a + b + c) / 3 >? 0) eqn:E; [|apply Qle_refl].
  apply gtb_gt in E.
  set (avg := (a + b + c) / 3) in *.
  pose proof (proj1 (max_from_upper [Qabs (b - avg); Qabs (c - avg)]
                       (Qabs (a - avg)))) as Hm.
  pose proof (Qabs_nonneg (a - avg)) as Ha.
  assert (0 <= Py.max_from (Qabs (a - avg)) [Qabs (b - avg); Qabs (c - avg)]
               / avg) by (apply Qdiv_nonneg; lra).
  lra.
Qed.

(** X4: the unbalance percentages are never negative, whatever the signs of
    the phase values, and an unbalance is 0 whenever the average of its three
    phase values is not positive. *)
Theorem unbalance_never_negative :
  forall v1 v2 v3 i1 i2 i3 rated_voltage fla : Q,
    ~ rated_voltage == 0 ->
    exists r,
      calculate_electrical_parameters v1 v2 v3 i1 i2 i3 rated_voltage fla = Ok r
      /\ 0 <= voltage_unbalance_percent r
      /\ 0 <= current_unbalance_percent r
      /\ (v_avg r <= 0 -> voltage_unbalance_percent r = 0)
      /\ (i_avg r <= 0 -> current_unbalance_percent r = 0).
Proof.
  intros v1 v2 v3 i1 i2 i3 rv fla Hrv.
  destruct (calculate_electrical_parameters_eq v1 v2 v3 i1 i2 i3 fla Hrv)
    as (r & Hr & Hva & Hia & Hvu & Hcu & _).
  exists r. split; [exact Hr|]. rewrite Hvu, Hcu, Hva, Hia.
  split; [apply unbalance_of_nonneg|].
  split; [apply unbalance_of_nonneg|].
  split; intros H; apply gtb_le in H; unfold unbalance_of; cbv zeta;
    now rewrite H.
Qed.

Lemma unbalance_never_negative_witness :
  exists r,
    calculate_electrical_parameters 400 (-20) 10 (-82) 84 (-83) 400 85 = Ok r
    /\ 0 <= voltage_unbalance_percent r
    /\ current_unbalance_percent r = 0.
Proof.
  destruct (@unbalance_never_negative 400 (-20) 10 (-82) 84 (-83) 400 85)
    as (r & Hr & Hv & _ & _ & Hc); [intro H; discriminate H|].
  exists r. split; [exact Hr|]. split; [exact Hv|].
  apply Hc.
  assert (E : calculate_electrical_parameters 400 (-20) 10 (-82) 84 (-83) 400 85
              = Ok {| v_avg := (400 + -20 + 10) / 3;
                      i_avg := (-82 + 84 + -83) / 3;
                      voltage_unbalance_percent := unbalance_of 400 (-20) 10;
                      current_unbalance_percent := 0;
                      load_estimate_percent := (-82 + 84 + -83) / 3 / 85 * 100;
                      voltage_within_tolerance := false |}) by reflexivity.
  rewrite E in Hr. injection Hr as <-. discriminate.
Defined.

(** ** Electrical diagnoser *)

Lemma int_nonneg (x : Q) : 0 <= x -> (0 <= Py.int x)%Z.
Proof.
  intros H. apply int_lower_bound. exact H.
Qed.

(** The facts about a verdict of the electrical diagnoser that the later
    results share. *)
Lemma diagnose_electrical_condition_facts :
  forall (electrical_calc : ElectricalCalc) (motor_specs : dict Q),
    let r := diagnose_electrical_condition electrical_calc motor_specs in
    In (diagnosis r, fault_type r)
       [("UNDER_VOLTAGE", "voltage"); ("OVER_VOLTAGE", "voltage");
        ("VOLTAGE_UNBALANCE", "voltage"); ("CURRENT_UNBALANCE", "current");
        ("OVER_LOAD", "load"); ("UNDER_LOAD", "load");
        ("NORMAL_ELECTRICAL", "normal")]
    /\ (50 <= confidence r <= 95)%Z
    /\ (severity r = Low
        <-> diagnosis r = "NORMAL_ELECTRICAL" \/ diagnosis r = "UNDER_LOAD")
    /\ domain r = "electrical"
    /\ Py.get (scalars (details r)) "current_unbalance"
       = Some (current_unbalance_percent electrical_calc).
Proof.
  intros calc specs r. subst r. unfold diagnose_electrical_condition.
  cbv zeta.
  destruct (negb (voltage_within_tolerance calc)).
  { destruct (v_avg calc <? _).
    - unfold elec_result; cbn [diagnosis fault_type confidence severity domain
                                details scalars].
      split; [cbn [In]; tauto|]. split; [lia|]. split; [|split; reflexivity].
      destruct (load_estimate_percent calc >? 80);
        (split; [discriminate | intros [H|H]; discriminate H]).
    - destruct (v_avg calc >? _);
        unfold elec_result; cbn [diagnosis fault_type confidence severity domain
                                  details scalars].
      + split; [cbn [In]; tauto|]. split; [lia|]. split; [|split; reflexivity].
        split; [discriminate | intros [H|H]; discriminate H].
      + split; [cbn [In]; tauto|]. split; [lia|].
        split; [tauto | split; reflexivity]. }
  destruct (voltage_unbalance_percent calc
            >? ELECTRICAL_LIMITS.voltage_unbalance_warning) eqn:Ev.
  { unfold elec_result; cbn [diagnosis fault_type confidence severity domain
                              details scalars].
    split; [cbn [In]; tauto|].
    apply gtb_gt in Ev. unfold ELECTRICAL_LIMITS.voltage_unbalance_warning in *.
    assert (0 <= Py.int ((voltage_unbalance_percent calc - 1.0) * 15))%Z
      by (apply int_nonneg; lra).
    split; [lia|]. split; [|split; reflexivity].
    destruct (voltage_unbalance_percent calc >? _);
      (split; [discriminate | intros [H'|H']; discriminate H']). }
  destruct (current_unbalance_percent calc
            >? ELECTRICAL_LIMITS.current_unbalance_warning) eqn:Ec.
  { unfold elec_result; cbn [diagnosis fault_type confidence severity domain
                              details scalars].
    split; [cbn [In]; tauto|].
    apply gtb_gt in Ec. unfold ELECTRICAL_LIMITS.current_unbalance_warning in *.
    assert (0 <= Py.int ((current_unbalance_percent calc - 5.0) * 5))%Z
      by (apply int_nonneg; lra).
    split; [lia|]. split; [|split; reflexivity].
    destruct (current_unbalance_percent calc >? _);
      (split; [discriminate | intros [H'|H']; discriminate H']). }
  destruct (load_estimate_percent calc
            >? ELECTRICAL_LIMITS.current_load_critical) eqn:El.
  { unfold elec_result; cbn [diagnosis fault_type confidence severity domain
                              details scalars].
    split; [cbn [In]; tauto|].
    apply gtb_gt in El. unfold ELECTRICAL_LIMITS.current_load_critical in *.
    assert (0 <= Py.int (load_estimate_percent calc - 100))%Z
      by (apply int_nonneg; lra).
    split; [lia|]. split; [|split; reflexivity].
    split; [discriminate | intros [H'|H']; discriminate H']. }
  destruct (load_estimate_percent calc <? 50);
    unfold elec_result; cbn [diagnosis fault_type confidence severity domain
                              details scalars];
    (split; [cbn [In]; tauto|]; split; [lia|];
     split; [tauto | split; reflexivity]).
Qed.


(** X7: the diagnoser answers NORMAL_ELECTRICAL in two situations only: the
    voltage is flagged within tolerance and voltage unbalance is at most 1%,
    current unbalance at most 5% and the load between 50% and 100%; or the
    voltage is flagged out of tolerance while the average voltage lies
    within 90% to 110% of the rated voltage of [motor_specs] (400 when the
    key is missing), in which case unbalance and load are not looked at. *)
Theorem electrical_normal_iff :
  forall (electrical_calc : ElectricalCalc) (motor_specs : dict Q),
    let r := diagnose_electrical_condition electrical_calc motor_specs in
    let rated_voltage := Py.get_default motor_specs "rated_voltage" 400 in
    diagnosis r = "NORMAL_ELECTRICAL"
    <-> (voltage_within_tolerance electrical_calc = true
         /\ voltage_unbalance_percent electrical_calc <= 1
         /\ current_unbalance_percent electrical_calc <= 5
         /\ 50 <= load_estimate_percent electrical_calc <= 100)
        \/ (voltage_within_tolerance electrical_calc = false
            /\ rated_voltage * 0.9 <= v_avg electrical_calc
               <= rated_voltage * 1.1).
Proof.
  intros calc specs r rated. subst r rated.
  unfold diagnose_electrical_condition. cbv zeta.
  destruct (voltage_within_tolerance calc); cbn [negb].
  - unfold ELECTRICAL_LIMITS.voltage_unbalance_warning,
      ELECTRICAL_LIMITS.current_unbalance_warning,
      ELECTRICAL_LIMITS.current_load_critical.
    destruct (voltage_unbalance_percent calc >? 1.0) eqn:Ev;
      [apply gtb_gt in Ev | apply gtb_le in Ev].
    { cbn. split; [discriminate|]. intros [(_ & H & _)|[H _]];
        [lra | discriminate]. }
    destruct (current_unbalance_percent calc >? 5.0) eqn:Ec;
      [apply gtb_gt in Ec | apply gtb_le in Ec].
    { cbn. split; [discriminate|]. intros [(_ & _ & H & _)|[H _]];
        [lra | discriminate]. }
    destruct (load_estimate_percent calc >? 100) eqn:El;
      [apply gtb_gt in El | apply gtb_le in El].
    { cbn. split; [discriminate|]. intros [(_ & _ & _ & H)|[H _]];
        [lra | discriminate]. }
    destruct (load_estimate_percent calc <? 50) eqn:Eu;
      [apply ltb_lt in Eu | apply ltb_ge in Eu]; cbn.
    + split; [discriminate|]. intros [(_ & _ & _ & H)|[H _]];
        [lra | discriminate].
    + split; [|reflexivity]. intros _. left.
      split; [reflexivity|]. split; [lra|]. split; [lra|]. split; assumption.
  - destruct (v_avg calc <? _) eqn:Eu;
      [apply ltb_lt in Eu | apply ltb_ge in Eu].
    { cbn. split; [discriminate|]. intros [[H _]|[_ H]];
        [discriminate | lra]. }
    destruct (v_avg calc >? _) eqn:Eo;
      [apply gtb_gt in Eo | apply gtb_le in Eo]; cbn.
    + split; [discriminate|]. intros [[H _]|[_ H]]; [discriminate | lra].
    + split; [|reflexivity]. intros _. right. split; [reflexivity|].
      split; assumption.
Qed.

(** ** Design-data estimators *)

Lemma min2_max2_bounds (lo hi x : Q) :
  lo <= hi -> lo <= min2 hi (max2 lo x) <= hi.
Proof.
  intros H. unfold min2, max2.
  destruct (x >? lo) eqn:E1; [apply gtb_gt in E1 | apply gtb_le in E1].
  - destruct (x <? hi) eqn:E2; [apply ltb_lt in E2 | apply ltb_ge in E2]; lra.
  - destruct (lo <? hi) eqn:E2; [apply ltb_lt in E2 | apply ltb_ge in E2]; lra.
Qed.

(** X9: the BEP-efficiency estimator returns on every input, and its estimate
    lies between 50 and 90; it is the default 75 whenever the estimated shaft
    power or the design hydraulic power is not positive. *)
Theorem estimate_bep_efficiency_bounds :
  forall Q_ H P_motor SG motor_eff : Q,
  exists eff,
    estimate_bep_efficiency Q_ H P_motor SG motor_eff = Ok eff
    /\ 50 <= eff <= 90
    /\ (P_motor * motor_eff <= 0 \/ Q_ * H * SG * 9.81 / 3600 <= 0 ->
        eff = 75).
Proof.
  intros Q_ H P_motor SG motor_eff. unfold estimate_bep_efficiency.
  rewrite (@div_nonzero _ 3600) by (intro E; discriminate E). cbn [Py.bind].
  cbv zeta.
  destruct (P_motor * motor_eff >? 0) eqn:Es;
    [apply gtb_gt in Es | apply gtb_le in Es]; cbn [andb].
  - destruct (Q_ * H * SG * 9.81 / 3600 >? 0) eqn:Eh;
      [apply gtb_gt in Eh | apply gtb_le in Eh].
    + rewrite (@div_nonzero _ (P_motor * motor_eff)) by lra. cbn [Py.bind].
      eexists. split; [reflexivity|].
      split; [apply min2_max2_bounds; discriminate|].
      intros [Hc|Hc]; lra.
    + exists 75. split; [reflexivity|]. split; [split; discriminate | reflexivity].
  - exists 75. split; [reflexivity|]. split; [split; discriminate | reflexivity].
Qed.

(** X10: the conservative NPSHr estimate is 3.0, 4.0 or 5.5 m, and it never
    decreases when the rated flow increases. *)
Theorem estimate_npshr_conservative_monotone :
  forall q1 q2 : Q,
    q1 <= q2 ->
    estimate_npshr_conservative q1 <= estimate_npshr_conservative q2
    /\ 3 <= estimate_npshr_conservative q1 <= 5.5.
Proof.
  intros q1 q2 Hle. unfold estimate_npshr_conservative.
  destruct (q1 <? 50) eqn:E1; [apply ltb_lt in E1 | apply ltb_ge in E1];
    (destruct (q1 <? 200) eqn:E2; [apply ltb_lt in E2 | apply ltb_ge in E2]);
    (destruct (q2 <? 50) eqn:E3; [apply ltb_lt in E3 | apply ltb_ge in E3]);
    (destruct (q2 <? 200) eqn:E4; [apply ltb_lt in E4 | apply ltb_ge in E4]);
    try lra; repeat split; discriminate.
Qed.

Lemma estimate_npshr_conservative_monotone_witness :
  estimate_npshr_conservative 49 <= estimate_npshr_conservative 200
  /\ 3 <= estimate_npshr_conservative 49 <= 5.5.
Proof.
  apply (@estimate_npshr_conservative_monotone 49 200). discriminate.
Defined.

(** ** Temperature adjuster: signs and saturation *)

(** What one reading does to the running adjustment and notes. *)
Lemma temperature_step_effect (consistent : bool) (adj : Z) (notes : list string)
    (item : string * Z) :
  exists adj' added,
    temperature_step consistent (adj, notes) item = (adj', notes ++ added)
    /\ (added = [] -> adj' = adj)
    /\ (consistent = true -> (adj <= adj')%Z)
    /\ (consistent = false -> (adj' <= adj)%Z)
    /\ (snd item < 80 -> (adj <= adj')%Z)%Z
    /\ (consistent = true -> 90 <= snd item -> adj' = adj + 20)%Z.
Proof.
  destruct item as [location temp]. unfold temperature_step, get_temperature_status.
  unfold BEARING_TEMP_LIMITS.normal_max, BEARING_TEMP_LIMITS.elevated_max,
    BEARING_TEMP_LIMITS.warning_max. cbn [snd].
  destruct (temp =? 0)%Z eqn:E0.
  { apply Z.eqb_eq in E0. exists adj, []. rewrite app_nil_r.
    repeat split; try lia. }
  destruct (temp <? 70)%Z eqn:E1.
  { apply Z.ltb_lt in E1. exists adj, []. rewrite app_nil_r.
    repeat split; try lia. }
  destruct (temp <? 80)%Z eqn:E2.
  { apply Z.ltb_lt in E2. cbn [String.eqb Ascii.eqb Bool.eqb andb].
    destruct consistent; do 2 eexists; (split; [reflexivity|]);
      repeat split; try lia; try discriminate. }
  destruct (temp <? 90)%Z eqn:E3.
  { apply Z.ltb_lt in E3. apply Z.ltb_ge in E2.
    cbn [String.eqb Ascii.eqb Bool.eqb andb].
    destruct consistent; do 2 eexists; (split; [reflexivity|]);
      repeat split; try lia; try discriminate. }
  apply Z.ltb_ge in E3, E2. cbn [String.eqb Ascii.eqb Bool.eqb andb].
  destruct consistent; do 2 eexists; (split; [reflexivity|]);
    repeat split; try lia; try discriminate.
Qed.

Lemma delta_step_effect (td : dict Z) (k_de k_nde label : string)
    (adj : Z) (notes : list string) :
  exists adj' added,
    delta_step td k_de k_nde label (adj, notes) = Ok (adj', notes ++ added)
    /\ (added = [] -> adj' = adj)
    /\ (adj <= adj' <= adj + 5)%Z.
Proof.
  unfold delta_step.
  destruct (truthy (Py.get td k_de)) eqn:E1;
    [|exists adj, []; rewrite app_nil_r; cbn; repeat split; lia].
  destruct (truthy (Py.get td k_nde)) eqn:E2;
    [|exists adj, []; rewrite app_nil_r; cbn; repeat split; lia].
  destruct (index_truthy _ _ E1) as [v1 ->].
  destruct (index_truthy _ _ E2) as [v2 ->].
  cbn [andb Py.bind].
  destruct (Z.abs (v1 - v2) >? BEARING_TEMP_LIMITS.delta_threshold)%Z.
  - do 2 eexists. split; [reflexivity|]. split; [discriminate | lia].
  - exists adj, []. rewrite app_nil_r. repeat split; lia.
Qed.

(** The state after the loop over the readings. *)
Lemma temperature_fold_effect (consistent : bool) (td : dict Z) :
  forall adj notes,
  exists adj' added,
    fold_left (temperature_step consistent) td (adj, notes)
    = (adj', notes ++ added)
    /\ (added = [] -> adj' = adj)
    /\ (consistent = true -> (adj <= adj')%Z)
    /\ (consistent = false -> (adj' <= adj)%Z)
    /\ ((forall k t, In (k, t) td -> (t < 80)%Z) -> (adj <= adj')%Z)
    /\ (consistent = true ->
        (exists k t, In (k, t) td /\ (90 <= t)%Z) -> (adj + 20 <= adj')%Z).
Proof.
  induction td as [|item td IH]; intros adj notes; cbn [fold_left].
  - exists adj, []. rewrite app_nil_r. repeat split; try lia.
    intros _ (k & t & [] & _).
  - destruct (temperature_step_effect consistent adj notes item)
      as (a1 & add1 & -> & Hs0 & Hs1 & Hs2 & Hs3 & Hs4).
    destruct (IH a1 (notes ++ add1))
      as (a2 & add2 & -> & Hf0 & Hf1 & Hf2 & Hf3 & Hf4).
    exists a2, (add1 ++ add2). rewrite app_assoc.
    split; [reflexivity|]. split; [|split; [|split; [|split]]].
    + intros H. apply app_eq_nil in H. destruct H as [H1 H2].
      rewrite (Hf0 H2). exact (Hs0 H1).
    + intros Hc. specialize (Hs1 Hc). specialize (Hf1 Hc). lia.
    + intros Hc. specialize (Hs2 Hc). specialize (Hf2 Hc). lia.
    + intros Hall.
      assert (adj <= a1)%Z.
      { destruct item as [k t]. apply Hs3. cbn. apply (Hall k). now left. }
      assert (a1 <= a2)%Z.
      { apply Hf3. intros k t Hin. apply (Hall k). now right. }
      lia.
    + intros Hc (k & t & [Hin|Hin] & Ht).
      * subst item. cbn [snd] in Hs4. specialize (Hs4 Hc Ht).
        specialize (Hf1 Hc). lia.
      * specialize (Hs1 Hc).
        assert (a1 + 20 <= a2)%Z by (apply (Hf4 Hc); eauto). lia.
Qed.

(** The adjuster's result in terms of the state reached before the clamp. *)
Lemma adjustment_effect (td : dict Z) (consistent : bool) :
  exists raw notes,
    calculate_temperature_confidence_adjustment td consistent
    = Ok (Z.min 20 (Z.max (-10) raw), notes)
    /\ (notes = [] -> raw = 0%Z)
    /\ (consistent = true -> (0 <= raw)%Z)
    /\ (consistent = false -> (raw <= 10)%Z)
    /\ ((forall k t, In (k, t) td -> (t < 80)%Z) -> (0 <= raw)%Z)
    /\ (consistent = true ->
        (exists k t, In (k, t) td /\ (90 <= t)%Z) -> (20 <= raw)%Z).
Proof.
  unfold calculate_temperature_confidence_adjustment.
  destruct (temperature_fold_effect consistent td 0 [])
    as (a1 & n1 & -> & H0 & H1 & H2 & H3 & H4).
  cbn [app].
  destruct (delta_step_effect td "Pump_DE" "Pump_NDE" "Pump" a1 n1)
    as (a2 & n2 & -> & Hp0 & Hp). cbn [Py.bind].
  destruct (delta_step_effect td "Motor_DE" "Motor_NDE" "Motor" a2 (n1 ++ n2))
    as (a3 & n3 & -> & Hm0 & Hm). cbn [Py.bind].
  assert (Hn : exists n4,
             (if truthy (Py.get td "Motor_DE") && truthy (Py.get td "Pump_DE")
              then t_m <- Py.index td "Motor_DE" ;;
                   t_p <- Py.index td "Pump_DE" ;;
                   if (t_m >? t_p + 10)%Z
                   then Ok (((n1 ++ n2) ++ n3)
                            ++ ["⚡ Motor DE > Pump DE - Possible electrical origin"])
                   else Ok ((n1 ++ n2) ++ n3)
              else Ok ((n1 ++ n2) ++ n3)) = Ok (((n1 ++ n2) ++ n3) ++ n4)).
  { destruct (truthy (Py.get td "Motor_DE")) eqn:E1;
      [|exists []; cbn; now rewrite app_nil_r].
    destruct (truthy (Py.get td "Pump_DE")) eqn:E2;
      [|exists []; cbn; now rewrite app_nil_r].
    destruct (index_truthy _ _ E1) as [v1 ->].
    destruct (index_truthy _ _ E2) as [v2 ->].
    cbn. destruct (v1 >? v2 + 10)%Z;
      [eauto | exists []; now rewrite app_nil_r]. }
  destruct Hn as [n4 ->]. cbn [Py.bind].
  exists a3. eexists. split; [reflexivity|].
  split; [|split; [|split; [|split]]].
  - intros H. apply app_eq_nil in H. destruct H as [H _].
    apply app_eq_nil in H. destruct H as [H Hn3].
    apply app_eq_nil in H. destruct H as [Hn1 Hn2].
    rewrite (Hm0 Hn3), (Hp0 Hn2). exact (H0 Hn1).
  - intros Hc. specialize (H1 Hc). lia.
  - intros Hc. specialize (H2 Hc). lia.
  - intros Hall. specialize (H3 Hall). lia.
  - intros Hc Hex. specialize (H4 Hc Hex). lia.
Qed.

(** X11: the sign of the adjustment follows the consistency flag: with a
    consistent diagnosis the adjustment lies in [0, 20], with an inconsistent
    one in [-10, 10]; and whatever the flag, a map without a reading of 80
    degrees or more is never penalised (the adjustment is at least 0). *)
Theorem adjustment_sign :
  forall (temp_dict : dict Z) (consistent : bool),
  exists adjustment notes,
    calculate_temperature_confidence_adjustment temp_dict consistent
    = Ok (adjustment, notes)
    /\ (consistent = true -> (0 <= adjustment <= 20)%Z)
    /\ (consistent = false -> (-10 <= adjustment <= 10)%Z)
    /\ ((forall k t, In (k, t) temp_dict -> (t < 80)%Z) ->
        (0 <= adjustment)%Z).
Proof.
  intros td consistent.
  destruct (adjustment_effect td consistent)
    as (raw & notes & Hcalc & _ & H1 & H2 & H3 & _).
  do 2 eexists. split; [exact Hcalc|].
  split; [|split].
  - intros Hc. specialize (H1 Hc). lia.
  - intros Hc. specialize (H2 Hc). lia.
  - intros Hall. specialize (H3 Hall). lia.
Qed.

(** X12: one critical reading saturates the bonus: with a consistent
    diagnosis, a map holding a reading of 90 degrees or more yields the
    maximal adjustment 20, whatever the other readings. *)
Theorem critical_reading_saturates :
  forall (temp_dict : dict Z) (k : string) (t : Z),
    In (k, t) temp_dict -> (90 <= t)%Z ->
    exists notes,
      calculate_temperature_confidence_adjustment temp_dict true
      = Ok (20%Z, notes).
Proof.
  intros td k t Hin Ht.
  destruct (adjustment_effect td true)
    as (raw & notes & Hcalc & _ & _ & _ & _ & H4).
  assert (20 <= raw)%Z by (apply H4; [reflexivity | eauto]).
  exists notes. rewrite Hcalc. repeat f_equal. lia.
Qed.

Lemma critical_reading_saturates_witness :
  exists notes,
    calculate_temperature_confidence_adjustment (temps 95 63 68 66) true
    = Ok (20%Z, notes).
Proof.
  apply (@critical_reading_saturates (temps 95 63 68 66) "Pump_DE" 95).
  - left. reflexivity.
  - discriminate.
Defined.

(** X13: no adjustment goes unexplained: the adjuster returns, and when it
    returns no note its adjustment is 0. *)
Theorem adjustment_without_note_is_zero :
  forall (temp_dict : dict Z) (consistent : bool),
  exists adjustment notes,
    calculate_temperature_confidence_adjustment temp_dict consistent
    = Ok (adjustment, notes)
    /\ (notes = [] -> adjustment = 0%Z).
Proof.
  intros td consistent.
  destruct (adjustment_effect td consistent)
    as (raw & notes & Hcalc & H0 & _).
  do 2 eexists. split; [exact Hcalc|].
  intros Hn. rewrite (H0 Hn). reflexivity.
Qed.

(** ** Bearing path: what the fold keeps *)

Lemma bearing_step_nomatch (st : Severity * string) (item : string * dict Q) :
  bearing_match (snd item) = false -> bearing_step st item = st.
Proof.
  unfold bearing_match, bearing_step. destruct st as [sev diag]. cbv zeta.
  intros H. apply orb_false_iff in H. destruct H as [H H3].
  apply orb_false_iff in H. destruct H as [H1 H2].
  now rewrite H1, H2, H3.
Qed.

Lemma bearing_step_match (st : Severity * string) (item : string * dict Q) :
  bearing_match (snd item) = true ->
  fst (bearing_step st item) <> Low
  /\ In (snd (bearing_step st item))
        ["BEARING_EARLY"; "BEARING_DEVELOPED"; "BEARING_SEVERE"].
Proof.
  unfold bearing_match, bearing_step. destruct st as [sev diag]. cbv zeta.
  intros H.
  destruct (_ && _) eqn:E1 in H |- *.
  { cbn. split; [discriminate | tauto]. }
  destruct (_ && _) eqn:E2 in H |- *.
  { cbn [fst snd]. split; [|cbn; tauto].
    destruct (Py.get_default (snd item) "Band2" 0 >? 3 * ACCEL_BASELINE.Band2);
      discriminate. }
  cbn [orb] in H. rewrite H. cbn [fst snd].
  split; [destruct sev; discriminate | cbn; tauto].
Qed.

Lemma bearing_fold_keeps (bands_data : dict (dict Q)) :
  forall st,
    fst st <> Low ->
    In (snd st) ["BEARING_EARLY"; "BEARING_DEVELOPED"; "BEARING_SEVERE"] ->
    fst (fold_left bearing_step bands_data st) <> Low
    /\ In (snd (fold_left bearing_step bands_data st))
          ["BEARING_EARLY"; "BEARING_DEVELOPED"; "BEARING_SEVERE"].
Proof.
  induction bands_data as [|item l IH]; intros st H1 H2; cbn [fold_left];
    [split; assumption|].
  destruct (bearing_match (snd item)) eqn:E.
  - destruct (bearing_step_match st item E) as [H1' H2']. now apply IH.
  - rewrite (bearing_step_nomatch st item E). now apply IH.
Qed.

Lemma bearing_fold_verdict (bands_data : dict (dict Q)) :
  forall st,
    if existsb (fun item => bearing_match (snd item)) bands_data
    then fst (fold_left bearing_step bands_data st) <> Low
         /\ In (snd (fold_left bearing_step bands_data st))
               ["BEARING_EARLY"; "BEARING_DEVELOPED"; "BEARING_SEVERE"]
    else fold_left bearing_step bands_data st = st.
Proof.
  induction bands_data as [|item l IH]; intros st; cbn [existsb fold_left];
    [reflexivity|].
  destruct (bearing_match (snd item)) eqn:E; cbn [orb].
  - destruct (bearing_step_match st item E) as [H1 H2].
    now apply bearing_fold_keeps.
  - rewrite (bearing_step_nomatch st item E). apply IH.
Qed.

(** X14: the bearing path loses no finding: its verdict is (Low, Normal)
    exactly when no point of the band map matches a bearing rule; as soon as
    one point matches, the severity is Medium or High and the diagnosis is
    one of the three bearing codes. *)
Theorem bearing_verdict_normal_iff :
  forall bands_data : dict (dict Q),
    let verdict := bearing_path bands_data in
    let some_match :=
      existsb (fun item => bearing_match (snd item)) bands_data in
    (some_match = false -> verdict = (Low, "Normal"))
    /\ (some_match = true ->
        fst verdict <> Low
        /\ In (snd verdict)
              ["BEARING_EARLY"; "BEARING_DEVELOPED"; "BEARING_SEVERE"])
    /\ (fst verdict = Low <-> snd verdict = "Normal").
Proof.
  intros bands_data verdict some_match. subst verdict some_match.
  unfold bearing_path.
  pose proof (bearing_fold_verdict bands_data (Low, "Normal")) as H.
  destruct (existsb _ bands_data).
  - destruct H as [H1 H2]. split; [discriminate|]. split; [tauto|].
    split; [intros E; contradiction|].
    intros E. rewrite E in H2. cbn in H2.
    destruct H2 as [H2|[H2|[H2|[]]]]; discriminate H2.
  - rewrite H. split; [reflexivity|]. split; [discriminate|]. cbn. tauto.
Qed.

(** ** Mechanical diagnoser: the final decision *)

Lemma get_In {V} (d : dict V) (k : string) (v : V) :
  Py.get d k = Some v -> In (k, v) d.
Proof.
  induction d as [|[k' v'] d IH]; cbn; [discriminate|].
  destruct (String.eqb k k') eqn:E.
  - apply String.eqb_eq in E. intros [= ->]. left. now subst.
  - intros H. right. now apply IH.
Qed.

Lemma direction_rules_cases vel_data fft rpm_hz max_vel machine end_ direction :
  exists d conf,
    direction_rules vel_data fft rpm_hz max_vel machine end_ direction
    = Ok (d, conf)
    /\ In d [None; Some "MISALIGNMENT"; Some "UNBALANCE"; Some "LOOSENESS"].
Proof.
  unfold direction_rules. cbv zeta.
  destruct (String.eqb direction "Axial" && String.eqb end_ "DE").
  { match goal with |- context [if ?b || ?c then _ else _] => destruct (b || c) end;
      [|do 2 eexists; split; [reflexivity | cbn; tauto]].
    rewrite limit_warning_pos, (div_pos _ _ limit_warning_pos). cbn [Py.bind].
    do 2 eexists; split; [reflexivity | cbn; tauto]. }
  destruct (String.eqb direction "Horizontal").
  { match goal with |- context [if ?b || ?c then _ else _] => destruct (b || c) end;
      [|do 2 eexists; split; [reflexivity | cbn; tauto]].
    destruct (max_vel >? 0) eqn:E; [rewrite (div_pos _ _ E)|]; cbn [Py.bind];
      do 2 eexists; (split; [reflexivity | cbn; tauto]). }
  destruct (String.eqb direction "Vertical");
    [|do 2 eexists; split; [reflexivity | cbn; tauto]].
  match goal with |- context [if ?b || ?c then _ else _] => destruct (b || c) end;
    do 2 eexists; (split; [reflexivity | cbn; tauto]).
Qed.

Lemma velocity_severity_low (v : Q) :
  velocity_severity v = Low <-> v <= 4.5.
Proof.
  unfold velocity_severity, ISO_LIMITS_VELOCITY.Zone_C_Unacceptable,
    ISO_LIMITS_VELOCITY.Zone_B_Acceptable.
  destruct (v >? 7.1) eqn:E1; [apply gtb_gt in E1 | apply gtb_le in E1].
  - split; [discriminate | lra].
  - destruct (v >? 4.5) eqn:E2; [apply gtb_gt in E2 | apply gtb_le in E2].
    + split; [discriminate | lra].
    + tauto.
Qed.

(** The low-frequency path: its severity is that of the champion velocity;
    it names a diagnosis exactly when that severity is not Low. *)
Lemma low_freq_path_spec vel_data fft rpm_hz champ_point max_vel :
  exists d conf,
    low_freq_path vel_data fft rpm_hz champ_point max_vel
    = Ok (d, velocity_severity max_vel, conf)
    /\ (max_vel <= 4.5 -> d = None /\ conf = 0%Z)
    /\ (4.5 < max_vel ->
        exists s, d = Some s
                  /\ In s ["MISALIGNMENT"; "UNBALANCE"; "LOOSENESS";
                           "Tidak Terdiagnosa"]).
Proof.
  unfold low_freq_path, velocity_severity,
    ISO_LIMITS_VELOCITY.Zone_C_Unacceptable,
    ISO_LIMITS_VELOCITY.Zone_B_Acceptable. cbv zeta.
  destruct (max_vel >? 4.5) eqn:E; [apply gtb_gt in E | apply gtb_le in E].
  2:{ assert (Hd : (max_vel >? 7.1) = false) by (apply gtb_le; lra).
      rewrite Hd. do 2 eexists. split; [reflexivity|].
      split; [tauto | intros H; lra]. }
  destruct (split champ_point) as [|m [|e [|dr ?]]]; cbv iota beta.
  all: match goal with
       | |- context [direction_rules ?a ?b ?c ?d ?e ?f ?g] =>
           destruct (direction_rules_cases a b c d e f g)
             as (dg & conf & Hr & Hin)
       end.
  all: rewrite Hr; cbn [Py.bind].
  all: destruct Hin as [<-|[<-|[<-|[<-|[]]]]];
    do 2 eexists;
    (split; [destruct (max_vel >? 7.1); reflexivity|]);
    (split; [intros H; lra|]); intros _; eexists;
    (split; [reflexivity | cbn; tauto]).
Qed.

Lemma low_freq_path_inactive vel_data fft rpm_hz champ_point max_vel :
  max_vel <= 4.5 ->
  low_freq_path vel_data fft rpm_hz champ_point max_vel = Ok (None, Low, 0%Z).
Proof.
  intros H. unfold low_freq_path, ISO_LIMITS_VELOCITY.Zone_B_Acceptable.
  cbv zeta. now rewrite (proj2 (gtb_le max_vel 4.5) H).
Qed.

(** The final decision, by the two severities it merges. *)
Lemma diagnose_mechanical_system_spec vel_data bands_data fft rpm_hz temp_data c v :
  max_key vel_data = Ok c ->
  Py.get vel_data c = Some v ->
  exists d conf r,
    low_freq_path vel_data fft rpm_hz c v = Ok (d, velocity_severity v, conf)
    /\ diagnose_mechanical_system vel_data bands_data fft rpm_hz temp_data = Ok r
    /\ severity r
       = Severity_max (velocity_severity v) (fst (bearing_path bands_data))
    /\ match velocity_severity v, fst (bearing_path bands_data) with
       | High, _ | Medium, Medium | Medium, Low =>
           fault_type r = "low_freq" /\ diagnosis r = diag_str d
           /\ confidence r = conf /\ champion_point r = Some c
       | Medium, High | Low, High =>
           fault_type r = "high_freq"
           /\ diagnosis r = snd (bearing_path bands_data)
           /\ confidence r = 85%Z /\ champion_point r = Some c
       | Low, Medium =>
           fault_type r = "high_freq"
           /\ diagnosis r = snd (bearing_path bands_data)
           /\ confidence r = 75%Z /\ champion_point r = Some c
       | Low, Low => r = mech_normal
       end.
Proof.
  intros Hc Hv.
  destruct (low_freq_path_spec vel_data fft rpm_hz c v) as (d & conf & Hlf & _).
  exists d, conf. unfold diagnose_mechanical_system.
  destruct (bearing_path bands_data) as [bs bd]. cbn [fst snd].
  rewrite Hc. cbn [Py.bind]. unfold Py.index. rewrite Hv. cbn [Py.bind].
  cbv zeta. rewrite Hlf. cbn [Py.bind].
  destruct (velocity_severity v), bs; cbn [Severity_eqb];
    eexists; (split; [reflexivity|]); (split; [reflexivity|]);
    cbn; repeat split.
Qed.

Lemma bearing_path_codes (bands_data : dict (dict Q)) :
  fst (bearing_path bands_data) <> Low ->
  In (snd (bearing_path bands_data))
     ["BEARING_EARLY"; "BEARING_DEVELOPED"; "BEARING_SEVERE"].
Proof.
  unfold bearing_path.
  pose proof (bearing_fold_verdict bands_data (Low, "Normal")) as H.
  destruct (existsb _ bands_data); [tauto|].
  rewrite H. cbn. congruence.
Qed.



(** X16: while every overall velocity is within 4.5 mm/s the spectrum is not
    read: the diagnoser's outcome is the same for any two FFT peak lists and
    running speeds; and when in addition no point matches a bearing rule, the
    verdict is Normal, Low, confidence 99, with the champion sentinel. *)
Theorem quiet_unit_ignores_spectrum :
  forall (vel_data : dict Q) (bands_data : dict (dict Q))
         (fft fft' : list FFTPeak) (rpm_hz rpm_hz' : Q) (temp_data : dict Z),
    (forall k x, In (k, x) vel_data -> x <= 4.5) ->
    diagnose_mechanical_system vel_data bands_data fft rpm_hz temp_data
    = diagnose_mechanical_system vel_data bands_data fft' rpm_hz' temp_data
    /\ (vel_data <> [] ->
        existsb (fun item => bearing_match (snd item)) bands_data = false ->
        diagnose_mechanical_system vel_data bands_data fft rpm_hz temp_data
        = Ok mech_normal).
Proof.
  intros vel_data bands_data fft fft' rpm_hz rpm_hz' temp_data Hall.
  destruct vel_data as [|kv rest] eqn:Evel.
  { split; [|congruence]. unfold diagnose_mechanical_system.
    now destruct (bearing_path bands_data). }
  rewrite <- Evel in *.
  assert (Hne : vel_data <> []) by (rewrite Evel; discriminate).
  destruct (max_key_nonempty Hne) as [c Hc].
  destruct (get_in_keys vel_data c (max_key_in _ Hc)) as [v Hv].
  assert (Hv45 : v <= 4.5) by (apply (Hall c); now apply get_In).
  assert (Hrun : forall f r,
             diagnose_mechanical_system vel_data bands_data f r temp_data
             = (let '(worst, bdiag) := bearing_path bands_data in
                if Severity_eqb worst High
                then Ok (update (set_champion mech_base c) bdiag 85 High "high_freq")
                else if Severity_eqb worst Medium
                     then Ok (update (set_champion mech_base c) bdiag 75 Medium
                                "high_freq")
                     else Ok mech_normal)).
  { intros f r. unfold diagnose_mechanical_system.
    destruct (bearing_path bands_data) as [bs bd].
    rewrite Hc. cbn [Py.bind]. unfold Py.index. rewrite Hv. cbn [Py.bind].
    cbv zeta. rewrite (low_freq_path_inactive _ _ _ _ Hv45). cbn [Py.bind].
    destruct bs; reflexivity. }
  split; [now rewrite !Hrun|].
  intros _ Hnone. rewrite Hrun.
  pose proof (bearing_fold_verdict bands_data (Low, "Normal")) as Hb.
  rewrite Hnone in Hb. unfold bearing_path. rewrite Hb. reflexivity.
Qed.

Lemma quiet_unit_ignores_spectrum_witness :
  diagnose_mechanical_system vel_all_one bands_all_baseline
    [(25, 0.1); (50, 0.05)] 25 (temps 65 63 68 66)
  = diagnose_mechanical_system vel_all_one bands_all_baseline
      [(30, 9); (60, 9)] 30 (temps 65 63 68 66)
  /\ diagnose_mechanical_system vel_all_one bands_all_baseline
       [(25, 0.1); (50, 0.05)] 25 (temps 65 63 68 66)
     = Ok mech_normal.
Proof.
  destruct (@quiet_unit_ignores_spectrum vel_all_one bands_all_baseline
              [(25, 0.1); (50, 0.05)] [(30, 9); (60, 9)] 25 30
              (temps 65 63 68 66)) as [H1 H2].
  - intros k x Hin. cbn in Hin.
    repeat (destruct Hin as [[= <- <-]|Hin]; [discriminate|]). contradiction.
  - split; [exact H1|]. apply H2; [discriminate | reflexivity].
Defined.

(** ** Mechanical confidence *)

Lemma next_amp_nonneg (target rpm_hz : Q) (fft : list FFTPeak) :
  (forall p, In p fft -> 0 <= snd p) -> 0 <= next_amp target rpm_hz fft.
Proof.
  induction fft as [|p fft IH]; intros H; cbn; [apply Qle_refl|].
  destruct (in_band target rpm_hz p).
  - apply H. now left.
  - apply IH. intros q Hq. apply H. now right.
Qed.

Lemma get_default_nonneg (d : dict Q) (k : string) :
  (forall k' x, In (k', x) d -> 0 <= x) -> 0 <= Py.get_default d k 0.
Proof.
  intros H. unfold Py.get_default.
  destruct (Py.get d k) as [x|] eqn:E; [|apply Qle_refl].
  apply (H k). now apply get_In.
Qed.

Lemma Ok_pair_inj {A B} (a c : A) (b d : B) :
  @Ok (A * B) (a, b) = Ok (c, d) -> a = c /\ b = d.
Proof. intros H. injection H as -> ->. now split. Qed.

Lemma direction_rules_confidence vel_data fft rpm_hz max_vel machine end_
    direction d conf :
  (forall k x, In (k, x) vel_data -> 0 <= x) ->
  (forall p, In p fft -> 0 <= snd p) ->
  direction_rules vel_data fft rpm_hz max_vel machine end_ direction
  = Ok (Some d, conf) ->
  (60 <= conf <= 95)%Z.
Proof.
  intros Hvel Hfft. unfold direction_rules. cbv zeta.
  destruct (String.eqb direction "Axial" && String.eqb end_ "DE").
  { match goal with |- context [if ?b || ?c then _ else _] => destruct (b || c) end;
      [|discriminate].
    rewrite limit_warning_pos, (div_pos _ _ limit_warning_pos). cbn [Py.bind].
    intros Heq. apply Ok_pair_inj in Heq. destruct Heq as [_ <-].
    match goal with
    | |- context [Py.int ?x] => assert (0 <= Py.int x)%Z
    end.
    { apply int_nonneg.
      match goal with
      | |- 0 <= ?o / _ * 10 =>
          assert (0 <= o) by (apply get_default_nonneg; exact Hvel);
          assert (0 <= o / ISO_LIMITS_VELOCITY.Zone_B_Acceptable)
            by (apply Qdiv_nonneg; [assumption | reflexivity])
      end.
      lra. }
    lia. }
  destruct (String.eqb direction "Horizontal").
  { match goal with |- context [if ?b || ?c then _ else _] => destruct (b || c) end;
      [|discriminate].
    destruct (max_vel >? 0) eqn:E; [rewrite (div_pos _ _ E)|]; cbn [Py.bind];
      intros Heq; apply Ok_pair_inj in Heq; destruct Heq as [_ <-].
    - apply gtb_gt in E.
      assert (0 <= Py.int (amp_1x fft rpm_hz / max_vel * 20))%Z.
      { apply int_nonneg.
        assert (0 <= amp_1x fft rpm_hz) by (apply next_amp_nonneg; exact Hfft).
        assert (0 <= amp_1x fft rpm_hz / max_vel) by (now apply Qdiv_nonneg).
        lra. }
      lia.
    - change (Py.int 0) with 0%Z. lia. }
  destruct (String.eqb direction "Vertical"); [|discriminate].
  match goal with |- context [if ?b || ?c then _ else _] => destruct (b || c) end;
    [|discriminate].
  intros Heq. apply Ok_pair_inj in Heq. destruct Heq as [_ <-].
  unfold count_high_verts. lia.
Qed.

(** The confidence range of a mechanical verdict on inputs that are not
    negative. *)
Lemma diagnose_mechanical_system_confidence :
  forall (vel_data : dict Q) (bands_data : dict (dict Q))
         (fft : list FFTPeak) (rpm_hz : Q) (temp_data : dict Z)
         (r : DiagnosisResult),
    (forall k x, In (k, x) vel_data -> 0 <= x) ->
    (forall p, In p fft -> 0 <= snd p) ->
    diagnose_mechanical_system vel_data bands_data fft rpm_hz temp_data = Ok r ->
    (40 <= confidence r <= 99)%Z.
Proof.
  intros vel_data bands_data fft rpm_hz temp_data r Hvel Hfft.
  unfold diagnose_mechanical_system.
  destruct (bearing_path bands_data) as [bs bd].
  destruct (max_key vel_data) as [c|e]; [|discriminate]. cbn [Py.bind].
  destruct (Py.index vel_data c) as [v|e]; [|discriminate]. cbn [Py.bind].
  cbv zeta.
  assert (Hlf : forall d sev conf,
             low_freq_path vel_data fft rpm_hz c v = Ok (d, sev, conf) ->
             sev = Low \/ (40 <= conf <= 95)%Z).
  { intros d sev conf. unfold low_freq_path. cbv zeta.
    destruct (v >? ISO_LIMITS_VELOCITY.Zone_B_Acceptable);
      [|intros [= _ <- _]; now left].
    destruct (split c) as [|m [|e [|dr ?]]]; cbv iota beta.
    all: match goal with
         | |- context [direction_rules ?a ?b ?c ?d ?e ?f ?g] =>
             destruct (direction_rules a b c d e f g) as [[[dg|] cf]|err] eqn:Er
         end; cbn [Py.bind]; try discriminate.
    all: intros [= _ _ <-]; right;
      try (pose proof (direction_rules_confidence _ _ _ _ _ _ _ Hvel Hfft Er));
      lia. }
  destruct (low_freq_path vel_data fft rpm_hz c v) as [[[d sev] conf]|e] eqn:El;
    [|discriminate].
  cbn [Py.bind].
  destruct (Hlf d sev conf eq_refl) as [->|Hconf].
  - destruct bs; cbn; intros [= <-]; cbn; lia.
  - destruct sev, bs; cbn; intros [= <-]; cbn; lia.
Qed.

(** X17: for velocities and peak amplitudes that are not negative, the
    confidence of the mechanical verdict lies between 40 and 99. *)
Theorem mechanical_confidence_bounds :
  forall (vel_data : dict Q) (bands_data : dict (dict Q))
         (fft : list FFTPeak) (rpm_hz : Q) (temp_data : dict Z)
         (r : DiagnosisResult),
    (forall k x, In (k, x) vel_data -> 0 <= x) ->
    (forall p, In p fft -> 0 <= snd p) ->
    diagnose_mechanical_system vel_data bands_data fft rpm_hz temp_data = Ok r ->
    (40 <= confidence r <= 99)%Z.
Proof.
  intros vel_data bands_data fft rpm_hz temp_data r Hvel Hfft Hr.
  pose proof (diagnose_mechanical_system_confidence vel_data bands_data fft
                rpm_hz temp_data Hvel Hfft Hr) as [Hlo Hhi].
  split; [exact Hlo | exact Hhi].
Qed.

Lemma mechanical_confidence_bounds_witness :
  exists r,
    diagnose_mechanical_system
      (combine points [8; 1; 1; 1; 1; 1; 1; 1; 1; 1; 1; 1]) bands_all_baseline
      [(25, 6); (50, 1)] 25 (temps 65 63 68 66) = Ok r
    /\ (40 <= confidence r <= 99)%Z.
Proof.
  eexists. split; [vm_compute; reflexivity|].
  apply (@mechanical_confidence_bounds
           (combine points [8; 1; 1; 1; 1; 1; 1; 1; 1; 1; 1; 1])
           bands_all_baseline [(25, 6); (50, 1)] 25 (temps 65 63 68 66)).
  - intros k x Hin. cbn in Hin.
    repeat (destruct Hin as [[= <- <-]|Hin]; [discriminate|]). contradiction.
  - intros p Hin. cbn in Hin.
    repeat (destruct Hin as [<-|Hin]; [discriminate|]). contradiction.
  - vm_compute. reflexivity.
Defined.

(** ** Hydraulic classification and diagnosis *)

(** A percentage deviation, guarded as in the classifier. *)
Lemma deviation_guard (a d : Q) :
  exists x,
    (if d >? 0 then (q <- Py.div (a - d) d ;; Ok (q * 100)) else Ok 0) = Ok x
    /\ (d <= 0 -> x = 0).
Proof.
  destruct (d >? 0) eqn:E; [rewrite (div_pos _ _ E)|]; cbn [Py.bind];
    eexists; (split; [reflexivity|]).
  - apply gtb_gt in E. intros H. lra.
  - reflexivity.
Qed.

(** The classifier's five outcomes, each with the deviations it reports. *)
Lemma classify_hydraulic_performance_cases
    (head_aktual head_design efficiency_aktual efficiency_bep
     flow_aktual flow_design : Q) :
  exists dh de df pattern devs,
    classify_hydraulic_performance head_aktual head_design efficiency_aktual
      efficiency_bep flow_aktual flow_design = Ok (pattern, devs)
    /\ (head_design <= 0 -> dh = 0)
    /\ (efficiency_bep <= 0 -> de = 0)
    /\ (flow_design <= 0 -> df = 0)
    /\ ((pattern = "UNDER_PERFORMANCE"
         /\ devs = [("head_dev", dh); ("eff_dev", de)]
         /\ dh < -5 /\ de < -5)
        \/ (pattern = "OVER_RESISTANCE"
            /\ devs = [("head_dev", dh); ("flow_dev", df)]
            /\ 5 < dh /\ df < -5)
        \/ (pattern = "EFFICIENCY_DROP"
            /\ devs = [("eff_dev", de)]
            /\ de < -10 /\ Qabs dh <= 5)
        \/ (pattern = "NORMAL"
            /\ devs = [("head_dev", dh); ("eff_dev", de); ("flow_dev", df)]
            /\ Qabs dh <= 5 /\ Qabs de <= 5 /\ Qabs df <= 5)
        \/ (pattern = "MIXED_DEVIATION"
            /\ devs = [("head_dev", dh); ("eff_dev", de); ("flow_dev", df)]
            /\ ~ (Qabs dh <= 5 /\ Qabs de <= 5 /\ Qabs df <= 5))).
Proof.
  unfold classify_hydraulic_performance.
  destruct (deviation_guard head_aktual head_design) as (dh & -> & Hh).
  destruct (deviation_guard efficiency_aktual efficiency_bep) as (de & -> & He).
  destruct (deviation_guard flow_aktual flow_design) as (df & -> & Hf).
  cbn [Py.bind]. exists dh, de, df.
  destruct ((dh <? -5) && (de <? -5)) eqn:E1.
  { apply andb_true_iff in E1. destruct E1 as [A B].
    apply ltb_lt in A, B. do 2 eexists. split; [reflexivity|].
    repeat split; try assumption. left. repeat split; assumption. }
  destruct ((dh >? 5) && (df <? -5)) eqn:E2.
  { apply andb_true_iff in E2. destruct E2 as [A B].
    apply gtb_gt in A. apply ltb_lt in B. do 2 eexists. split; [reflexivity|].
    repeat split; try assumption. right. left. repeat split; assumption. }
  destruct ((de <? -10) && (Qabs dh <=? 5)) eqn:E3.
  { apply andb_true_iff in E3. destruct E3 as [A B].
    apply ltb_lt in A. apply leb_le in B. do 2 eexists. split; [reflexivity|].
    repeat split; try assumption. right. right. left.
    repeat split; assumption. }
  destruct ((Qabs dh <=? 5) && (Qabs de <=? 5) && (Qabs df <=? 5)) eqn:E4.
  { apply andb_true_iff in E4. destruct E4 as [E4 C].
    apply andb_true_iff in E4. destruct E4 as [A B].
    apply leb_le in A, B, C. do 2 eexists. split; [reflexivity|].
    repeat split; try assumption. right. right. right. left.
    repeat split; assumption. }
  do 2 eexists. split; [reflexivity|].
  repeat split; try assumption. right. right. right. right.
  split; [reflexivity|]. split; [reflexivity|].
  intros (A & B & C). apply leb_le in A, B, C.
  rewrite A, B, C in E4. discriminate E4.
Qed.

Lemma int_at_least (x : Q) (n : Z) : inject_Z n <= x -> (n <= Py.int x)%Z.
Proof. apply int_lower_bound. Qed.

(** The facts about a verdict of the hydraulic diagnoser that the later
    results share. *)
Lemma diagnose_hydraulic_single_point_facts
    (hydraulic_calc : HydraulicCalc) (design_params fluid_props : dict Q)
    (observations : dict string) (context : dict Q) :
  exists r,
    diagnose_hydraulic_single_point hydraulic_calc design_params fluid_props
      observations context = Ok r
    /\ domain r = "hydraulic"
    /\ ((diagnosis r = "CAVITATION" /\ fault_type r = "cavitation"
         /\ (70 <= confidence r <= 90)%Z /\ severity r <> Low)
        \/ (diagnosis r = "IMPELLER_WEAR" /\ fault_type r = "wear"
            /\ (70 <= confidence r <= 85)%Z /\ severity r <> Low)
        \/ (diagnosis r = "SYSTEM_RESISTANCE_HIGH" /\ fault_type r = "system"
            /\ (75 <= confidence r <= 90)%Z /\ severity r <> Low)
        \/ (diagnosis r = "EFFICIENCY_DROP" /\ fault_type r = "efficiency"
            /\ (75 <= confidence r <= 80)%Z /\ severity r <> Low)
        \/ (diagnosis r = "NORMAL_OPERATION" /\ fault_type r = "normal"
            /\ confidence r = 95%Z /\ severity r = Low)
        \/ (diagnosis r = "Tidak Terdiagnosa" /\ fault_type r = "unknown"
            /\ confidence r = 40%Z /\ severity r = Medium)).
Proof.
  unfold diagnose_hydraulic_single_point. cbv zeta.
  destruct (classify_hydraulic_performance_cases
              (head_m hydraulic_calc)
              (Py.get_default design_params "rated_head_m" 0)
              (efficiency_percent hydraulic_calc)
              (Py.get_default design_params "bep_efficiency" 0)
              (Py.get_default context "flow_aktual" 0)
              (Py.get_default design_params "rated_flow_m3h" 0))
    as (dh & de & df & pattern & devs & -> & _ & _ & _ & Hcase).
  destruct (npsh_margin_of_returns design_params fluid_props context)
    as [margin ->].
  cbn [Py.bind].
  set (noise := Py.get_default observations "noise_type" "Normal").
  destruct (String.eqb noise "Crackling" && (margin <? 0.5)) eqn:Ecav.
  { apply andb_true_iff in Ecav. destruct Ecav as [_ Em].
    rewrite Em. apply ltb_lt in Em.
    eexists. split; [reflexivity|]. split; [reflexivity|]. left.
    unfold hydraulic_result;
      cbn [diagnosis fault_type confidence severity].
    assert (0 <= Py.int ((0.5 - margin) * 20))%Z by (apply int_nonneg; lra).
    repeat split; try lia. destruct (margin <? 0.3); discriminate. }
  destruct Hcase as [(-> & -> & Hdh & Hde)
                    |[(-> & -> & Hdh & Hdf)
                     |[(-> & -> & Hde & Hdh)
                      |[(-> & -> & _)|(-> & -> & _)]]]].
  - change (String.eqb "UNDER_PERFORMANCE" "UNDER_PERFORMANCE") with true.
    change (String.eqb "UNDER_PERFORMANCE" "OVER_RESISTANCE") with false.
    change (String.eqb "UNDER_PERFORMANCE" "EFFICIENCY_DROP") with false.
    change (String.eqb "UNDER_PERFORMANCE" "NORMAL") with false.
    cbn [andb].
    destruct (String.eqb noise "Normal");
      (eexists; split; [reflexivity|]; split; [reflexivity|]);
      [|right; right; right; right; right; repeat split].
    right. left.
    unfold hydraulic_result; cbn [diagnosis fault_type confidence severity].
    change (Py.get_default [("head_dev", dh); ("eff_dev", de)] "head_dev" 0)
      with dh.
    assert (10 <= Py.int (Qabs dh * 2))%Z.
    { apply int_at_least. rewrite Qabs_neg by lra.
      change (inject_Z 10) with 10. lra. }
    repeat split; try lia. destruct (dh <? -15); discriminate.
  - change (String.eqb "OVER_RESISTANCE" "UNDER_PERFORMANCE") with false.
    change (String.eqb "OVER_RESISTANCE" "OVER_RESISTANCE") with true.
    cbn [andb].
    eexists. split; [reflexivity|]. split; [reflexivity|].
    right. right. left.
    unfold hydraulic_result; cbn [diagnosis fault_type confidence severity].
    change (Py.get_default [("head_dev", dh); ("flow_dev", df)] "head_dev" 0)
      with dh.
    change (Py.get_default [("head_dev", dh); ("flow_dev", df)] "flow_dev" 0)
      with df.
    assert (5 <= Py.int (Qabs dh))%Z.
    { apply int_at_least. rewrite Qabs_pos by lra.
      change (inject_Z 5) with 5. lra. }
    repeat split; try lia. destruct (df <? -30); discriminate.
  - change (String.eqb "EFFICIENCY_DROP" "UNDER_PERFORMANCE") with false.
    change (String.eqb "EFFICIENCY_DROP" "OVER_RESISTANCE") with false.
    change (String.eqb "EFFICIENCY_DROP" "EFFICIENCY_DROP") with true.
    cbn [andb].
    eexists. split; [reflexivity|]. split; [reflexivity|].
    right. right. right. left.
    unfold hydraulic_result; cbn [diagnosis fault_type confidence severity].
    change (Py.get_default [("eff_dev", de)] "eff_dev" 0) with de.
    assert (10 <= Py.int (Qabs de))%Z.
    { apply int_at_least. rewrite Qabs_neg by lra.
      change (inject_Z 10) with 10. lra. }
    repeat split; try lia. destruct (de <? -20); discriminate.
  - change (String.eqb "NORMAL" "UNDER_PERFORMANCE") with false.
    change (String.eqb "NORMAL" "OVER_RESISTANCE") with false.
    change (String.eqb "NORMAL" "EFFICIENCY_DROP") with false.
    change (String.eqb "NORMAL" "NORMAL") with true.
    cbn [andb].
    eexists. split; [reflexivity|]. split; [reflexivity|].
    right. right. right. right. left. repeat split.
  - change (String.eqb "MIXED_DEVIATION" "UNDER_PERFORMANCE") with false.
    change (String.eqb "MIXED_DEVIATION" "OVER_RESISTANCE") with false.
    change (String.eqb "MIXED_DEVIATION" "EFFICIENCY_DROP") with false.
    change (String.eqb "MIXED_DEVIATION" "NORMAL") with false.
    cbn [andb].
    eexists. split; [reflexivity|]. split; [reflexivity|].
    right. right. right. right. right. repeat split.
Qed.


(** The verdict by pattern, once cavitation is out of the way. *)
Lemma diagnose_hydraulic_by_pattern
    (hydraulic_calc : HydraulicCalc) (design_params fluid_props : dict Q)
    (observations : dict string) (context : dict Q)
    (pattern : string) (devs : dict Q) (margin : Q) :
  classify_hydraulic_performance
    (head_m hydraulic_calc) (Py.get_default design_params "rated_head_m" 0)
    (efficiency_percent hydraulic_calc)
    (Py.get_default design_params "bep_efficiency" 0)
    (Py.get_default context "flow_aktual" 0)
    (Py.get_default design_params "rated_flow_m3h" 0) = Ok (pattern, devs) ->
  npsh_margin_of design_params fluid_props context = Ok margin ->
  String.eqb (Py.get_default observations "noise_type" "Normal") "Crackling"
  && (margin <? 0.5) = false ->
  exists r,
    diagnose_hydraulic_single_point hydraulic_calc design_params fluid_props
      observations context = Ok r
    /\ (pattern = "NORMAL" ->
        diagnosis r = "NORMAL_OPERATION" /\ confidence r = 95%Z
        /\ severity r = Low)
    /\ (pattern = "MIXED_DEVIATION" ->
        diagnosis r = "Tidak Terdiagnosa" /\ confidence r = 40%Z
        /\ severity r = Medium)
    /\ (pattern = "UNDER_PERFORMANCE" ->
        Py.get_default observations "noise_type" "Normal" <> "Normal" ->
        diagnosis r = "Tidak Terdiagnosa" /\ confidence r = 40%Z
        /\ severity r = Medium)
    /\ (pattern = "UNDER_PERFORMANCE" ->
        Py.get_default observations "noise_type" "Normal" = "Normal" ->
        diagnosis r = "IMPELLER_WEAR").
Proof.
  intros Hcl Hm Hcav. unfold diagnose_hydraulic_single_point. cbv zeta.
  rewrite Hcl. cbn [Py.bind]. rewrite Hm. cbn [Py.bind]. rewrite Hcav.
  set (noise := Py.get_default observations "noise_type" "Normal").
  destruct (String.eqb pattern "UNDER_PERFORMANCE") eqn:E1.
  { apply String.eqb_eq in E1. subst pattern.
    destruct (String.eqb noise "Normal") eqn:En; cbn [andb].
    - apply String.eqb_eq in En.
      eexists. split; [reflexivity|].
      split; [discriminate|]. split; [discriminate|].
      split; [intros _ H; contradiction | intros _ _; reflexivity].
    - apply String.eqb_neq in En.
      eexists. split; [reflexivity|].
      split; [discriminate|]. split; [discriminate|].
      split; [intros _ _; repeat split | intros _ H; contradiction]. }
  apply String.eqb_neq in E1. cbn [andb].
  destruct (String.eqb pattern "OVER_RESISTANCE") eqn:E2.
  { apply String.eqb_eq in E2. subst pattern.
    eexists. split; [reflexivity|].
    split; [intros H; discriminate H|]. split; [intros H; discriminate H|].
    split; intros H; discriminate H. }
  destruct (String.eqb pattern "EFFICIENCY_DROP") eqn:E3.
  { apply String.eqb_eq in E3. subst pattern.
    eexists. split; [reflexivity|].
    split; [intros H; discriminate H|]. split; [intros H; discriminate H|].
    split; intros H; discriminate H. }
  destruct (String.eqb pattern "NORMAL") eqn:E4.
  { apply String.eqb_eq in E4. subst pattern.
    eexists. split; [reflexivity|].
    split; [intros _; repeat split|].
    split; [intros H; discriminate H|].
    split; intros H; discriminate H. }
  apply String.eqb_neq in E4.
  eexists. split; [reflexivity|].
  split; [intros H; contradiction|].
  split; [intros _; repeat split|].
  split; intros H; contradiction.
Qed.

(** X19: design data that is unset hides every hydraulic fault but
    cavitation: when rated head, BEP efficiency and rated flow are missing
    from the design parameters or not positive, and the noise is not
    "Crackling", the verdict is NORMAL_OPERATION with confidence 95 and
    severity Low, whatever was measured. *)
Theorem unset_design_data_reads_normal :
  forall (hydraulic_calc : HydraulicCalc) (design_params fluid_props : dict Q)
         (observations : dict string) (context : dict Q),
    Py.get_default design_params "rated_head_m" 0 <= 0 ->
    Py.get_default design_params "bep_efficiency" 0 <= 0 ->
    Py.get_default design_params "rated_flow_m3h" 0 <= 0 ->
    Py.get_default observations "noise_type" "Normal" <> "Crackling" ->
    exists r,
      diagnose_hydraulic_single_point hydraulic_calc design_params fluid_props
        observations context = Ok r
      /\ diagnosis r = "NORMAL_OPERATION"
      /\ confidence r = 95%Z
      /\ severity r = Low.
Proof.
  intros hydraulic_calc design_params fluid_props observations context
    Hh He Hf Hnoise.
  destruct (classify_hydraulic_performance_cases
              (head_m hydraulic_calc)
              (Py.get_default design_params "rated_head_m" 0)
              (efficiency_percent hydraulic_calc)
              (Py.get_default design_params "bep_efficiency" 0)
              (Py.get_default context "flow_aktual" 0)
              (Py.get_default design_params "rated_flow_m3h" 0))
    as (dh & de & df & pattern & devs & Hcl & Hdh & Hde & Hdf & Hcase).
  specialize (Hdh Hh). specialize (Hde He). specialize (Hdf Hf). subst dh de df.
  assert (Hp : pattern = "NORMAL").
  { destruct Hcase as [(_ & _ & H & _)
                      |[(_ & _ & H & _)
                       |[(_ & _ & H & _)
                        |[(H & _)|(_ & _ & H)]]]];
      try (exfalso; revert H; clear; intros H; discriminate H);
      [exact H|].
    exfalso. apply H. repeat split; discriminate. }
  destruct (npsh_margin_of_returns design_params fluid_props context)
    as [margin Hm].
  assert (Hcav : String.eqb (Py.get_default observations "noise_type" "Normal")
                   "Crackling" && (margin <? 0.5) = false).
  { apply String.eqb_neq in Hnoise. now rewrite Hnoise. }
  destruct (diagnose_hydraulic_by_pattern hydraulic_calc design_params
              fluid_props observations context Hcl Hm Hcav)
    as (r & Hr & Hnormal & _).
  exists r. split; [exact Hr|]. apply Hnormal. exact Hp.
Qed.

Lemma unset_design_data_reads_normal_witness :
  exists r,
    diagnose_hydraulic_single_point calc_diesel [] fluid_diesel
      observations_whining context_diesel = Ok r
    /\ diagnosis r = "NORMAL_OPERATION"
    /\ confidence r = 95%Z
    /\ severity r = Low.
Proof.
  apply (@unset_design_data_reads_normal calc_diesel [] fluid_diesel
           observations_whining context_diesel);
    try discriminate.
Defined.

(** X20: an under-performing pump is diagnosed as IMPELLER_WEAR only with
    "Normal" noise: when the classifier reports UNDER_PERFORMANCE, the noise
    is not "Normal" and the cavitation rule does not apply, the verdict is the
    undiagnosed one, with confidence 40 and severity Medium. *)
Theorem under_performance_needs_normal_noise :
  forall (hydraulic_calc : HydraulicCalc) (design_params fluid_props : dict Q)
         (observations : dict string) (context : dict Q)
         (devs : dict Q) (margin : Q),
    classify_hydraulic_performance
      (head_m hydraulic_calc) (Py.get_default design_params "rated_head_m" 0)
      (efficiency_percent hydraulic_calc)
      (Py.get_default design_params "bep_efficiency" 0)
      (Py.get_default context "flow_aktual" 0)
      (Py.get_default design_params "rated_flow_m3h" 0)
    = Ok ("UNDER_PERFORMANCE", devs) ->
    npsh_margin_of design_params fluid_props context = Ok margin ->
    Py.get_default observations "noise_type" "Normal" <> "Normal" ->
    Py.get_default observations "noise_type" "Normal" <> "Crackling"
    \/ 0.5 <= margin ->
    exists r,
      diagnose_hydraulic_single_point hydraulic_calc design_params fluid_props
        observations context = Ok r
      /\ diagnosis r = "Tidak Terdiagnosa"
      /\ confidence r = 40%Z
      /\ severity r = Medium.
Proof.
  intros hydraulic_calc design_params fluid_props observations context devs
    margin Hcl Hm Hnoise Hnocav.
  assert (Hcav : String.eqb (Py.get_default observations "noise_type" "Normal")
                   "Crackling" && (margin <? 0.5) = false).
  { apply andb_false_iff. destruct Hnocav as [H|H].
    - left. now apply String.eqb_neq.
    - right. now apply ltb_ge. }
  destruct (diagnose_hydraulic_by_pattern hydraulic_calc design_params
              fluid_props observations context Hcl Hm Hcav)
    as (r & Hr & _ & _ & Hunder & _).
  exists r. split; [exact Hr|]. now apply Hunder.
Qed.

Lemma under_performance_needs_normal_noise_witness :
  exists r,
    diagnose_hydraulic_single_point calc_diesel design_diesel fluid_diesel
      observations_whining context_diesel = Ok r
    /\ diagnosis r = "Tidak Terdiagnosa"
    /\ confidence r = 40%Z
    /\ severity r = Medium.
Proof.
  eapply (@under_performance_needs_normal_noise calc_diesel design_diesel
            fluid_diesel observations_whining context_diesel).
  - vm_compute. reflexivity.
  - vm_compute. reflexivity.
  - discriminate.
  - left. discriminate.
Defined.



(** ** Aggregator: notes, severity, and what the diagnosers can feed it *)

(** X22: the correlation notes of an integrated result are never empty; with
    no matching rule and no temperature data the result carries exactly the
    two sentinels (label and note) and no temperature note. *)
Theorem correlation_notes_never_empty :
  forall (mech hyd elec : DiagnosisResult) (shared_context : dict string)
         (temp_data : option (dict Z)),
  exists r,
    aggregate_cross_domain_diagnosis mech hyd elec shared_context temp_data
    = Ok r
    /\ correlation_notes r <> []
    /\ (rules_bonus mech hyd elec = 0%Z -> temp_data = None ->
        correlation_notes r = ["Tidak ada korelasi kuat antar domain terdeteksi"]
        /\ sys_diagnosis r = "Tidak Ada Korelasi Antar Domain Terdeteksi"
        /\ sys_temperature_notes r = []).
Proof.
  intros mech hyd elec shared_context temp_data.
  destruct (aggregate_spec mech hyd elec shared_context temp_data)
    as (r & adj & extra & Hr & _ & _ & _ & _ & _ & Hn & _).
  exists r. split; [exact Hr|]. split.
  - rewrite Hn. destruct (_ ++ _ ++ _); discriminate.
  - intros Hb ->. clear Hn.
    unfold aggregate_cross_domain_diagnosis in Hr. cbn in Hr.
    injection Hr as <-. cbn.
    unfold rules_bonus in Hb.
    unfold correlation_rules, correlation3, correlation2, correlation1.
    destruct (correlation1_cond mech hyd elec),
      (correlation2_cond mech hyd elec), (correlation3_cond mech hyd elec);
      try discriminate Hb; repeat split.
Qed.

Lemma Severity_max_le (a b : Severity) :
  Severity_le a (Severity_max a b) /\ Severity_le b (Severity_max a b).
Proof. destruct a, b; unfold Severity_le; cbn; lia. Qed.

(** X23: the integrated severity is never below a domain severity; without
    temperature data, or with an empty temperature map, it is exactly the
    greatest of the three, and an empty map is treated as no map at all. *)
Theorem integrated_severity_dominates :
  forall (mech hyd elec : DiagnosisResult) (shared_context : dict string)
         (temp_data : option (dict Z)),
  exists r,
    aggregate_cross_domain_diagnosis mech hyd elec shared_context temp_data
    = Ok r
    /\ Severity_le (severity mech) (sys_severity r)
    /\ Severity_le (severity hyd) (sys_severity r)
    /\ Severity_le (severity elec) (sys_severity r)
    /\ (temp_data = None \/ temp_data = Some [] ->
        sys_severity r
        = Severity_max (severity mech)
            (Severity_max (severity hyd) (severity elec)))
    /\ aggregate_cross_domain_diagnosis mech hyd elec shared_context (Some [])
       = aggregate_cross_domain_diagnosis mech hyd elec shared_context None.
Proof.
  intros mech hyd elec shared_context temp_data.
  destruct (aggregate_spec mech hyd elec shared_context temp_data)
    as (r & adj & extra & Hr & _ & _ & _ & _ & Hs & _).
  exists r. split; [exact Hr|].
  rewrite overall_severity_max in Hs.
  destruct (Severity_max_le (severity hyd) (severity elec)) as [Hh He].
  destruct (Severity_max_le (severity mech)
              (Severity_max (severity hyd) (severity elec))) as [Hm Hrest].
  unfold Severity_le in *.
  assert (Hge : (Severity_rank
                   (Severity_max (severity mech)
                      (Severity_max (severity hyd) (severity elec)))
                 <= Severity_rank (sys_severity r))%nat).
  { rewrite Hs.
    destruct (some_present_temperature _ temp_data); cbv iota; [|lia].
    generalize (Severity_max (severity mech)
                  (Severity_max (severity hyd) (severity elec))).
    intros [| |]; cbn; lia. }
  split; [lia|]. split; [lia|]. split; [lia|]. split; [|reflexivity].
  intros [->| ->]; exact Hs.
Qed.

Lemma diagnose_mechanical_system_fault_type vel_data bands_data fft rpm_hz
    temp_data r :
  diagnose_mechanical_system vel_data bands_data fft rpm_hz temp_data = Ok r ->
  In (fault_type r) ["normal"; "low_freq"; "high_freq"].
Proof.
  unfold diagnose_mechanical_system.
  destruct (bearing_path bands_data) as [bs bd].
  destruct (max_key vel_data) as [c|e]; [|discriminate]. cbn [Py.bind].
  destruct (Py.index vel_data c) as [v|e]; [|discriminate]. cbn [Py.bind].
  cbv zeta.
  destruct (low_freq_path vel_data fft rpm_hz c v) as [[[d sev] conf]|e];
    [|discriminate].
  cbn [Py.bind].
  destruct sev, bs; cbn [Severity_eqb]; intros Hr; injection Hr as <-;
    cbn; tauto.
Qed.

(** X24: on verdicts that come from the diagnosers at most one correlation
    rule can match.  The mechanical diagnoser never reports the fault type
    "wear", so rule 2 (cascading failure) does not match any of its verdicts;
    the electrical diagnoser reports OVER_LOAD with fault type "load", so
    rules 1 and 3 exclude each other.  The correlation bonus is therefore 0,
    10 or 15. *)
Theorem at_most_one_correlation_rule :
  forall (vel_data : dict Q) (bands_data : dict (dict Q))
         (fft : list FFTPeak) (rpm_hz : Q) (temp_data : dict Z)
         (electrical_calc : ElectricalCalc) (motor_specs : dict Q)
         (mech hyd : DiagnosisResult),
    diagnose_mechanical_system vel_data bands_data fft rpm_hz temp_data
    = Ok mech ->
    let elec := diagnose_electrical_condition electrical_calc motor_specs in
    correlation2_cond mech hyd elec = false
    /\ correlation1_cond mech hyd elec && correlation3_cond mech hyd elec
       = false
    /\ In (rules_bonus mech hyd elec) [0%Z; 10%Z; 15%Z].
Proof.
  intros vel_data bands_data fft rpm_hz temp_data electrical_calc motor_specs
    mech hyd Hmech elec.
  assert (H2 : correlation2_cond mech hyd elec = false).
  { unfold correlation2_cond.
    destruct (diagnose_mechanical_system_fault_type _ _ _ _ _ Hmech)
      as [H|[H|[H|[]]]]; rewrite <- H;
      now rewrite andb_false_r. }
  assert (H13 : correlation1_cond mech hyd elec
                && correlation3_cond mech hyd elec = false).
  { unfold correlation1_cond, correlation3_cond.
    destruct (diagnose_electrical_condition_facts electrical_calc motor_specs)
      as (Hcode & _).
    fold elec in Hcode. cbn [In] in Hcode.
    destruct Hcode as [H|[H|[H|[H|[H|[H|[H|[]]]]]]]];
      injection H as Hd Hf; rewrite <- Hd, <- Hf; cbn;
      rewrite ?andb_false_r; reflexivity. }
  split; [exact H2|]. split; [exact H13|].
  unfold rules_bonus. rewrite H2.
  destruct (correlation1_cond mech hyd elec),
    (correlation3_cond mech hyd elec); try discriminate H13; cbn; tauto.
Qed.

Lemma at_most_one_correlation_rule_witness :
  let elec :=
    diagnose_electrical_condition
      {| v_avg := 400; i_avg := 90; voltage_unbalance_percent := 0.5;
         current_unbalance_percent := 1.2; load_estimate_percent := 105;
         voltage_within_tolerance := true |} [("rated_voltage", 400)] in
  correlation2_cond mech_normal hyd_normal elec = false
  /\ correlation1_cond mech_normal hyd_normal elec
     && correlation3_cond mech_normal hyd_normal elec = false
  /\ In (rules_bonus mech_normal hyd_normal elec) [0%Z; 10%Z; 15%Z].
Proof.
  apply (@at_most_one_correlation_rule vel_all_one bands_all_baseline
           [(25, 0.1); (50, 0.05)] 25 (temps 65 63 68 66)).
  vm_compute. reflexivity.
Defined.

Lemma mean_of_positive_ge (n a b c : Z) :
  (0 < n)%Z -> (n <= a)%Z -> (n <= b)%Z -> (n <= c)%Z ->
  inject_Z n <= mean_of_positive [a; b; c].
Proof.
  intros Hn Ha Hb Hc. unfold mean_of_positive. cbn [filter].
  replace (0 <? a)%Z with true by (symmetry; apply Z.ltb_lt; lia).
  replace (0 <? b)%Z with true by (symmetry; apply Z.ltb_lt; lia).
  replace (0 <? c)%Z with true by (symmetry; apply Z.ltb_lt; lia).
  apply Qle_shift_div_l; [reflexivity|].
  cbn [length fold_right].
  change (inject_Z (Z.of_nat 3)) with (inject_Z 3).
  rewrite <- inject_Z_mult, <- Zle_Qle. lia.
Qed.

(** X25: end to end, the integrated confidence stays within [30, 95]: when
    the three domain verdicts come from the three diagnosers, on velocities
    and peak amplitudes that are not negative, the aggregator returns a
    confidence of at least 30 and at most 95, whatever the temperature data
    and the correlation rules do. *)
Theorem integrated_confidence_of_diagnoser_verdicts :
  forall (vel_data : dict Q) (bands_data : dict (dict Q))
         (fft : list FFTPeak) (rpm_hz : Q) (temp_mech : dict Z)
         (hydraulic_calc : HydraulicCalc) (design_params fluid_props : dict Q)
         (observations : dict string) (context : dict Q)
         (electrical_calc : ElectricalCalc) (motor_specs : dict Q)
         (shared_context : dict string) (temp_data : option (dict Z))
         (mech hyd : DiagnosisResult),
    (forall k x, In (k, x) vel_data -> 0 <= x) ->
    (forall p, In p fft -> 0 <= snd p) ->
    diagnose_mechanical_system vel_data bands_data fft rpm_hz temp_mech
    = Ok mech ->
    diagnose_hydraulic_single_point hydraulic_calc design_params fluid_props
      observations context = Ok hyd ->
    exists r,
      aggregate_cross_domain_diagnosis mech hyd
        (diagnose_electrical_condition electrical_calc motor_specs)
        shared_context temp_data = Ok r
      /\ (30 <= sys_confidence r <= 95)%Z.
Proof.
  intros vel_data bands_data fft rpm_hz temp_mech hydraulic_calc design_params
    fluid_props observations context electrical_calc motor_specs
    shared_context temp_data mech hyd Hvel Hfft Hmech Hhyd.
  set (elec := diagnose_electrical_condition electrical_calc motor_specs).
  pose proof (diagnose_mechanical_system_confidence _ _ _ _ _ Hvel Hfft Hmech)
    as Hcm.
  assert (Hch : (40 <= confidence hyd <= 95)%Z).
  { destruct (diagnose_hydraulic_single_point_facts hydraulic_calc design_params
                fluid_props observations context) as (r & Hr & _ & Hcase).
    rewrite Hr in Hhyd. injection Hhyd as <-.
    destruct Hcase as [(_ & _ & Hc & _)
                      |[(_ & _ & Hc & _)
                       |[(_ & _ & Hc & _)
                        |[(_ & _ & Hc & _)
                         |[(_ & _ & Hc & _)|(_ & _ & Hc & _)]]]]]; lia. }
  assert (Hce : (50 <= confidence elec <= 95)%Z).
  { destruct (diagnose_electrical_condition_facts electrical_calc motor_specs)
      as (_ & Hc & _). exact Hc. }
  destruct (aggregate_spec mech hyd elec shared_context temp_data)
    as (r & adj & extra & Hr & _ & Hrange & _ & Hc & _).
  rewrite correlation_rules_bonus in Hc.
  exists r. split; [exact Hr|].
  pose proof (rules_bonus_nonneg mech hyd elec) as Hb.
  assert (Hmean : inject_Z 40
                  <= mean_of_positive
                       [confidence mech; confidence hyd; confidence elec])
    by (apply mean_of_positive_ge; lia).
  set (m := mean_of_positive _) in *.
  set (b := rules_bonus mech hyd elec) in *.
  assert (Hlow : inject_Z 30 <= m + inject_Z (b + adj)).
  { assert (H10 : inject_Z (-10) <= inject_Z (b + adj))
      by (rewrite <- Zle_Qle; lia).
    change (inject_Z (-10)) with (-10 # 1) in H10.
    change (inject_Z 40) with 40 in Hmean.
    change (inject_Z 30) with 30. lra. }
  apply int_lower_bound in Hlow. rewrite Hc. lia.
Qed.

Lemma integrated_confidence_of_diagnoser_verdicts_witness :
  exists hyd r,
    diagnose_hydraulic_single_point calc_diesel design_diesel fluid_diesel
      observations_whining context_diesel = Ok hyd
    /\ aggregate_cross_domain_diagnosis mech_normal hyd
         (diagnose_electrical_condition
            {| v_avg := 400; i_avg := 90; voltage_unbalance_percent := 0.5;
               current_unbalance_percent := 1.2; load_estimate_percent := 105;
               voltage_within_tolerance := true |} [("rated_voltage", 400)])
         [] (Some (temps 95 63 68 66)) = Ok r
    /\ (30 <= sys_confidence r <= 95)%Z.
Proof.
  destruct (diagnose_hydraulic_single_point calc_diesel design_diesel
              fluid_diesel observations_whining context_diesel)
    as [hyd|e] eqn:Hh; [|vm_compute in Hh; discriminate Hh].
  exists hyd.
  destruct (@integrated_confidence_of_diagnoser_verdicts
              vel_all_one bands_all_baseline [(25, 0.1); (50, 0.05)] 25
              (temps 65 63 68 66) calc_diesel design_diesel fluid_diesel
              observations_whining context_diesel
              {| v_avg := 400; i_avg := 90; voltage_unbalance_percent := 0.5;
                 current_unbalance_percent := 1.2; load_estimate_percent := 105;
                 voltage_within_tolerance := true |} [("rated_voltage", 400)]
              [] (Some (temps 95 63 68 66)) mech_normal hyd)
    as (r & Hr & Hb).
  - intros k x Hin. cbn in Hin.
    repeat (destruct Hin as [[= <- <-]|Hin]; [discriminate|]). contradiction.
  - intros p Hin. cbn in Hin.
    repeat (destruct Hin as [<-|Hin]; [discriminate|]). contradiction.
  - vm_compute. reflexivity.
  - exact Hh.
  - exists r. split; [reflexivity|]. split; [exact Hr | exact Hb].
Defined.

(** ** Recommendations *)

Lemma diagnose_mechanical_system_codes vel_data bands_data fft rpm_hz
    temp_data r :
  diagnose_mechanical_system vel_data bands_data fft rpm_hz temp_data = Ok r ->
  In (diagnosis r)
     ["Normal"; "MISALIGNMENT"; "UNBALANCE"; "LOOSENESS"; "Tidak Terdiagnosa";
      "BEARING_EARLY"; "BEARING_DEVELOPED"; "BEARING_SEVERE"].
Proof.
  intros Hr.
  destruct (max_key vel_data) as [c|e] eqn:Hc.
  2:{ unfold diagnose_mechanical_system in Hr.
      destruct (bearing_path bands_data). rewrite Hc in Hr. discriminate Hr. }
  destruct (get_in_keys vel_data c (max_key_in _ Hc)) as [v Hv].
  destruct (@diagnose_mechanical_system_spec vel_data bands_data fft rpm_hz
              temp_data c v Hc Hv)
    as (d & conf & r' & Hlf & Hr' & _ & Hcase).
  rewrite Hr in Hr'. injection Hr' as <-.
  destruct (low_freq_path_spec vel_data fft rpm_hz c v)
    as (d' & conf' & Hlf' & _ & Hact).
  rewrite Hlf in Hlf'. injection Hlf' as <- <-.
  pose proof (bearing_path_codes bands_data) as Hb.
  assert (Hd : velocity_severity v <> Low ->
               In (diag_str d) ["MISALIGNMENT"; "UNBALANCE"; "LOOSENESS";
                                "Tidak Terdiagnosa"]).
  { intros Hn. destruct Hact as (s & -> & Hin); [|exact Hin].
    destruct (Qlt_le_dec 4.5 v) as [H|H]; [exact H|].
    apply velocity_severity_low in H. contradiction. }
  destruct (velocity_severity v) eqn:Ev, (fst (bearing_path bands_data)) eqn:Eb.
  all: try (subst r; cbn; tauto).
  all: destruct Hcase as (_ & Hdg & _); rewrite Hdg.
  all: try (assert (Hin : In (snd (bearing_path bands_data))
                            ["BEARING_EARLY"; "BEARING_DEVELOPED";
                             "BEARING_SEVERE"])
              by (apply Hb; discriminate);
            cbn in Hin |- *; tauto).
  all: assert (Hin : In (diag_str d) ["MISALIGNMENT"; "UNBALANCE"; "LOOSENESS";
                                      "Tidak Terdiagnosa"])
         by (apply Hd; discriminate);
       cbn in Hin |- *; tauto.
Qed.


(** X27: every verdict of the electrical diagnoser has its own entry in the
    electrical recommendation table. *)
Theorem electrical_recommendation_covers_verdicts :
  forall (electrical_calc : ElectricalCalc) (motor_specs : dict Q),
    let r := diagnose_electrical_condition electrical_calc motor_specs in
    exists rec,
      get_electrical_recommendation (diagnosis r) (severity r) = Ok rec
      /\ Py.get (electrical_rec_map (severity r)) (diagnosis r) = Some rec.
Proof.
  intros electrical_calc motor_specs r.
  destruct (diagnose_electrical_condition_facts electrical_calc motor_specs)
    as (Hcode & _).
  fold r in Hcode. cbn [In] in Hcode.
  destruct Hcode as [H|[H|[H|[H|[H|[H|[H|[]]]]]]]];
    injection H as Hd _; rewrite <- Hd; eexists; split; reflexivity.
Qed.

(** X28: every mechanical verdict other than "Normal" has its own entry in
    the mechanical recommendation table; for "Normal", which has no entry,
    the lookup answers with the entry of the undiagnosed code. *)
Theorem mechanical_recommendation_covers_verdicts :
  forall (vel_data : dict Q) (bands_data : dict (dict Q))
         (fft : list FFTPeak) (rpm_hz : Q) (temp_data : dict Z)
         (r : DiagnosisResult) (location : string),
    diagnose_mechanical_system vel_data bands_data fft rpm_hz temp_data = Ok r ->
    exists rec,
      get_mechanical_recommendation (diagnosis r) location (severity r) = Ok rec
      /\ (diagnosis r <> "Normal" ->
          Py.get (mechanical_rec_map location (severity r)) (diagnosis r)
          = Some rec)
      /\ (diagnosis r = "Normal" ->
          Py.get (mechanical_rec_map location (severity r)) (diagnosis r) = None
          /\ Py.get (mechanical_rec_map location (severity r))
               "Tidak Terdiagnosa" = Some rec).
Proof.
  intros vel_data bands_data fft rpm_hz temp_data r location Hr.
  pose proof (diagnose_mechanical_system_codes _ _ _ _ _ Hr) as Hcode.
  cbn [In] in Hcode.
  destruct Hcode as [H|[H|[H|[H|[H|[H|[H|[H|[]]]]]]]]];
    rewrite <- H; eexists; (split; [reflexivity|]);
    (split; [intros Hn; first [contradiction | reflexivity]
            | intros Hn; first [discriminate Hn | split; reflexivity]]).
Qed.

Lemma mechanical_recommendation_covers_verdicts_witness :
  exists r rec,
    diagnose_mechanical_system vel_all_one bands_severe_then_early
      [(25, 0.1); (50, 0.05)] 25 (temps 65 63 68 66) = Ok r
    /\ get_mechanical_recommendation (diagnosis r) "Pump DE Horizontal"
         (severity r) = Ok rec.
Proof.
  destruct (diagnose_mechanical_system vel_all_one bands_severe_then_early
              [(25, 0.1); (50, 0.05)] 25 (temps 65 63 68 66))
    as [r|e] eqn:Hr; [|vm_compute in Hr; discriminate Hr].
  destruct (@mechanical_recommendation_covers_verdicts
              vel_all_one bands_severe_then_early [(25, 0.1); (50, 0.05)] 25
              (temps 65 63 68 66) r "Pump DE Horizontal" Hr)
    as (rec & Hrec & _).
  exists r, rec. split; [reflexivity | exact Hrec].
Defined.

Lemma get_default_not_in_keys {V} (d : dict V) (k : string) (dflt : V) :
  ~ In k (Py.keys d) -> Py.get_default d k dflt = dflt.
Proof.
  intros H. unfold Py.get_default. now rewrite (get_not_in_keys d k H).
Qed.

(** X29: a diagnosis code that is not a key of a recommendation table gets
    the generic entry of the undiagnosed code, the same text whatever the
    location, the fluid and the severity; no lookup fails. *)
Theorem unknown_code_gets_generic_recommendation :
  forall (diagnosis location fluid_type : string) (severity : Severity),
    (~ In diagnosis (Py.keys (mechanical_rec_map location severity)) ->
     get_mechanical_recommendation diagnosis location severity
     = get_mechanical_recommendation "Tidak Terdiagnosa" EmptyString Low)
    /\ (~ In diagnosis (Py.keys (hydraulic_rec_map fluid_type severity)) ->
        get_hydraulic_recommendation diagnosis fluid_type severity
        = get_hydraulic_recommendation "Tidak Terdiagnosa" EmptyString Low)
    /\ (~ In diagnosis (Py.keys (electrical_rec_map severity)) ->
        get_electrical_recommendation diagnosis severity
        = get_electrical_recommendation "Tidak Terdiagnosa" Low)
    /\ Py.returns (get_mechanical_recommendation diagnosis location severity)
    /\ Py.returns (get_hydraulic_recommendation diagnosis fluid_type severity)
    /\ Py.returns (get_electrical_recommendation diagnosis severity).
Proof.
  intros diagnosis location fluid_type severity.
  split; [|split; [|split; [|split; [|split]]]].
  - intros H. unfold get_mechanical_recommendation. cbv zeta.
    change (Py.index (mechanical_rec_map location severity) "Tidak Terdiagnosa")
      with (Py.index (mechanical_rec_map EmptyString Low) "Tidak Terdiagnosa").
    cbn [Py.bind Py.index]. 
    destruct (Py.index (mechanical_rec_map EmptyString Low) "Tidak Terdiagnosa")
      as [fb|e] eqn:E; [|discriminate E].
    cbn [Py.bind]. rewrite (get_default_not_in_keys _ _ fb H).
    f_equal. unfold Py.index in E.
    unfold Py.get_default.
    destruct (Py.get (mechanical_rec_map EmptyString Low) "Tidak Terdiagnosa");
      [now injection E | discriminate E].
  - intros H. unfold get_hydraulic_recommendation. cbv zeta.
    change (Py.index (hydraulic_rec_map fluid_type severity) "Tidak Terdiagnosa")
      with (Py.index (hydraulic_rec_map EmptyString Low) "Tidak Terdiagnosa").
    destruct (Py.index (hydraulic_rec_map EmptyString Low) "Tidak Terdiagnosa")
      as [fb|e] eqn:E; [|discriminate E].
    cbn [Py.bind]. rewrite (get_default_not_in_keys _ _ fb H).
    f_equal. unfold Py.index in E.
    unfold Py.get_default.
    destruct (Py.get (hydraulic_rec_map EmptyString Low) "Tidak Terdiagnosa");
      [now injection E | discriminate E].
  - intros H. unfold get_electrical_recommendation. cbv zeta.
    change (Py.index (electrical_rec_map severity) "Tidak Terdiagnosa")
      with (Py.index (electrical_rec_map Low) "Tidak Terdiagnosa").
    destruct (Py.index (electrical_rec_map Low) "Tidak Terdiagnosa")
      as [fb|e] eqn:E; [|discriminate E].
    cbn [Py.bind]. rewrite (get_default_not_in_keys _ _ fb H).
    f_equal. unfold Py.index in E.
    unfold Py.get_default.
    destruct (Py.get (electrical_rec_map Low) "Tidak Terdiagnosa");
      [now injection E | discriminate E].
  - unfold get_mechanical_recommendation, Py.returns. cbv zeta.
    change (Py.index (mechanical_rec_map location severity) "Tidak Terdiagnosa")
      with (Py.index (mechanical_rec_map EmptyString Low) "Tidak Terdiagnosa").
    destruct (Py.index (mechanical_rec_map EmptyString Low) "Tidak Terdiagnosa")
      as [fb|e] eqn:E; [cbn; eauto | discriminate E].
  - unfold get_hydraulic_recommendation, Py.returns. cbv zeta.
    change (Py.index (hydraulic_rec_map fluid_type severity) "Tidak Terdiagnosa")
      with (Py.index (hydraulic_rec_map EmptyString Low) "Tidak Terdiagnosa").
    destruct (Py.index (hydraulic_rec_map EmptyString Low) "Tidak Terdiagnosa")
      as [fb|e] eqn:E; [cbn; eauto | discriminate E].
  - unfold get_electrical_recommendation, Py.returns. cbv zeta.
    change (Py.index (electrical_rec_map severity) "Tidak Terdiagnosa")
      with (Py.index (electrical_rec_map Low) "Tidak Terdiagnosa").
    destruct (Py.index (electrical_rec_map Low) "Tidak Terdiagnosa")
      as [fb|e] eqn:E; [cbn; eauto | discriminate E].
Qed.
